(** * TalentScout interview assistant: stage controller and model gateway

    A shallow embedding of [utils.py], [app.py], [ai_bridge.py],
    [openai_helper.py] and [anthropic_helper.py], followed by the properties
    of the interview state machine and of the provider fallback chain.

    Conventions.
    - A Python [str] is a [string] whose characters are the code points
      U+0000 .. U+00FF.
    - A Python [int] is a [Z]; a [list] is a [list]; a [dict] whose
      iteration order is observed is an association list in insertion order.
    - Code that may raise lives in the monad [M]: a computation maps the
      [process] state to an [outcome] (returned value or raised exception)
      and the state it leaves behind, so what was written before a raise
      stays written, as with Streamlit's session state. *)

From Stdlib Require Import ZArith List String Ascii Bool Lia DecimalString.
Import ListNotations.
Open Scope string_scope.

(** ** Python string primitives *)

Module Py.

Definition dquote : ascii := "034"%char.
Definition newline : ascii := "010"%char.
Definition nl : string := String newline "".

(** [sep.join(l)] *)
Fixpoint join (sep : string) (l : list string) : string :=
  match l with
  | [] => ""
  | [x] => x
  | x :: rest => x ++ sep ++ join sep rest
  end.

(** [str(n)] for an [int] *)
Definition str_int (n : Z) : string := NilZero.string_of_int (Z.to_int n).

(** [c.isspace()] on the code points below 256 *)
Definition isspace (c : ascii) : bool :=
  let n := nat_of_ascii c in
  (((9 <=? n) && (n <=? 13)) || ((28 <=? n) && (n <=? 32))
   || (n =? 133) || (n =? 160))%nat.

Fixpoint lstrip (s : string) : string :=
  match s with
  | String c r => if isspace c then lstrip r else s
  | EmptyString => EmptyString
  end.

Fixpoint rstrip (s : string) : string :=
  match s with
  | String c r =>
      match rstrip r with
      | EmptyString => if isspace c then EmptyString else String c EmptyString
      | r' => String c r'
      end
  | EmptyString => EmptyString
  end.

(** [s.strip()] *)
Definition strip (s : string) : string := rstrip (lstrip s).

(** [s.replace(old, new)]: occurrences of [old] are found left to right
    and do not overlap.  [skip] counts the characters of a matched
    occurrence that are still to be passed over. *)
Fixpoint replace_from (old new : string) (skip : nat) (s : string) : string :=
  match s with
  | EmptyString => ""
  | String c r =>
      match skip with
      | S k => replace_from old new k r
      | O =>
          if prefix old s
          then new ++ replace_from old new (String.length old - 1) r
          else String c (replace_from old new 0 r)
      end
  end.

(** With an empty [old], Python puts [new] before every character and at
    the end. *)
Fixpoint replace_empty (new s : string) : string :=
  match s with
  | EmptyString => new
  | String c r => new ++ String c (replace_empty new r)
  end.

Definition replace (old new s : string) : string :=
  if (old =? "")%string then replace_empty new s else replace_from old new 0 s.

(** [pat in s] *)
Fixpoint contains (pat s : string) : bool :=
  prefix pat s ||
  match s with
  | String _ r => contains pat r
  | EmptyString => false
  end.

(** [s.split(sep)] for a one-character separator *)
Fixpoint split (sep : ascii) (s : string) : list string :=
  match s with
  | EmptyString => [""]
  | String c r =>
      if Ascii.eqb c sep then "" :: split sep r
      else match split sep r with
           | h :: t => String c h :: t
           | [] => [String c ""]
           end
  end.

(** [repr(s)] for a [str] *)
Definition hex_digit (n : nat) : ascii :=
  ascii_of_nat (if n <? 10 then 48 + n else 87 + n)%nat.

Definition printable (c : ascii) : bool :=
  let n := nat_of_ascii c in
  (((32 <=? n) && (n <? 127)) || ((161 <=? n) && negb (n =? 173)))%nat.

Fixpoint contains_char (c : ascii) (s : string) : bool :=
  match s with
  | EmptyString => false
  | String d r => Ascii.eqb c d || contains_char c r
  end.

Definition repr_char (quote c : ascii) : string :=
  let n := nat_of_ascii c in
  if Ascii.eqb c quote || Ascii.eqb c "\"%char then String "\"%char (String c "")
  else if (n =? 9)%nat then "\t"
  else if (n =? 10)%nat then "\n"
  else if (n =? 13)%nat then "\r"
  else if printable c then String c ""
  else String "\"%char (String "x"%char
         (String (hex_digit (n / 16)%nat) (String (hex_digit (n mod 16)%nat) ""))).

Fixpoint repr_body (quote : ascii) (s : string) : string :=
  match s with
  | EmptyString => ""
  | String c r => repr_char quote c ++ repr_body quote r
  end.

Definition repr_str (s : string) : string :=
  let quote :=
    if contains_char "'"%char s && negb (contains_char dquote s)
    then dquote else "'"%char in
  String quote (repr_body quote s ++ String quote "").

End Py.

(** ** JSON values, as [json.loads] builds them

    A JSON object becomes a [dict] (insertion order, a repeated key keeps its
    first position and takes the last value), an array a [list], an integer
    literal an [int]; any other number stays as the text of its literal,
    binary floating point not being modelled. *)

#[local] Set Warnings "-register-all".

Inductive json : Type :=
| JNull
| JBool (b : bool)
| JInt (n : Z)
| JFloat (literal : string)
| JStr (s : string)
| JArr (items : list json)
| JObj (fields : list (string * json)).

(** ** Exceptions and outcomes *)

Inductive exception_class : Type :=
| Exception | KeyError | IndexError | TypeError | ValueError | RecursionError.

(** An exception object: its class and [str(e)]. *)
Record exn : Type := mk_exn { exn_class : exception_class; exn_str : string }.

Inductive outcome (A : Type) : Type :=
| Returned (a : A)
| Raised (e : exn).
Arguments Returned {A} a.
Arguments Raised {A} e.

(** What [json.loads] does with a text: it returns the value the text
    denotes, raises [json.JSONDecodeError], or raises another exception
    (a [RecursionError] on deeply nested text, a [ValueError] on an
    integer literal beyond the digit limit).  The message of a
    [JSONDecodeError] is read by nothing but the helper's own logger. *)
Inductive loaded : Type :=
| Loaded (v : json)
| DecodeError
| LoadError (e : exn).

Module Dict.
Section Dict.
Context {V : Type}.

(** [d.get(k)] *)
Fixpoint get (k : string) (d : list (string * V)) : option V :=
  match d with
  | [] => None
  | (k', v) :: rest => if (k' =? k)%string then Some v else get k rest
  end.

(** [d[k] = v] *)
Fixpoint set (k : string) (v : V) (d : list (string * V)) : list (string * V) :=
  match d with
  | [] => [(k, v)]
  | (k', v') :: rest =>
      if (k' =? k)%string then (k, v) :: rest else (k', v') :: set k v rest
  end.

(** [dict(pairs)] *)
Definition of_pairs (pairs : list (string * V)) : list (string * V) :=
  fold_left (fun d kv => set (fst kv) (snd kv) d) pairs [].
End Dict.
End Dict.

(** ** A reference [json.loads]

    The parser of the [json] module (strict mode, no hooks) on texts over the
    modelled alphabet.  A [\u] escape above U+00FF names a character
    outside the alphabet; this reference function rejects it.  It knows no
    limit of depth or of digits, so that it never ends in [LoadError]: the
    texts of the examples are short.  The program below takes [json.loads]
    as a parameter and is instantiated with [Json.loads] in the
    examples. *)

Module Json.

Definition is_ws (c : ascii) : bool :=
  let n := nat_of_ascii c in ((n =? 32) || (n =? 9) || (n =? 10) || (n =? 13))%nat.

Fixpoint skip_ws (s : string) : string :=
  match s with
  | String c r => if is_ws c then skip_ws r else s
  | EmptyString => EmptyString
  end.

Definition is_digit (c : ascii) : bool :=
  let n := nat_of_ascii c in ((48 <=? n) && (n <=? 57))%nat.

Definition hex_value (c : ascii) : option nat :=
  let n := nat_of_ascii c in
  if ((48 <=? n) && (n <=? 57))%nat then Some (n - 48)%nat
  else if ((97 <=? n) && (n <=? 102))%nat then Some (n - 87)%nat
  else if ((65 <=? n) && (n <=? 70))%nat then Some (n - 55)%nat
  else None.

Definition simple_escape (c : ascii) : option ascii :=
  let n := nat_of_ascii c in
  if (n =? 34)%nat then Some c
  else if (n =? 92)%nat then Some c
  else if (n =? 47)%nat then Some c
  else if (n =? 98)%nat then Some (ascii_of_nat 8)
  else if (n =? 102)%nat then Some (ascii_of_nat 12)
  else if (n =? 110)%nat then Some (ascii_of_nat 10)
  else if (n =? 114)%nat then Some (ascii_of_nat 13)
  else if (n =? 116)%nat then Some (ascii_of_nat 9)
  else None.

Definition cons_char (c : ascii) (r : option (string * string)) : option (string * string) :=
  match r with
  | Some (body, rest) => Some (String c body, rest)
  | None => None
  end.

(** The text after an opening quote: the decoded string and what follows
    the closing quote. *)
Fixpoint scan_string (s : string) : option (string * string) :=
  match s with
  | EmptyString => None
  | String c r =>
      if Ascii.eqb c Py.dquote then Some ("", r)
      else if Ascii.eqb c "\"%char then
        match r with
        | EmptyString => None
        | String e r1 =>
            match simple_escape e with
            | Some ch => cons_char ch (scan_string r1)
            | None =>
                if Ascii.eqb e "u"%char then
                  match r1 with
                  | String h1 (String h2 (String h3 (String h4 r2))) =>
                      match hex_value h1, hex_value h2, hex_value h3, hex_value h4 with
                      | Some 0%nat, Some 0%nat, Some a, Some b =>
                          cons_char (ascii_of_nat (16 * a + b)) (scan_string r2)
                      | _, _, _, _ => None
                      end
                  | _ => None
                  end
                else None
            end
        end
      else if (nat_of_ascii c <? 32)%nat then None
      else cons_char c (scan_string r)
  end.

Fixpoint take_digits (s : string) : string * string :=
  match s with
  | String c r =>
      if is_digit c then let (d, rest) := take_digits r in (String c d, rest)
      else ("", s)
  | EmptyString => ("", "")
  end.

Fixpoint digits_value (acc : Z) (s : string) : Z :=
  match s with
  | String c r => digits_value (10 * acc + Z.of_nat (nat_of_ascii c - 48)) r
  | EmptyString => acc
  end.

(** The number pattern of the decoder: an optional minus sign, then a zero
    or a non-zero digit with more digits; optionally a point with at least
    one digit; optionally an exponent mark, a sign and at least one digit. *)
Definition scan_integer_part (s : string) : option (string * string) :=
  match s with
  | String c r =>
      if Ascii.eqb c "0"%char then Some ("0", r)
      else if is_digit c then let (d, rest) := take_digits r in Some (String c d, rest)
      else None
  | EmptyString => None
  end.

Definition scan_fraction (s : string) : string * string :=
  match s with
  | String c r =>
      if Ascii.eqb c "."%char then
        match take_digits r with
        | (EmptyString, _) => ("", s)
        | (d, rest) => (String c d, rest)
        end
      else ("", s)
  | EmptyString => ("", s)
  end.

Definition scan_exponent (s : string) : string * string :=
  match s with
  | String c r =>
      if Ascii.eqb c "e"%char || Ascii.eqb c "E"%char then
        let (sign, r1) :=
          match r with
          | String g r' =>
              if Ascii.eqb g "+"%char || Ascii.eqb g "-"%char
              then (String g "", r') else ("", r)
          | EmptyString => ("", r)
          end in
        match take_digits r1 with
        | (EmptyString, _) => ("", s)
        | (d, rest) => (String c (sign ++ d), rest)
        end
      else ("", s)
  | EmptyString => ("", s)
  end.

Definition scan_number (s : string) : option (json * string) :=
  let (neg, s1) :=
    match s with
    | String c r => if Ascii.eqb c "-"%char then (true, r) else (false, s)
    | EmptyString => (false, s)
    end in
  match scan_integer_part s1 with
  | None => None
  | Some (int_text, s2) =>
      let (frac, s3) := scan_fraction s2 in
      let (expo, s4) := scan_exponent s3 in
      match frac, expo with
      | EmptyString, EmptyString =>
          let v := digits_value 0 int_text in
          Some (JInt (if neg then - v else v), s4)
      | _, _ =>
          Some (JFloat ((if neg then "-" else "") ++ int_text ++ frac ++ expo), s4)
      end
  end.

(** [scan_once]: one value at the head of [s].  Every call passes over at
    least one character before the next call, so [String.length s + 1]
    units of [fuel] are enough; [loads] gives twice that. *)
Fixpoint scan_once (fuel : nat) (s : string) {struct fuel} : option (json * string) :=
  match fuel with
  | O => None
  | S fuel' =>
      match s with
      | EmptyString => None
      | String c r =>
          if Ascii.eqb c Py.dquote then
            match scan_string r with
            | Some (str, rest) => Some (JStr str, rest)
            | None => None
            end
          else if Ascii.eqb c "{"%char then
            match skip_ws r with
            | String d r1 =>
                if Ascii.eqb d "}"%char then Some (JObj [], r1)
                else if Ascii.eqb d Py.dquote then scan_members fuel' r1 []
                else None
            | EmptyString => None
            end
          else if Ascii.eqb c "["%char then
            match skip_ws r with
            | String d r1 =>
                if Ascii.eqb d "]"%char then Some (JArr [], r1)
                else scan_elements fuel' (String d r1) []
            | EmptyString => None
            end
          else if prefix "null" s then Some (JNull, substring 4 (String.length s - 4) s)
          else if prefix "true" s then Some (JBool true, substring 4 (String.length s - 4) s)
          else if prefix "false" s then Some (JBool false, substring 5 (String.length s - 5) s)
          else
            match scan_number s with
            | Some res => Some res
            | None =>
                if prefix "NaN" s then Some (JFloat "NaN", substring 3 (String.length s - 3) s)
                else if prefix "Infinity" s
                then Some (JFloat "Infinity", substring 8 (String.length s - 8) s)
                else if prefix "-Infinity" s
                then Some (JFloat "-Infinity", substring 9 (String.length s - 9) s)
                else None
            end
      end
  end

(** After the opening quote of a key: the key, [:], the value, then [,] and
    the next key or the closing brace. *)
with scan_members (fuel : nat) (s : string) (acc : list (string * json))
       {struct fuel} : option (json * string) :=
  match fuel with
  | O => None
  | S fuel' =>
      match scan_string s with
      | None => None
      | Some (key, r) =>
          match skip_ws r with
          | String c r1 =>
              if Ascii.eqb c ":"%char then
                match scan_once fuel' (skip_ws r1) with
                | None => None
                | Some (v, r2) =>
                    let acc' := (acc ++ [(key, v)])%list in
                    match skip_ws r2 with
                    | String d r3 =>
                        if Ascii.eqb d "}"%char then Some (JObj (Dict.of_pairs acc'), r3)
                        else if Ascii.eqb d ","%char then
                          match skip_ws r3 with
                          | String q r4 =>
                              if Ascii.eqb q Py.dquote then scan_members fuel' r4 acc'
                              else None
                          | EmptyString => None
                          end
                        else None
                    | EmptyString => None
                    end
                end
              else None
          | EmptyString => None
          end
      end
  end

(** At the first character of an element: the value, then [,] and the next
    element or the closing bracket. *)
with scan_elements (fuel : nat) (s : string) (acc : list json)
       {struct fuel} : option (json * string) :=
  match fuel with
  | O => None
  | S fuel' =>
      match scan_once fuel' s with
      | None => None
      | Some (v, r) =>
          let acc' := (acc ++ [v])%list in
          match skip_ws r with
          | String d r1 =>
              if Ascii.eqb d "]"%char then Some (JArr acc', r1)
              else if Ascii.eqb d ","%char then scan_elements fuel' (skip_ws r1) acc'
              else None
          | EmptyString => None
          end
      end
  end.

(** Leading white space, one value, trailing white space, end of text;
    [None] when the text is not of that form. *)
Definition parse (s : string) : option json :=
  match scan_once (2 * String.length s + 2) (skip_ws s) with
  | Some (v, rest) =>
      match skip_ws rest with
      | EmptyString => Some v
      | _ => None
      end
  | None => None
  end.

(** [json.loads(s)]: the value, or [JSONDecodeError]. *)
Definition loads (s : string) : loaded :=
  match parse s with
  | Some v => Loaded v
  | None => DecodeError
  end.

End Json.

(** ** Session state *)

(** A chat message, [{"role": ..., "content": ...}]. *)
Record message : Type := mk_message { role : string; content : string }.

(** What [candidate_info] holds: a [str] (name, contact, position), an
    [int] (experience) or a [list] of [str] (tech_stack). *)
Inductive value : Type :=
| VStr (s : string)
| VInt (n : Z)
| VList (items : list string).

Definition dict (V : Type) : Type := list (string * V).

(** [str(v)], as an f-string renders [{v}]. *)
Definition str_value (v : value) : string :=
  match v with
  | VStr s => s
  | VInt n => Py.str_int n
  | VList items => "[" ++ Py.join ", " (map Py.repr_str items) ++ "]"
  end.

Record session_state : Type := mk_session {
  chat_history : list message;
  interview_stage : Z;
  candidate_info : dict value;
  technical_questions : list string;
  current_question_index : Z;
  evaluation_in_progress : bool
}.

(** ** The process: session, log output and Gateway calls

    [log] is what the logger of [ai_bridge] has emitted (each helper module
    has a logger of its own, which is not modelled).  [calls] lists the
    invocations of the public Gateway operations with their arguments; the
    source keeps no such list, no modelled code reads it, and it is there
    for the statements about which question an answer is evaluated
    against. *)

Inductive log_level : Type := INFO | ERROR.

Record log_record : Type := mk_log { level : log_level; text : string }.

Inductive gateway_call : Type :=
| CallChat (history : list message) (stage : Z) (info : dict value)
| CallQuestions (tech_stack : value)
| CallEvaluate (question answer : string) (tech_stack : value).

Record process : Type := mk_process {
  session : session_state;
  log : list log_record;
  calls : list gateway_call
}.

Definition M (A : Type) : Type := process -> outcome A * process.

Definition ret {A} (a : A) : M A := fun p => (Returned a, p).

Definition raise {A} (e : exn) : M A := fun p => (Raised e, p).

Definition bind {A B} (c : M A) (k : A -> M B) : M B :=
  fun p =>
    match c p with
    | (Returned a, p') => k a p'
    | (Raised e, p') => (Raised e, p')
    end.

(** [try: body  except Exception as e: handler e] *)
Definition try_except {A} (body : M A) (handler : exn -> M A) : M A :=
  fun p =>
    match body p with
    | (Returned a, p') => (Returned a, p')
    | (Raised e, p') => handler e p'
    end.

Definition lift {A} (o : outcome A) : M A := fun p => (o, p).

Notation "x <- c1 ;; c2" := (bind c1 (fun x => c2))
  (at level 61, c1 at next level, right associativity).
Notation "c1 ;; c2" := (bind c1 (fun _ => c2))
  (at level 61, right associativity).

Definition emit (lvl : log_level) (msg : string) : M unit :=
  fun p => (Returned tt,
            mk_process (session p) (log p ++ [mk_log lvl msg]) (calls p)).

Definition note_call (c : gateway_call) : M unit :=
  fun p => (Returned tt, mk_process (session p) (log p) (calls p ++ [c])).

Definition read {A} (field : session_state -> A) : M A :=
  fun p => (Returned (field (session p)), p).

Definition write (f : session_state -> session_state) : M unit :=
  fun p => (Returned tt, mk_process (f (session p)) (log p) (calls p)).

Definition set_chat_history (h : list message) (s : session_state) : session_state :=
  mk_session h (interview_stage s) (candidate_info s) (technical_questions s)
             (current_question_index s) (evaluation_in_progress s).

Definition set_interview_stage (n : Z) (s : session_state) : session_state :=
  mk_session (chat_history s) n (candidate_info s) (technical_questions s)
             (current_question_index s) (evaluation_in_progress s).

Definition set_candidate_info (d : dict value) (s : session_state) : session_state :=
  mk_session (chat_history s) (interview_stage s) d (technical_questions s)
             (current_question_index s) (evaluation_in_progress s).

Definition set_technical_questions (q : list string) (s : session_state) : session_state :=
  mk_session (chat_history s) (interview_stage s) (candidate_info s) q
             (current_question_index s) (evaluation_in_progress s).

Definition set_current_question_index (i : Z) (s : session_state) : session_state :=
  mk_session (chat_history s) (interview_stage s) (candidate_info s)
             (technical_questions s) i (evaluation_in_progress s).

(** ** Python operations that may raise *)

(** [d[k]] on a [dict] *)
Definition dict_getitem {V} (d : dict V) (k : string) : outcome V :=
  match Dict.get k d with
  | Some v => Returned v
  | None => Raised (mk_exn KeyError (Py.repr_str k))
  end.

(** [l[i]] on a [list]: a negative index counts from the end. *)
Definition list_getitem {A} (l : list A) (i : Z) : outcome A :=
  let n := Z.of_nat (List.length l) in
  let j := if (i <? 0)%Z then (i + n)%Z else i in
  if ((j <? 0) || (n <=? j))%Z
  then Raised (mk_exn IndexError "list index out of range")
  else match nth_error l (Z.to_nat j) with
       | Some a => Returned a
       | None => Raised (mk_exn IndexError "list index out of range")
       end.

(** [type(v).__name__] of the object [json.loads] returned. *)
Definition type_name (v : json) : string :=
  match v with
  | JNull => "NoneType"
  | JBool _ => "bool"
  | JInt _ => "int"
  | JFloat _ => "float"
  | JStr _ => "str"
  | JArr _ => "list"
  | JObj _ => "dict"
  end.

(** [v[k]] on the object [json.loads] returned, [k] a [str].  The messages
    of the [TypeError]s here and below are CPython 3.11's; no modelled code
    reads them. *)
Definition json_getitem (v : json) (k : string) : outcome json :=
  match v with
  | JObj fields => dict_getitem fields k
  | JArr _ => Raised (mk_exn TypeError "list indices must be integers or slices, not str")
  | JStr _ => Raised (mk_exn TypeError "string indices must be integers, not 'str'")
  | _ => Raised (mk_exn TypeError ("'" ++ type_name v ++ "' object is not subscriptable"))
  end.

(** [v + s] with [s] a [str]: defined when [v] is a [str]. *)
Definition add_json_str (v : json) (s : string) : outcome string :=
  match v with
  | JStr t => Returned (t ++ s)
  | JArr _ =>
      Raised (mk_exn TypeError
                ("can only concatenate list (not " ++ String Py.dquote "str"
                 ++ String Py.dquote ") to list"))
  | _ =>
      Raised (mk_exn TypeError
                ("unsupported operand type(s) for +: '" ++ type_name v ++ "' and 'str'"))
  end.

(** [s + v] with [s] a [str]: defined when [v] is a [str]. *)
Definition add_str_json (s : string) (v : json) : outcome string :=
  match v with
  | JStr t => Returned (s ++ t)
  | _ =>
      Raised (mk_exn TypeError
                ("can only concatenate str (not " ++ String Py.dquote (type_name v)
                 ++ String Py.dquote ") to str"))
  end.

Fixpoint characters (s : string) : list string :=
  match s with
  | EmptyString => []
  | String c r => String c "" :: characters r
  end.

(** [", ".join(tech_stack)]: a [list] of [str] is joined, a [str] is joined
    character by character, an [int] is not iterable. *)
Definition join_tech_stack (tech_stack : value) : outcome string :=
  match tech_stack with
  | VList items => Returned (Py.join ", " items)
  | VStr s => Returned (Py.join ", " (characters s))
  | VInt _ => Raised (mk_exn TypeError "can only join an iterable")
  end.

(** ** Providers

    A client answers one completion request with the text of the reply or
    raises.  [None] is the helper module's [client = None]. *)

Record request : Type := mk_request {
  model : string;
  system : option string;
  messages : list message;
  max_tokens : Z;
  temperature : string;
  response_format : option string
}.

Definition client : Type := request -> outcome string.

Record world : Type := mk_world {
  openai_client : option client;
  anthropic_client : option client
}.

(** The two availability flags of [ai_bridge], fixed at import. *)
Record config : Type := mk_config { has_openai : bool; has_anthropic : bool }.

(** [role = "assistant" if message["role"] == "assistant" else "user"] *)
Definition neutral_role (m : message) : message :=
  mk_message (if (role m =? "assistant")%string then "assistant" else "user") (content m).

(** ** openai_helper.py *)

Module openai_helper.

Definition DEFAULT_MODEL : string := "gpt-4o".

Definition questions_prompt (tech_list : string) : string :=
  "Generate 5 technical interview questions appropriate for a candidate skilled in: "
    ++ tech_list
    ++ ". 
    The questions should:
    1. Be specific to the technologies mentioned
    2. Range from moderate to challenging difficulty
    3. Test both practical knowledge and theoretical understanding
    4. Each be answerable in 2-3 minutes
    5. Not require writing actual code
    
    Format each question on a separate line, numbered 1-5. Don't include answers.".

Definition evaluation_prompt (tech_list question answer : string) : string :=
  "Evaluate the following technical response from a candidate with skills in "
    ++ tech_list
    ++ ".

QUESTION: "
    ++ question
    ++ "

CANDIDATE'S ANSWER: "
    ++ answer
    ++ "

Provide your evaluation in JSON format with these fields:
1. assessment: A brief evaluation of the technical accuracy (1-2 sentences)
2. response: A conversational response to the candidate that acknowledges their answer (1-2 sentences)
3. follow_up: A follow-up question that probes deeper into the topic or clarifies any misconceptions (1 sentence)

Be fair but thorough in your assessment. Don't be too harsh or too lenient.".

Definition base_prompt : string :=
  "You are an intelligent hiring assistant for TalentScout, a recruitment agency specializing in tech placements. You are conducting a preliminary technical interview with a candidate. Be professional but conversational and friendly.

Candidate information collected so far:
".

Definition stage_prompts : list (Z * string) :=
  [(1%Z, "
You are at the INTRODUCTION stage of the interview.
Introduce yourself as the TalentScout interview assistant. 
The candidate has just provided their name. 
Acknowledge their name and ask for their contact information (email and phone number).
Be friendly and professional.
");
   (2%Z, "
You are at the CONTACT INFORMATION stage of the interview.
The candidate has just provided their contact details.
Thank them and now ask about their years of experience and what position they're looking for.
Keep your response concise and professional.
");
   (3%Z, "
You are at the EXPERIENCE & POSITION stage of the interview.
The candidate has just shared their experience level and desired position.
Acknowledge this information and now ask them to select their technical skills from a list that will be shown.
Encourage them to select all technologies they are proficient in.
");
   (4%Z, "
You are at the TECHNICAL SKILLS stage of the interview.
The candidate has just selected their technical stack.
Acknowledge their skills and explain that you'll ask a few technical questions to assess their expertise.
Tell them you'll start with questions specific to their selected technologies.
");
   (5%Z, "
You are at the TECHNICAL ASSESSMENT stage of the interview.
Listen carefully to the candidate's answers and provide thoughtful follow-up questions.
Evaluate their technical knowledge but maintain a supportive tone.
Focus on their problem-solving approach and depth of understanding.
");
   (6%Z, "
You are at the CONCLUSION stage of the interview.
Thank the candidate for their time and responses.
Summarize what you've learned about their background and skills.
Explain that a TalentScout recruiter will contact them soon to discuss potential opportunities.
Provide a positive and encouraging conclusion to the interview.
")].

(** One pass of the loop over [candidate_info.items()]: the text added for
    one key. *)
Definition render_line (kv : string * value) : string :=
  let (key, v) := kv in
  match (key =? "tech_stack")%string, v with
  | true, VList items => "- " ++ key ++ ": " ++ Py.join ", " items ++ Py.nl
  | _, _ => "- " ++ key ++ ": " ++ str_value v ++ Py.nl
  end.

Definition get_system_prompt (interview_stage : Z) (candidate_info : dict value) : string :=
  let base_prompt :=
    fold_left (fun acc kv => acc ++ render_line kv) candidate_info base_prompt in
  match find (fun kp => (fst kp =? interview_stage)%Z) stage_prompts with
  | Some (_, block) => base_prompt ++ block
  | None => base_prompt
  end.

(** The arguments of [client.chat.completions.create]. *)
Definition chat_request (chat_history : list message) (interview_stage : Z)
    (candidate_info : dict value) : request :=
  let messages :=
    mk_message "system" (get_system_prompt interview_stage candidate_info)
    :: map neutral_role chat_history in
  mk_request DEFAULT_MODEL None messages 800 "0.7" None.

Definition questions_request (tech_list : string) : request :=
  let prompt := questions_prompt tech_list in
  mk_request DEFAULT_MODEL None
    [mk_message "system"
       "You are an expert technical interviewer for a tech recruitment agency.";
     mk_message "user" prompt] 800 "0.7" None.

Definition evaluation_request (tech_list question answer : string) : request :=
  let prompt := evaluation_prompt tech_list question answer in
  mk_request DEFAULT_MODEL None
    [mk_message "system"
       "You are an expert technical interviewer for a tech recruitment agency.";
     mk_message "user" prompt] 500 "0.5" (Some "json_object").

(** The object returned when [json.loads] raises [JSONDecodeError] on the
    reply. *)
Definition parse_fallback : json :=
  JObj [("assessment", JStr "Unable to properly evaluate the response");
        ("response", JStr "Thank you for your answer. Let's move on to the next question.");
        ("follow_up",
         JStr "Could you tell me more about your practical experience with this technology?")].

Section Calls.
Variable json_loads : string -> loaded.
Variable w : world.

(** In the three functions below the source wraps the request in
    [try: ... except Exception as e: logger.error(...); raise], which
    re-raises what it caught; the request's outcome is therefore the
    function's, and so is an exception of [json.loads] that the inner
    [except json.JSONDecodeError] does not catch. *)

Definition generate_chat_response (chat_history : list message)
    (interview_stage : Z) (candidate_info : dict value) : M string :=
  match openai_client w with
  | None => raise (mk_exn Exception "OpenAI client not initialized")
  | Some create =>
      lift (create (chat_request chat_history interview_stage candidate_info))
  end.

Definition generate_technical_questions (tech_stack : value) : M string :=
  match openai_client w with
  | None => raise (mk_exn Exception "OpenAI client not initialized")
  | Some create =>
      tech_list <- lift (join_tech_stack tech_stack) ;;
      lift (create (questions_request tech_list))
  end.

Definition evaluate_technical_response (question answer : string)
    (tech_stack : value) : M json :=
  match openai_client w with
  | None => raise (mk_exn Exception "OpenAI client not initialized")
  | Some create =>
      tech_list <- lift (join_tech_stack tech_stack) ;;
      response <- lift (create (evaluation_request tech_list question answer)) ;;
      (* [try: result = json.loads(...); return result
          except json.JSONDecodeError: ... return {...}], inside the outer
         [try], whose [except Exception] re-raises every other exception *)
      match json_loads response with
      | Loaded result => ret result
      | DecodeError => ret parse_fallback
      | LoadError e => raise e
      end
  end.
End Calls.

End openai_helper.

(** ** anthropic_helper.py *)

Module anthropic_helper.

Definition DEFAULT_MODEL : string := "claude-3-5-sonnet-20241022".

Definition questions_prompt (tech_list : string) : string :=
  "Generate 5 technical interview questions appropriate for a candidate skilled in: "
    ++ tech_list
    ++ ". 
    The questions should:
    1. Be specific to the technologies mentioned
    2. Range from moderate to challenging difficulty
    3. Test both practical knowledge and theoretical understanding
    4. Each be answerable in 2-3 minutes
    5. Not require writing actual code
    
    Format each question on a separate line, numbered 1-5. Don't include answers.".

Definition evaluation_prompt (tech_list question answer : string) : string :=
  "Evaluate the following technical response from a candidate with skills in "
    ++ tech_list
    ++ ".

QUESTION: "
    ++ question
    ++ "

CANDIDATE'S ANSWER: "
    ++ answer
    ++ "

Provide your evaluation in JSON format with these fields:
1. assessment: A brief evaluation of the technical accuracy (1-2 sentences)
2. response: A conversational response to the candidate that acknowledges their answer (1-2 sentences)
3. follow_up: A follow-up question that probes deeper into the topic or clarifies any misconceptions (1 sentence)

Be fair but thorough in your assessment. Don't be too harsh or too lenient.
Your response should be ONLY the JSON object with no other text.".

Definition base_prompt : string :=
  "You are an intelligent hiring assistant for TalentScout, a recruitment agency specializing in tech placements. You are conducting a preliminary technical interview with a candidate. Be professional but conversational and friendly.

Candidate information collected so far:
".

Definition stage_prompts : list (Z * string) :=
  [(1%Z, "
You are at the INTRODUCTION stage of the interview.
Introduce yourself as the TalentScout interview assistant. 
The candidate has just provided their name. 
Acknowledge their name and ask for their contact information (email and phone number).
Be friendly and professional.
");
   (2%Z, "
You are at the CONTACT INFORMATION stage of the interview.
The candidate has just provided their contact details.
Thank them and now ask about their years of experience and what position they're looking for.
Keep your response concise and professional.
");
   (3%Z, "
You are at the EXPERIENCE & POSITION stage of the interview.
The candidate has just shared their experience level and desired position.
Acknowledge this information and now ask them to select their technical skills from a list that will be shown.
Encourage them to select all technologies they are proficient in.
");
   (4%Z, "
You are at the TECHNICAL SKILLS stage of the interview.
The candidate has just selected their technical stack.
Acknowledge their skills and explain that you'll ask a few technical questions to assess their expertise.
Tell them you'll start with questions specific to their selected technologies.
");
   (5%Z, "
You are at the TECHNICAL ASSESSMENT stage of the interview.
Listen carefully to the candidate's answers and provide thoughtful follow-up questions.
Evaluate their technical knowledge but maintain a supportive tone.
Focus on their problem-solving approach and depth of understanding.
");
   (6%Z, "
You are at the CONCLUSION stage of the interview.
Thank the candidate for their time and responses.
Summarize what you've learned about their background and skills.
Explain that a TalentScout recruiter will contact them soon to discuss potential opportunities.
Provide a positive and encouraging conclusion to the interview.
")].

(** One pass of the loop over [candidate_info.items()]: the text added for
    one key. *)
Definition render_line (kv : string * value) : string :=
  let (key, v) := kv in
  match (key =? "tech_stack")%string, v with
  | true, VList items => "- " ++ key ++ ": " ++ Py.join ", " items ++ Py.nl
  | _, _ => "- " ++ key ++ ": " ++ str_value v ++ Py.nl
  end.

Definition get_system_prompt (interview_stage : Z) (candidate_info : dict value) : string :=
  let base_prompt :=
    fold_left (fun acc kv => acc ++ render_line kv) candidate_info base_prompt in
  match find (fun kp => (fst kp =? interview_stage)%Z) stage_prompts with
  | Some (_, block) => base_prompt ++ block
  | None => base_prompt
  end.

(** [text.replace("```json", "").replace("```", "").strip()] *)
Definition clean_response (text : string) : string :=
  Py.strip (Py.replace "```" "" (Py.replace "```json" "" text)).

(** The arguments of [client.messages.create]. *)
Definition chat_request (chat_history : list message) (interview_stage : Z)
    (candidate_info : dict value) : request :=
  let system_prompt := get_system_prompt interview_stage candidate_info in
  let messages := map neutral_role chat_history in
  mk_request DEFAULT_MODEL (Some system_prompt) messages 800 "0.7" None.

Definition questions_request (tech_list : string) : request :=
  let prompt := questions_prompt tech_list in
  mk_request DEFAULT_MODEL
    (Some "You are an expert technical interviewer for a tech recruitment agency.")
    [mk_message "user" prompt] 800 "0.7" None.

Definition evaluation_request (tech_list question answer : string) : request :=
  let prompt := evaluation_prompt tech_list question answer in
  mk_request DEFAULT_MODEL
    (Some "You are an expert technical interviewer for a tech recruitment agency. Always respond in valid JSON format.")
    [mk_message "user" prompt] 500 "0.5" None.

(** The object returned when [json.loads] raises [JSONDecodeError] on the
    cleaned reply. *)
Definition parse_fallback : json :=
  JObj [("assessment", JStr "Unable to properly evaluate the response");
        ("response", JStr "Thank you for your answer. Let's move on to the next question.");
        ("follow_up",
         JStr "Could you tell me more about your practical experience with this technology?")].

Section Calls.
Variable json_loads : string -> loaded.
Variable w : world.

(** As in [openai_helper], the [except] clause around each request logs
    and re-raises. *)

Definition generate_chat_response (chat_history : list message)
    (interview_stage : Z) (candidate_info : dict value) : M string :=
  match anthropic_client w with
  | None => raise (mk_exn Exception "Anthropic client not initialized")
  | Some create =>
      lift (create (chat_request chat_history interview_stage candidate_info))
  end.

Definition generate_technical_questions (tech_stack : value) : M string :=
  match anthropic_client w with
  | None => raise (mk_exn Exception "Anthropic client not initialized")
  | Some create =>
      tech_list <- lift (join_tech_stack tech_stack) ;;
      lift (create (questions_request tech_list))
  end.

Definition evaluate_technical_response (question answer : string)
    (tech_stack : value) : M json :=
  match anthropic_client w with
  | None => raise (mk_exn Exception "Anthropic client not initialized")
  | Some create =>
      tech_list <- lift (join_tech_stack tech_stack) ;;
      response <- lift (create (evaluation_request tech_list question answer)) ;;
      let cleaned_response := clean_response response in
      (* the inner [try ... except json.JSONDecodeError] inside the outer
         [try ... except Exception: ...; raise], as in [openai_helper] *)
      match json_loads cleaned_response with
      | Loaded result => ret result
      | DecodeError => ret parse_fallback
      | LoadError e => raise e
      end
  end.
End Calls.

End anthropic_helper.

(** ** ai_bridge.py: the Model Gateway *)

Module ai_bridge.

Section Gateway.
Variable json_loads : string -> loaded.
Variable cfg : config.
Variable w : world.

Definition chat_error_reply (e : exn) : string :=
  "I apologize, but I'm having trouble connecting to our AI systems. Please try again later or contact TalentScout directly. Error: "
  ++ exn_str e.

Definition chat_unavailable_reply : string :=
  "I apologize, but I'm unable to connect to our AI systems. Please contact TalentScout directly for assistance.".

Definition generate_chat_response (chat_history : list message)
    (interview_stage : Z) (candidate_info : dict value) : M string :=
  note_call (CallChat chat_history interview_stage candidate_info) ;;
  (* the code after the first [if] block *)
  let second_block : M string :=
    if has_anthropic cfg then
      try_except
        (emit INFO "Generating response using Anthropic" ;;
         anthropic_helper.generate_chat_response w
           chat_history interview_stage candidate_info)
        (fun e =>
           emit ERROR ("Anthropic error: " ++ exn_str e) ;;
           ret (chat_error_reply e))
    else
      emit ERROR "No AI providers available" ;;
      ret chat_unavailable_reply in
  if has_openai cfg then
    try_except
      (emit INFO "Attempting to generate response using OpenAI" ;;
       openai_helper.generate_chat_response w
         chat_history interview_stage candidate_info)
      (fun e =>
         emit ERROR
           ("OpenAI error: " ++ exn_str e ++ ". Falling back to Anthropic if available.") ;;
         if negb (has_anthropic cfg) then ret (chat_error_reply e)
         else second_block)
  else second_block.

Definition questions_error_reply (e : exn) : string :=
  "I apologize, but I'm having trouble generating technical questions. Please provide more details about your experience with these technologies instead. Error: "
  ++ exn_str e.

Definition questions_unavailable_reply : string :=
  "I apologize, but I'm unable to generate technical questions at this time. Please describe your experience with these technologies in your own words.".

Definition generate_technical_questions (tech_stack : value) : M string :=
  note_call (CallQuestions tech_stack) ;;
  let second_block : M string :=
    if has_anthropic cfg then
      try_except
        (emit INFO "Generating technical questions using Anthropic" ;;
         anthropic_helper.generate_technical_questions w tech_stack)
        (fun e =>
           emit ERROR ("Anthropic error: " ++ exn_str e) ;;
           ret (questions_error_reply e))
    else
      emit ERROR "No AI providers available for generating technical questions" ;;
      ret questions_unavailable_reply in
  if has_openai cfg then
    try_except
      (emit INFO "Attempting to generate technical questions using OpenAI" ;;
       openai_helper.generate_technical_questions w tech_stack)
      (fun e =>
         emit ERROR
           ("OpenAI error: " ++ exn_str e ++ ". Falling back to Anthropic if available.") ;;
         if negb (has_anthropic cfg) then ret (questions_error_reply e)
         else second_block)
  else second_block.

(** The [error_response] of the two [except] blocks. *)
Definition evaluation_error_response : json :=
  JObj [("assessment", JStr "Unable to evaluate response");
        ("response",
         JStr "Thank you for your answer. I'm having some technical difficulties with my evaluation system.");
        ("follow_up",
         JStr "Can you tell me more about your experience with this technology?")].

(** The [error_response] returned when neither provider is available. *)
Definition evaluation_unavailable_response : json :=
  JObj [("assessment", JStr "Unable to evaluate response");
        ("response",
         JStr "Thank you for your answer. I'm currently unable to access our evaluation system.");
        ("follow_up",
         JStr "Can you tell me more about your experience with this technology?")].

Definition evaluate_technical_response (question answer : string)
    (tech_stack : value) : M json :=
  note_call (CallEvaluate question answer tech_stack) ;;
  let second_block : M json :=
    if has_anthropic cfg then
      try_except
        (emit INFO "Evaluating technical response using Anthropic" ;;
         anthropic_helper.evaluate_technical_response json_loads w
           question answer tech_stack)
        (fun e =>
           emit ERROR ("Anthropic error: " ++ exn_str e) ;;
           ret evaluation_error_response)
    else
      emit ERROR "No AI providers available for evaluating technical response" ;;
      ret evaluation_unavailable_response in
  if has_openai cfg then
    try_except
      (emit INFO "Attempting to evaluate technical response using OpenAI" ;;
       openai_helper.evaluate_technical_response json_loads w
         question answer tech_stack)
      (fun e =>
         emit ERROR
           ("OpenAI error: " ++ exn_str e ++ ". Falling back to Anthropic if available.") ;;
         if negb (has_anthropic cfg) then ret evaluation_error_response
         else second_block)
  else second_block.

Definition get_system_prompt (interview_stage : Z) (candidate_info : dict value) : string :=
  if has_openai cfg then openai_helper.get_system_prompt interview_stage candidate_info
  else if has_anthropic cfg
  then anthropic_helper.get_system_prompt interview_stage candidate_info
  else "You are an intelligent hiring assistant for TalentScout. Conduct a technical interview in a friendly manner.".
End Gateway.

End ai_bridge.

(** ** utils.py: session state and the Stage Controller *)

Module utils.

(** [initialize_session_state]: every key absent from the store gets its
    default.  The keys are only ever written together, so the store is
    either empty ([None]) or complete. *)
Definition initialize_session_state (store : option session_state) : session_state :=
  match store with
  | Some s => s
  | None => mk_session [] 0 [] [] 0 false
  end.

Definition update_chat_history (role content : string) : M unit :=
  write (fun s => set_chat_history (chat_history s ++ [mk_message role content])%list s).

(** [evaluation["response"] + " " + evaluation["follow_up"]], evaluated
    left to right. *)
Definition response_with_follow_up (evaluation : json) : outcome string :=
  match json_getitem evaluation "response" with
  | Raised e => Raised e
  | Returned response =>
      match add_json_str response " " with
      | Raised e => Raised e
      | Returned spaced =>
          match json_getitem evaluation "follow_up" with
          | Raised e => Raised e
          | Returned follow_up => add_str_json spaced follow_up
          end
      end
  end.

Section Controller.
Variable json_loads : string -> loaded.
Variable cfg : config.
Variable w : world.

Definition handle_user_response (user_input : string) : M unit :=
  update_chat_history "user" user_input ;;
  stage <- read interview_stage ;;
  if (stage =? 1)%Z then
    write (fun s => set_candidate_info
                      (Dict.set "name" (VStr user_input) (candidate_info s)) s) ;;
    history <- read chat_history ;;
    stage <- read interview_stage ;;
    info <- read candidate_info ;;
    assistant_response <- ai_bridge.generate_chat_response cfg w history stage info ;;
    update_chat_history "assistant" assistant_response ;;
    write (set_interview_stage 2)
  else if (stage =? 5)%Z then
    known <- read technical_questions ;;
    match known with
    | [] =>
        info <- read candidate_info ;;
        tech_stack <- lift (dict_getitem info "tech_stack") ;;
        questions <- ai_bridge.generate_technical_questions cfg w tech_stack ;;
        write (set_technical_questions (Py.split Py.newline questions)) ;;
        write (fun s => set_technical_questions
                 (filter (fun q => negb (Py.strip q =? "")%string)
                         (technical_questions s)) s) ;;
        write (set_current_question_index 0) ;;
        generated <- read technical_questions ;;
        match generated with
        | first_question :: _ => update_chat_history "assistant" first_question
        | [] =>
            update_chat_history "assistant"
              "Let's discuss your technical experience. What projects have you worked on recently?"
        end
    | _ :: _ =>
        index <- read current_question_index ;;
        current_question <- lift (list_getitem known index) ;;
        info <- read candidate_info ;;
        tech_stack <- lift (dict_getitem info "tech_stack") ;;
        evaluation <- ai_bridge.evaluate_technical_response json_loads cfg w
                        current_question user_input tech_stack ;;
        assistant_response <- lift (response_with_follow_up evaluation) ;;
        update_chat_history "assistant" assistant_response ;;
        write (fun s => set_current_question_index (current_question_index s + 1) s) ;;
        index <- read current_question_index ;;
        known <- read technical_questions ;;
        if ((index >=? Z.of_nat (List.length known)) || (index >=? 5))%Z then
          write (set_interview_stage 6) ;;
          history <- read chat_history ;;
          stage <- read interview_stage ;;
          info <- read candidate_info ;;
          conclusion <- ai_bridge.generate_chat_response cfg w history stage info ;;
          update_chat_history "assistant" conclusion
        else ret tt
    end
  else
    history <- read chat_history ;;
    stage <- read interview_stage ;;
    info <- read candidate_info ;;
    assistant_response <- ai_bridge.generate_chat_response cfg w history stage info ;;
    update_chat_history "assistant" assistant_response.
End Controller.

End utils.

(** ** app.py: one run of the script

    Streamlit runs the script from the top on every user action.  An
    [action] is what the user did with the widget the previous run
    displayed; an action on a widget the current stage does not display
    cannot be delivered and does nothing.  [st.rerun()] ends the run; the
    run it starts carries no action.  Every run first calls
    [initialize_session_state], after which the store is complete: [run]
    is the script from there on, and a session starts in the state that
    call builds from the empty store. *)

Module app.

Inductive action : Type :=
| NoAction
| SubmitContact (contact_email contact_phone : string)
| SubmitExperience (years_experience : Z) (desired_position : string)
| SubmitTechStack (selected_techs : list string)
| Send (user_input : string).

Definition initial_message : string :=
  "Hello! I'm the TalentScout interview assistant. I'm here to learn about your skills and experience for potential tech positions. Let's start with your name.".

Section Script.
Variable json_loads : string -> loaded.
Variable cfg : config.
Variable w : world.

Definition run (a : action) : M unit :=
  history <- read chat_history ;;
  if (List.length history =? 0)%nat then
    utils.update_chat_history "assistant" initial_message ;;
    write (set_interview_stage 1)
  else
    stage <- read interview_stage ;;
    if (stage =? 2)%Z then
      match a with
      | SubmitContact contact_email contact_phone =>
          let contact_info :=
            "Email: " ++ contact_email ++ ", Phone: " ++ contact_phone in
          utils.update_chat_history "user" contact_info ;;
          write (fun s => set_candidate_info
                   (Dict.set "contact" (VStr contact_info) (candidate_info s)) s) ;;
          history <- read chat_history ;;
          stage <- read interview_stage ;;
          info <- read candidate_info ;;
          assistant_response <- ai_bridge.generate_chat_response cfg w history stage info ;;
          utils.update_chat_history "assistant" assistant_response ;;
          write (set_interview_stage 3)
      | _ => ret tt
      end
    else if (stage =? 3)%Z then
      match a with
      | SubmitExperience years_experience desired_position =>
          let exp_info :=
            "Experience: " ++ Py.str_int years_experience
            ++ " years, Desired position: " ++ desired_position in
          utils.update_chat_history "user" exp_info ;;
          write (fun s => set_candidate_info
                   (Dict.set "experience" (VInt years_experience) (candidate_info s)) s) ;;
          write (fun s => set_candidate_info
                   (Dict.set "position" (VStr desired_position) (candidate_info s)) s) ;;
          history <- read chat_history ;;
          stage <- read interview_stage ;;
          info <- read candidate_info ;;
          assistant_response <- ai_bridge.generate_chat_response cfg w history stage info ;;
          utils.update_chat_history "assistant" assistant_response ;;
          write (set_interview_stage 4)
      | _ => ret tt
      end
    else if (stage =? 4)%Z then
      match a with
      | SubmitTechStack selected_techs =>
          match selected_techs with
          | [] => ret tt
          | _ :: _ =>
              let tech_info := "Tech skills: " ++ Py.join ", " selected_techs in
              utils.update_chat_history "user" tech_info ;;
              write (fun s => set_candidate_info
                       (Dict.set "tech_stack" (VList selected_techs) (candidate_info s)) s) ;;
              history <- read chat_history ;;
              stage <- read interview_stage ;;
              info <- read candidate_info ;;
              assistant_response <- ai_bridge.generate_chat_response cfg w history stage info ;;
              utils.update_chat_history "assistant" assistant_response ;;
              write (set_interview_stage 5)
          end
      | _ => ret tt
      end
    else
      match a with
      | Send user_input =>
          if (user_input =? "")%string then ret tt
          else utils.handle_user_response json_loads cfg w user_input
      | _ => ret tt
      end.
End Script.

(** The five boxes of the sidebar's progress display, each with the value
    it is drawn with. *)
Definition sidebar_progress (s : session_state) : list (string * bool) :=
  [("Introduction", true);
   ("Personal Information", (interview_stage s >? 1)%Z);
   ("Experience & Position", (interview_stage s >? 2)%Z);
   ("Technical Skills Assessment", (interview_stage s >? 3)%Z);
   ("Interview Conclusion", (interview_stage s >? 4)%Z)].

End app.

(** * Vocabulary of the properties *)

(** ** Outcomes of computations *)

Definition initial_process : process :=
  mk_process (utils.initialize_session_state None) [] [].

(** What a computation returns or raises when started in the initial
    process. *)
Definition outcome_of {A} (c : M A) : outcome A := fst (c initial_process).

(** [c] only computes its outcome: it reads and writes nothing. *)
Definition pure {A} (c : M A) : Prop := forall p, c p = (outcome_of c, p).

(** ** The fallback chain

    The three Gateway operations are one pattern: attempt the primary, on
    an exception attempt the secondary, and answer with a fixed value when
    no configured provider returned. *)

Section Chain.
Context {A : Type}.
Variable cfg : config.
Variables attempt_primary attempt_secondary none_available : string.
Variables primary secondary : M A.
Variable on_error : exn -> A.
Variable unavailable : A.

Definition fallback_chain : M A :=
  let second_block : M A :=
    if has_anthropic cfg then
      try_except
        (emit INFO attempt_secondary ;; secondary)
        (fun e => emit ERROR ("Anthropic error: " ++ exn_str e) ;; ret (on_error e))
    else
      emit ERROR none_available ;; ret unavailable in
  if has_openai cfg then
    try_except
      (emit INFO attempt_primary ;; primary)
      (fun e =>
         emit ERROR
           ("OpenAI error: " ++ exn_str e ++ ". Falling back to Anthropic if available.") ;;
         if negb (has_anthropic cfg) then ret (on_error e) else second_block)
  else second_block.

(** The value of the chain, from the outcomes of the two providers. *)
Definition second_value (o2 : outcome A) : A :=
  if has_anthropic cfg then
    match o2 with
    | Returned v => v
    | Raised e => on_error e
    end
  else unavailable.

Definition chain_value (o1 o2 : outcome A) : A :=
  if has_openai cfg then
    match o1 with
    | Returned v => v
    | Raised e => if negb (has_anthropic cfg) then on_error e else second_value o2
    end
  else second_value o2.

(** The records the chain adds to the log. *)
Definition second_log (o2 : outcome A) : list log_record :=
  if has_anthropic cfg then
    mk_log INFO attempt_secondary ::
    match o2 with
    | Returned _ => []
    | Raised e => [mk_log ERROR ("Anthropic error: " ++ exn_str e)]
    end
  else [mk_log ERROR none_available].

Definition chain_log (o1 o2 : outcome A) : list log_record :=
  if has_openai cfg then
    mk_log INFO attempt_primary ::
    match o1 with
    | Returned _ => []
    | Raised e =>
        mk_log ERROR
          ("OpenAI error: " ++ exn_str e ++ ". Falling back to Anthropic if available.")
        :: (if negb (has_anthropic cfg) then [] else second_log o2)
    end
  else second_log o2.
End Chain.

(** ** What each Gateway operation returns and logs *)

Section GatewayValues.
Variable json_loads : string -> loaded.
Variable cfg : config.
Variable w : world.

Definition chat_primary h st info : outcome string :=
  outcome_of (openai_helper.generate_chat_response w h st info).
Definition chat_secondary h st info : outcome string :=
  outcome_of (anthropic_helper.generate_chat_response w h st info).

Definition chat_value h st info : string :=
  chain_value cfg ai_bridge.chat_error_reply ai_bridge.chat_unavailable_reply
    (chat_primary h st info) (chat_secondary h st info).

Definition chat_log h st info : list log_record :=
  chain_log cfg "Attempting to generate response using OpenAI"
    "Generating response using Anthropic" "No AI providers available"
    (chat_primary h st info) (chat_secondary h st info).

Definition questions_primary ts : outcome string :=
  outcome_of (openai_helper.generate_technical_questions w ts).
Definition questions_secondary ts : outcome string :=
  outcome_of (anthropic_helper.generate_technical_questions w ts).

Definition questions_value ts : string :=
  chain_value cfg ai_bridge.questions_error_reply ai_bridge.questions_unavailable_reply
    (questions_primary ts) (questions_secondary ts).

Definition questions_log ts : list log_record :=
  chain_log cfg "Attempting to generate technical questions using OpenAI"
    "Generating technical questions using Anthropic"
    "No AI providers available for generating technical questions"
    (questions_primary ts) (questions_secondary ts).

Definition evaluate_primary q a ts : outcome json :=
  outcome_of (openai_helper.evaluate_technical_response json_loads w q a ts).
Definition evaluate_secondary q a ts : outcome json :=
  outcome_of (anthropic_helper.evaluate_technical_response json_loads w q a ts).

Definition evaluate_value q a ts : json :=
  chain_value cfg (fun _ => ai_bridge.evaluation_error_response)
    ai_bridge.evaluation_unavailable_response
    (evaluate_primary q a ts) (evaluate_secondary q a ts).

Definition evaluate_log q a ts : list log_record :=
  chain_log cfg "Attempting to evaluate technical response using OpenAI"
    "Evaluating technical response using Anthropic"
    "No AI providers available for evaluating technical response"
    (evaluate_primary q a ts) (evaluate_secondary q a ts).
End GatewayValues.

(** ** Sample providers, configurations and replies *)

(** The text of a JSON object: an opening brace, the members, a closing
    brace. *)
Definition object_text (body : string) : string := "{" ++ body ++ "}".

(** [s] between double quotes. *)
Definition quoted (s : string) : string := String Py.dquote (s ++ String Py.dquote "").

(** A sample evaluation: the members of its JSON text, and the object the
    text denotes. *)
Definition sample_body : string :=
  quoted "assessment" ++ ": " ++ quoted "Accurate." ++ ", "
  ++ quoted "response" ++ ": " ++ quoted "Good answer." ++ ", "
  ++ quoted "follow_up" ++ ": " ++ quoted "Why is that?".

Definition sample_object : json :=
  JObj [("assessment", JStr "Accurate."); ("response", JStr "Good answer.");
        ("follow_up", JStr "Why is that?")].

Definition replying (text : string) : client := fun _ => Returned text.
Definition failing (msg : string) : client := fun _ => Raised (mk_exn Exception msg).

Definition primary_only : config := mk_config true false.
Definition secondary_only : config := mk_config false true.
Definition both_providers : config := mk_config true true.
Definition no_provider : config := mk_config false false.

(** ** The contract of the fallback chain *)

(** [r] is the result of a Gateway operation started in [p] whose providers
    behave as [o1] (primary) and [o2] (secondary); [first] and [second] are
    the log records of the two attempts, [call] the invocation noted. *)
Definition chain_contract {A} (cfg : config) (p : process) (call : gateway_call)
    (r : outcome A * process) (o1 o2 : outcome A) (first second : log_record)
    (on_error : exn -> A) (unavailable : A) : Prop :=
  exists v l,
    (* a value is returned, and only log and call list grow *)
    r = (Returned v, mk_process (session p) (log p ++ l) (calls p ++ [call])) /\
    (* a configured primary is attempted before anything else *)
    (has_openai cfg = true -> exists l', l = first :: l') /\
    (* the secondary is attempted exactly if it is configured and the
       primary is not configured or has raised *)
    (In second l <->
     has_anthropic cfg = true /\ (has_openai cfg = false \/ exists e, o1 = Raised e)) /\
    (* a configured primary that returns decides the value *)
    (forall v1, has_openai cfg = true -> o1 = Returned v1 -> v = v1) /\
    (* otherwise a configured secondary that returns decides it *)
    (forall v2, (has_openai cfg = false \/ exists e, o1 = Raised e) ->
                has_anthropic cfg = true -> o2 = Returned v2 -> v = v2) /\
    (* every configured provider raised: the fallback value *)
    (forall e2, has_anthropic cfg = true ->
                (has_openai cfg = false \/ exists e, o1 = Raised e) ->
                o2 = Raised e2 -> v = on_error e2) /\
    (forall e1, has_openai cfg = true -> has_anthropic cfg = false ->
                o1 = Raised e1 -> v = on_error e1) /\
    (has_openai cfg = false -> has_anthropic cfg = false -> v = unavailable).

(** ** Fenced replies and evaluation objects *)

Definition fence_json : string := "```json".
Definition fence : string := "```".

(** A reply whose payload [inner] stands between a [```json] line and a
    closing [```] line. *)
Definition fenced (inner : string) : string :=
  fence_json ++ Py.nl ++ inner ++ Py.nl ++ fence.

(** The evaluation fallback as the specification words it (section 7). *)
Definition spec_evaluation_fallback : json :=
  JObj [("assessment", JStr "Unable to evaluate response");
        ("response",
         JStr "Thank you for your answer. I'm having some technical difficulties with my evaluation system.");
        ("follow_up",
         JStr "Can you tell me more about your experience with this technology?")].

(** What the Gateway returns when the primary helper has raised: the
    secondary's evaluation when the secondary is configured and returns,
    the error object of [ai_bridge] otherwise. *)
Definition after_primary_failure (cfg : config) (o2 : outcome json) : json :=
  if has_anthropic cfg then
    match o2 with
    | Returned v2 => v2
    | Raised _ => ai_bridge.evaluation_error_response
    end
  else ai_bridge.evaluation_error_response.

(** The evaluation carries a [str] under [response] and under
    [follow_up], so that the reply can be put together. *)
Definition well_formed (evaluation : json) : Prop :=
  exists reply, utils.response_with_follow_up evaluation = Returned reply.

(** The questions and answers of the evaluation calls in a call list. *)
Fixpoint evaluated_pairs (l : list gateway_call) : list (string * string) :=
  match l with
  | [] => []
  | CallEvaluate q a _ :: rest => (q, a) :: evaluated_pairs rest
  | _ :: rest => evaluated_pairs rest
  end.

(** ** The session invariant *)

Definition question_bound (s : session_state) : Z :=
  Z.min (Z.of_nat (List.length (technical_questions s))) 5.

Record invariant (s : session_state) : Prop := mk_invariant {
  inv_stage_range : (0 <= interview_stage s <= 6)%Z;
  inv_started : chat_history s = [] <-> interview_stage s = 0%Z;
  inv_cursor_low : (0 <= current_question_index s)%Z;
  inv_cursor_high : (current_question_index s <= question_bound s)%Z;
  inv_cursor_live :
    interview_stage s = 5%Z -> technical_questions s <> [] ->
    (current_question_index s < question_bound s)%Z;
  inv_no_questions_yet : (interview_stage s < 5)%Z -> technical_questions s = [];
  inv_tech_stack :
    (5 <= interview_stage s)%Z ->
    exists items, Dict.get "tech_stack" (candidate_info s) = Some (VList items)
                  /\ items <> [];
  inv_tech_stack_unset :
    (interview_stage s <= 4)%Z -> Dict.get "tech_stack" (candidate_info s) = None
}.

(** ** Turns, runs and sessions *)

(** A sequence of inputs, each with the providers' behaviour during its
    turn, handled one after the other: the outcome of every turn and the
    final process. *)
Fixpoint handle_all (json_loads : string -> loaded) (cfg : config)
    (turns : list (world * string)) (p : process) : list (outcome unit) * process :=
  match turns with
  | [] => ([], p)
  | (w, user_input) :: rest =>
      let (o, p1) := utils.handle_user_response json_loads cfg w user_input p in
      let (os, p2) := handle_all json_loads cfg rest p1 in
      (o :: os, p2)
  end.

(** A session: script runs, each with the user's action and the providers'
    behaviour during the run, started in [p]. *)
Fixpoint run_all (json_loads : string -> loaded) (cfg : config)
    (inputs : list (world * app.action)) (p : process) : list (outcome unit) * process :=
  match inputs with
  | [] => ([], p)
  | (w, a) :: rest =>
      let (o, p1) := app.run json_loads cfg w a p in
      let (os, p2) := run_all json_loads cfg rest p1 in
      (o :: os, p2)
  end.

(** Sample sessions for the examples. *)
Definition chatty (text : string) : world :=
  mk_world (Some (replying text)) (Some (replying text)).

Definition two_questions : string := "1. What is a goroutine?" ++ Py.nl ++ "2. What is the GIL?".

Definition up_to_first_question : list (world * app.action) :=
  [(chatty "Welcome.", app.NoAction);
   (chatty "Thanks, how can we reach you?", app.Send "Jane Doe");
   (chatty "Noted.", app.SubmitContact "a@b.com" "555-0100");
   (chatty "Pick your skills.", app.SubmitExperience 3 "Backend Engineer");
   (chatty "Let us start.", app.SubmitTechStack ["Python"; "Go"]);
   (chatty two_questions, app.Send "ready")].

(** The session state once the two sample questions are generated. *)
Definition asked_two_questions : process :=
  snd (run_all Json.loads primary_only up_to_first_question initial_process).

(** Providers that answer every request with the text of the sample
    object. *)
Definition evaluating : world := chatty (object_text sample_body).

Definition silent : world := mk_world None None.

(** A session up to the submitted tech stack, the providers behaving as
    [w] throughout. *)
Definition up_to_tech_stack (w : world) : list (world * app.action) :=
  [(w, app.NoAction);
   (w, app.Send "Jane Doe");
   (w, app.SubmitContact "a@b.com" "555-0100");
   (w, app.SubmitExperience 3 "Backend Engineer");
   (w, app.SubmitTechStack ["Python"; "Go"])].

Definition before_questions (cfg : config) (w : world) : process :=
  snd (run_all Json.loads cfg (up_to_tech_stack w) initial_process).

(** A primary provider that raises with a two-line message, and no
    secondary client. *)
Definition broken : world :=
  mk_world (Some (failing ("connection lost" ++ Py.nl ++ "retry later"))) None.

(** How one run moves the cursor: by the number of answers evaluated in
    the run, which is none or one, when the run returns; not at all when
    it raises. *)
Definition cursor_step (p : process) (r : outcome unit * process) : Prop :=
  let before := List.length (evaluated_pairs (calls p)) in
  let after := List.length (evaluated_pairs (calls (snd r))) in
  (before <= after <= before + 1)%nat /\
  match fst r with
  | Returned _ =>
      current_question_index (session (snd r)) =
      (current_question_index (session p) + (Z.of_nat after - Z.of_nat before))%Z
  | Raised _ =>
      current_question_index (session (snd r)) = current_question_index (session p)
  end.

(** How one run moves the stage: never down, and not at all from 6. *)
Definition stage_step (p : process) (r : outcome unit * process) : Prop :=
  (interview_stage (session p) <= interview_stage (session (snd r)))%Z /\
  (interview_stage (session p) = 6%Z -> interview_stage (session (snd r)) = 6%Z).

(** A fallback string of [generate_technical_questions]. *)
Definition questions_fallback (text : string) : Prop :=
  text = ai_bridge.questions_unavailable_reply \/
  exists e, text = ai_bridge.questions_error_reply e.

(** ** Further vocabulary *)

(** The state of a session after the runs [inputs]. *)
Definition session_after (json_loads : string -> loaded) (cfg : config)
    (inputs : list (world * app.action)) : session_state :=
  session (snd (run_all json_loads cfg inputs initial_process)).

(** The action is the input the stage waits for: any action on the first
    run, non-empty text at stage 1, the stage's form at stages 2 to 4 (with
    at least one technology selected at stage 4). *)
Definition own_input (stage : Z) (a : app.action) : bool :=
  (stage =? 0)%Z ||
  match a with
  | app.NoAction => false
  | app.Send user_input => (stage =? 1)%Z && negb (user_input =? "")%string
  | app.SubmitContact _ _ => (stage =? 2)%Z
  | app.SubmitExperience _ _ => (stage =? 3)%Z
  | app.SubmitTechStack selected_techs =>
      (stage =? 4)%Z && match selected_techs with [] => false | _ :: _ => true end
  end.

(** The prompt shown when the generated text holds no question. *)
Definition experience_prompt : string :=
  "Let's discuss your technical experience. What projects have you worked on recently?".

(** No line of [text] holds anything but white space. *)
Definition no_question (text : string) : bool :=
  forallb (fun q => (Py.strip q =? "")%string) (Py.split Py.newline text).

(** What a turn that generates no question adds to the message log. *)
Definition prompted_turn (turn : world * string) : list message :=
  [mk_message "user" (snd turn); mk_message "assistant" experience_prompt].

(** A stored question: one line, not blank. *)
Definition question_line (q : string) : Prop :=
  Py.contains_char Py.newline q = false /\ (Py.strip q =? "")%string = false.

(** A world whose providers return the empty text. *)
Definition mute : world := chatty "".

(** The number of fields [candidate_info] holds at a stage. *)
Definition fields_known (stage : Z) : nat :=
  if (stage <=? 1)%Z then 0
  else if (stage =? 2)%Z then 1
  else if (stage =? 3)%Z then 2
  else if (stage =? 4)%Z then 4
  else 5.

(** [candidate_info] holds the fields the completed stages have asked for,
    in the order they were asked for: a [str] under [name], [contact] and
    [position], an [int] under [experience], a non-empty [list] under
    [tech_stack]. *)
Definition profile (s : session_state) : Prop :=
  exists name contact years position tech techs,
    candidate_info s
    = firstn (fields_known (interview_stage s))
        [("name", VStr name); ("contact", VStr contact); ("experience", VInt years);
         ("position", VStr position); ("tech_stack", VList (tech :: techs))].

(** The message is the user's or the assistant's. *)
Definition speaker (m : message) : Prop := role m = "user" \/ role m = "assistant".

(** The outcome is a returned value. *)
Definition returned {A} (o : outcome A) : bool :=
  match o with
  | Returned _ => true
  | Raised _ => false
  end.

(** The provider the Gateway consults first is configured and returns. *)
Definition first_returns {A} (cfg : config) (o1 o2 : outcome A) : bool :=
  if has_openai cfg then returned o1 else has_anthropic cfg && returned o2.

(** No record of the list is an [ERROR] record. *)
Definition quiet (l : list log_record) : bool :=
  forallb (fun r => match level r with INFO => true | ERROR => false end) l.

(** The run acts on the action: the stage displays the widget the action
    belongs to, the selection is not empty, the input is not empty. *)
Definition deliverable (stage : Z) (a : app.action) : bool :=
  match a with
  | app.NoAction => false
  | app.SubmitContact _ _ => (stage =? 2)%Z
  | app.SubmitExperience _ _ => (stage =? 3)%Z
  | app.SubmitTechStack selected_techs =>
      (stage =? 4)%Z && match selected_techs with [] => false | _ :: _ => true end
  | app.Send user_input =>
      negb (user_input =? "")%string
      && negb ((stage =? 2) || (stage =? 3) || (stage =? 4))%Z
  end.

(** What a Gateway call was made with belongs to the session [s]: a chat
    request carries a beginning of the message log and of the candidate's
    fields, a generation request the candidate's tech stack, an evaluation
    request a stored question, an input of the user and the tech stack. *)
Definition asked_about (s : session_state) (c : gateway_call) : Prop :=
  match c with
  | CallChat history _ info =>
      (exists later, chat_history s = (history ++ later)%list) /\
      (exists later, candidate_info s = (info ++ later)%list)
  | CallQuestions tech_stack =>
      Dict.get "tech_stack" (candidate_info s) = Some tech_stack
  | CallEvaluate question answer tech_stack =>
      In question (technical_questions s) /\
      In (mk_message "user" answer) (chat_history s) /\
      Dict.get "tech_stack" (candidate_info s) = Some tech_stack
  end.

(** * Properties *)

(** ** The provider helpers leave the process alone *)

Ltac unfold_monad :=
  cbv [bind ret raise lift try_except emit note_call read write outcome_of fst snd].

Ltac case_outcome :=
  match goal with
  | |- context [match ?o with Returned _ => _ | Raised _ => _ end] => destruct o
  | |- context [match ?o with Some _ => _ | None => _ end] => destruct o
  end.

Lemma openai_chat_pure w h st info :
  pure (openai_helper.generate_chat_response w h st info).
Proof.
  intro p. unfold openai_helper.generate_chat_response. unfold_monad.
  destruct (openai_client w); reflexivity.
Qed.

Lemma anthropic_chat_pure w h st info :
  pure (anthropic_helper.generate_chat_response w h st info).
Proof.
  intro p. unfold anthropic_helper.generate_chat_response. unfold_monad.
  destruct (anthropic_client w); reflexivity.
Qed.

Lemma openai_questions_pure w ts :
  pure (openai_helper.generate_technical_questions w ts).
Proof.
  intro p. unfold openai_helper.generate_technical_questions. unfold_monad.
  destruct (openai_client w); [|reflexivity].
  destruct (join_tech_stack ts); reflexivity.
Qed.

Lemma anthropic_questions_pure w ts :
  pure (anthropic_helper.generate_technical_questions w ts).
Proof.
  intro p. unfold anthropic_helper.generate_technical_questions. unfold_monad.
  destruct (anthropic_client w); [|reflexivity].
  destruct (join_tech_stack ts); reflexivity.
Qed.

Lemma openai_evaluate_pure json_loads w q a ts :
  pure (openai_helper.evaluate_technical_response json_loads w q a ts).
Proof.
  intro p. unfold openai_helper.evaluate_technical_response. unfold_monad.
  destruct (openai_client w) as [create|]; [|reflexivity].
  destruct (join_tech_stack ts) as [tl|e]; [|reflexivity].
  destruct (create _) as [text|e]; [|reflexivity].
  destruct (json_loads text); reflexivity.
Qed.

Lemma anthropic_evaluate_pure json_loads w q a ts :
  pure (anthropic_helper.evaluate_technical_response json_loads w q a ts).
Proof.
  intro p. unfold anthropic_helper.evaluate_technical_response. unfold_monad.
  destruct (anthropic_client w) as [create|]; [|reflexivity].
  destruct (join_tech_stack ts) as [tl|e]; [|reflexivity].
  destruct (create _) as [text|e]; [|reflexivity].
  destruct (json_loads _); reflexivity.
Qed.

(** ** The fallback chain runs both providers in order *)

Section ChainRun.
Context {A : Type}.
Variable cfg : config.
Variables attempt_primary attempt_secondary none_available : string.
Variables primary secondary : M A.
Variable on_error : exn -> A.
Variable unavailable : A.
Hypothesis primary_pure : pure primary.
Hypothesis secondary_pure : pure secondary.

Lemma fallback_chain_run p :
  fallback_chain cfg attempt_primary attempt_secondary none_available
    primary secondary on_error unavailable p =
  (Returned (chain_value cfg on_error unavailable
               (outcome_of primary) (outcome_of secondary)),
   mk_process (session p)
     (log p ++ chain_log cfg attempt_primary attempt_secondary none_available
                (outcome_of primary) (outcome_of secondary))
     (calls p)).
Proof.
  unfold fallback_chain, chain_value, chain_log, second_value, second_log.
  cbv [bind ret raise lift try_except emit].
  destruct (has_openai cfg), (has_anthropic cfg); cbn [negb];
    repeat (rewrite ?primary_pure, ?secondary_pure; cbn [session log calls];
            try match goal with
                | |- context [outcome_of ?c] => destruct (outcome_of c)
                end);
    cbn [session log calls];
    rewrite <- ?app_assoc; cbn [List.app]; reflexivity.
Qed.
End ChainRun.

Section GatewayRuns.
Variable json_loads : string -> loaded.
Variable cfg : config.
Variable w : world.

Lemma generate_chat_response_run h st info p :
  ai_bridge.generate_chat_response cfg w h st info p =
  (Returned (chat_value cfg w h st info),
   mk_process (session p) (log p ++ chat_log cfg w h st info)
     (calls p ++ [CallChat h st info])).
Proof.
  change (ai_bridge.generate_chat_response cfg w h st info)
    with (note_call (CallChat h st info) ;;
          fallback_chain cfg "Attempting to generate response using OpenAI"
            "Generating response using Anthropic" "No AI providers available"
            (openai_helper.generate_chat_response w h st info)
            (anthropic_helper.generate_chat_response w h st info)
            ai_bridge.chat_error_reply ai_bridge.chat_unavailable_reply).
  cbv [bind note_call].
  rewrite fallback_chain_run by (apply openai_chat_pure || apply anthropic_chat_pure).
  reflexivity.
Qed.

Lemma generate_technical_questions_run ts p :
  ai_bridge.generate_technical_questions cfg w ts p =
  (Returned (questions_value cfg w ts),
   mk_process (session p) (log p ++ questions_log cfg w ts)
     (calls p ++ [CallQuestions ts])).
Proof.
  change (ai_bridge.generate_technical_questions cfg w ts)
    with (note_call (CallQuestions ts) ;;
          fallback_chain cfg "Attempting to generate technical questions using OpenAI"
            "Generating technical questions using Anthropic"
            "No AI providers available for generating technical questions"
            (openai_helper.generate_technical_questions w ts)
            (anthropic_helper.generate_technical_questions w ts)
            ai_bridge.questions_error_reply ai_bridge.questions_unavailable_reply).
  cbv [bind note_call].
  rewrite fallback_chain_run
    by (apply openai_questions_pure || apply anthropic_questions_pure).
  reflexivity.
Qed.

Lemma evaluate_technical_response_run q a ts p :
  ai_bridge.evaluate_technical_response json_loads cfg w q a ts p =
  (Returned (evaluate_value json_loads cfg w q a ts),
   mk_process (session p) (log p ++ evaluate_log json_loads cfg w q a ts)
     (calls p ++ [CallEvaluate q a ts])).
Proof.
  change (ai_bridge.evaluate_technical_response json_loads cfg w q a ts)
    with (note_call (CallEvaluate q a ts) ;;
          fallback_chain cfg "Attempting to evaluate technical response using OpenAI"
            "Evaluating technical response using Anthropic"
            "No AI providers available for evaluating technical response"
            (openai_helper.evaluate_technical_response json_loads w q a ts)
            (anthropic_helper.evaluate_technical_response json_loads w q a ts)
            (fun _ => ai_bridge.evaluation_error_response)
            ai_bridge.evaluation_unavailable_response).
  cbv [bind note_call].
  rewrite fallback_chain_run
    by (apply openai_evaluate_pure || apply anthropic_evaluate_pure).
  reflexivity.
Qed.
End GatewayRuns.

(** ** The Gateway is total, fail-soft and provider-order fixed *)

Lemma chain_contract_holds {A} cfg p call (o1 o2 : outcome A) t1 t2 t3 on_error unavailable :
  t1 <> t2 ->
  chain_contract cfg p call
    (Returned (chain_value cfg on_error unavailable o1 o2),
     mk_process (session p) (log p ++ chain_log cfg t1 t2 t3 o1 o2) (calls p ++ [call]))
    o1 o2 (mk_log INFO t1) (mk_log INFO t2) on_error unavailable.
Proof.
  intro Hne. unfold chain_contract.
  exists (chain_value cfg on_error unavailable o1 o2), (chain_log cfg t1 t2 t3 o1 o2).
  split; [reflexivity|].
  unfold chain_value, chain_log, second_value, second_log.
  destruct (has_openai cfg), (has_anthropic cfg), o1 as [v1|e1], o2 as [v2|e2];
    cbn [negb];
    repeat split; intros;
    repeat match goal with
           | H : _ \/ _ |- _ => destruct H
           | H : _ /\ _ |- _ => destruct H
           | H : exists _, _ |- _ => destruct H
           | H : In _ _ |- _ => cbn [In] in H
           | H : False |- _ => destruct H
           | H : mk_log _ _ = mk_log _ _ |- _ => inversion H; clear H
           | H : Returned _ = Returned _ |- _ => inversion H; clear H
           | H : Raised _ = Raised _ |- _ => inversion H; clear H
           end;
    subst; try discriminate; try congruence; cbn [In]; eauto.
Qed.

(** C1. Every public Gateway operation returns a value in every provider
    configuration and under every behaviour of the providers: the outcome
    is never a raised exception, the session is left as it was, and the
    value is the output of one of the two providers or one of the
    operation's fallback values. *)
Theorem gateway_operations_total_fail_soft :
  forall (json_loads : string -> loaded) (cfg : config) (w : world) (p : process),
    (forall h st info, exists v p',
        ai_bridge.generate_chat_response cfg w h st info p = (Returned v, p') /\
        session p' = session p /\
        (chat_primary w h st info = Returned v \/
         chat_secondary w h st info = Returned v \/
         v = ai_bridge.chat_unavailable_reply \/
         exists e, v = ai_bridge.chat_error_reply e)) /\
    (forall ts, exists v p',
        ai_bridge.generate_technical_questions cfg w ts p = (Returned v, p') /\
        session p' = session p /\
        (questions_primary w ts = Returned v \/
         questions_secondary w ts = Returned v \/
         v = ai_bridge.questions_unavailable_reply \/
         exists e, v = ai_bridge.questions_error_reply e)) /\
    (forall q a ts, exists v p',
        ai_bridge.evaluate_technical_response json_loads cfg w q a ts p = (Returned v, p') /\
        session p' = session p /\
        (evaluate_primary json_loads w q a ts = Returned v \/
         evaluate_secondary json_loads w q a ts = Returned v \/
         v = ai_bridge.evaluation_unavailable_response \/
         v = ai_bridge.evaluation_error_response)).
Proof.
  intros json_loads cfg w p. split; [|split].
  - intros h st info. rewrite generate_chat_response_run.
    eexists; eexists; split; [reflexivity|]. split; [reflexivity|].
    unfold chat_value, chain_value, second_value.
    destruct (has_openai cfg), (has_anthropic cfg),
      (chat_primary w h st info), (chat_secondary w h st info);
      cbn [negb]; eauto.
  - intros ts. rewrite generate_technical_questions_run.
    eexists; eexists; split; [reflexivity|]. split; [reflexivity|].
    unfold questions_value, chain_value, second_value.
    destruct (has_openai cfg), (has_anthropic cfg),
      (questions_primary w ts), (questions_secondary w ts);
      cbn [negb]; eauto.
  - intros q a ts. rewrite evaluate_technical_response_run.
    eexists; eexists; split; [reflexivity|]. split; [reflexivity|].
    unfold evaluate_value, chain_value, second_value.
    destruct (has_openai cfg), (has_anthropic cfg),
      (evaluate_primary json_loads w q a ts), (evaluate_secondary json_loads w q a ts);
      cbn [negb]; eauto.
Qed.

(** C6. The fallback chain of each of the three Gateway operations is
    provider-order fixed: a configured primary is attempted first; the
    secondary is attempted only when the primary is not configured or
    raised; if the primary raises and the configured secondary returns,
    the value is the secondary's output; the fallback value is returned
    exactly in the remaining cases, where every configured provider
    raised; and in every case a value is returned, never an exception.
    The fourth operation, [get_system_prompt], calls no provider: it takes
    the primary helper's prompt when the primary is configured and the
    secondary's otherwise. *)
Theorem fallback_chain_provider_order_fixed :
  forall (json_loads : string -> loaded) (cfg : config) (w : world) (p : process),
    (forall h st info,
        chain_contract cfg p (CallChat h st info)
          (ai_bridge.generate_chat_response cfg w h st info p)
          (chat_primary w h st info) (chat_secondary w h st info)
          (mk_log INFO "Attempting to generate response using OpenAI")
          (mk_log INFO "Generating response using Anthropic")
          ai_bridge.chat_error_reply ai_bridge.chat_unavailable_reply) /\
    (forall ts,
        chain_contract cfg p (CallQuestions ts)
          (ai_bridge.generate_technical_questions cfg w ts p)
          (questions_primary w ts) (questions_secondary w ts)
          (mk_log INFO "Attempting to generate technical questions using OpenAI")
          (mk_log INFO "Generating technical questions using Anthropic")
          ai_bridge.questions_error_reply ai_bridge.questions_unavailable_reply) /\
    (forall q a ts,
        chain_contract cfg p (CallEvaluate q a ts)
          (ai_bridge.evaluate_technical_response json_loads cfg w q a ts p)
          (evaluate_primary json_loads w q a ts) (evaluate_secondary json_loads w q a ts)
          (mk_log INFO "Attempting to evaluate technical response using OpenAI")
          (mk_log INFO "Evaluating technical response using Anthropic")
          (fun _ => ai_bridge.evaluation_error_response)
          ai_bridge.evaluation_unavailable_response) /\
    (forall st info,
        (has_openai cfg = true ->
         ai_bridge.get_system_prompt cfg st info
         = openai_helper.get_system_prompt st info) /\
        (has_openai cfg = false -> has_anthropic cfg = true ->
         ai_bridge.get_system_prompt cfg st info
         = anthropic_helper.get_system_prompt st info)).
Proof.
  intros json_loads cfg w p. split; [|split; [|split]].
  - intros h st info. rewrite generate_chat_response_run.
    apply chain_contract_holds. discriminate.
  - intros ts. rewrite generate_technical_questions_run.
    apply chain_contract_holds. discriminate.
  - intros q a ts. rewrite evaluate_technical_response_run.
    apply chain_contract_holds. discriminate.
  - intros st info. unfold ai_bridge.get_system_prompt.
    split; [intros -> | intros -> ->]; reflexivity.
Qed.

(** Both providers configured, the primary raising and the secondary
    answering: the chat reply is the secondary's. *)
Lemma provider_order_witness :
  fst (ai_bridge.generate_chat_response both_providers
         (mk_world (Some (failing "timeout")) (Some (replying "Hello Jane.")))
         [mk_message "user" "Jane Doe"] 1 [("name", VStr "Jane Doe")] initial_process)
  = Returned "Hello Jane.".
Proof.
  destruct (proj1 (fallback_chain_provider_order_fixed Json.loads both_providers
                     (mk_world (Some (failing "timeout")) (Some (replying "Hello Jane.")))
                     initial_process)
              [mk_message "user" "Jane Doe"] 1%Z [("name", VStr "Jane Doe")])
    as (v & l & Hrun & _ & _ & _ & Hsecond & _).
  rewrite Hrun. cbn [fst]. f_equal.
  apply Hsecond.
  - right. eexists. vm_compute. reflexivity.
  - reflexivity.
  - vm_compute. reflexivity.
Defined.

(** ** Cleaning a fenced reply *)

Ltac case_ascii_dec :=
  repeat (match goal with
          | H : context [ascii_dec ?a ?b] |- _ => destruct (ascii_dec a b)
          | |- context [ascii_dec ?a ?b] => destruct (ascii_dec a b)
          end; subst; try discriminate; try congruence).

Lemma prefix_fence_before_newline pat s t :
  prefix (fence ++ pat) (s ++ String Py.newline t) = true ->
  prefix fence s = true.
Proof.
  unfold fence.
  destruct s as [|c1 [|c2 [|c3 s']]]; cbn [prefix append]; intro H;
    case_ascii_dec; auto.
  destruct s'; reflexivity.
Qed.

Lemma replace_passes_over pat new s t :
  Py.contains fence s = false ->
  Py.replace_from (fence ++ pat) new 0 (s ++ String Py.newline t) =
  s ++ Py.replace_from (fence ++ pat) new 0 (String Py.newline t).
Proof.
  induction s as [|c r IH]; intro Hno; [reflexivity|].
  cbn [Py.contains] in Hno. apply orb_false_iff in Hno. destruct Hno as [Hp Hr].
  change (String c r ++ String Py.newline t) with (String c (r ++ String Py.newline t)).
  cbn [Py.replace_from].
  destruct (prefix (fence ++ pat) (String c (r ++ String Py.newline t))) eqn:E.
  - apply (prefix_fence_before_newline pat (String c r) t) in E. congruence.
  - rewrite IH by assumption. reflexivity.
Qed.

Lemma replace_fence_json_fenced inner :
  Py.contains fence inner = false ->
  Py.replace fence_json "" (fenced inner) = Py.nl ++ inner ++ Py.nl ++ fence.
Proof.
  intro Hno. unfold Py.replace, fenced. cbn.
  change fence_json with (fence ++ "json").
  rewrite (replace_passes_over "json" "" inner fence Hno). reflexivity.
Qed.

Lemma replace_fence_rest inner :
  Py.contains fence inner = false ->
  Py.replace fence "" (Py.nl ++ inner ++ Py.nl ++ fence) = Py.nl ++ inner ++ Py.nl.
Proof.
  intro Hno. unfold Py.replace. cbn.
  change (Py.replace_from fence) with (Py.replace_from (fence ++ "")).
  rewrite (replace_passes_over "" "" inner fence Hno). reflexivity.
Qed.

Lemma rstrip_app_newline s : Py.rstrip (s ++ Py.nl) = Py.rstrip s.
Proof.
  induction s as [|c r IH]; [reflexivity|].
  change (String c r ++ Py.nl) with (String c (r ++ Py.nl)).
  cbn [Py.rstrip]. rewrite IH. reflexivity.
Qed.

Lemma strip_app_newline s : Py.strip (s ++ Py.nl) = Py.strip s.
Proof.
  unfold Py.strip. induction s as [|c r IH]; [reflexivity|].
  change (String c r ++ Py.nl) with (String c (r ++ Py.nl)).
  cbn [Py.lstrip]. destruct (Py.isspace c); [exact IH|].
  apply (rstrip_app_newline (String c r)).
Qed.

Lemma strip_between_newlines s : Py.strip (Py.nl ++ s ++ Py.nl) = Py.strip s.
Proof.
  change (Py.nl ++ s ++ Py.nl) with (String Py.newline (s ++ Py.nl)).
  unfold Py.strip at 1. cbn [Py.lstrip].
  change (Py.isspace Py.newline) with true. cbv iota.
  apply strip_app_newline.
Qed.

Lemma clean_response_fenced inner :
  Py.contains fence inner = false ->
  anthropic_helper.clean_response (fenced inner) = Py.strip inner.
Proof.
  intro Hno. unfold anthropic_helper.clean_response.
  change "```json" with fence_json. change "```" with fence.
  rewrite replace_fence_json_fenced, replace_fence_rest by assumption.
  apply strip_between_newlines.
Qed.

Lemma rstrip_closing_brace s : Py.rstrip (s ++ "}") = s ++ "}".
Proof.
  induction s as [|c r IH]; [reflexivity|].
  change (String c r ++ "}") with (String c (r ++ "}")).
  cbn [Py.rstrip]. rewrite IH. destruct r; reflexivity.
Qed.

Lemma strip_object_text body : Py.strip ("{" ++ body ++ "}") = "{" ++ body ++ "}".
Proof.
  unfold Py.strip.
  change ("{" ++ body ++ "}") with (String "{"%char (body ++ "}")).
  cbn [Py.lstrip]. change (Py.isspace "{"%char) with false. cbv iota.
  apply (rstrip_closing_brace (String "{"%char body)).
Qed.

(** ** Evaluation replies *)

Lemma evaluate_primary_reply json_loads w q a items create text :
  openai_client w = Some create ->
  create (openai_helper.evaluation_request (Py.join ", " items) q a) = Returned text ->
  evaluate_primary json_loads w q a (VList items) =
  match json_loads text with
  | Loaded v => Returned v
  | DecodeError => Returned openai_helper.parse_fallback
  | LoadError e => Raised e
  end.
Proof.
  intros Hc Hr. unfold evaluate_primary, openai_helper.evaluate_technical_response.
  unfold_monad. rewrite Hc. cbn [join_tech_stack]. rewrite Hr.
  destruct (json_loads text); reflexivity.
Qed.

Lemma evaluate_secondary_reply json_loads w q a items create text :
  anthropic_client w = Some create ->
  create (anthropic_helper.evaluation_request (Py.join ", " items) q a) = Returned text ->
  evaluate_secondary json_loads w q a (VList items) =
  match json_loads (anthropic_helper.clean_response text) with
  | Loaded v => Returned v
  | DecodeError => Returned anthropic_helper.parse_fallback
  | LoadError e => Raised e
  end.
Proof.
  intros Hc Hr. unfold evaluate_secondary, anthropic_helper.evaluate_technical_response.
  unfold_monad. rewrite Hc. cbn [join_tech_stack]. rewrite Hr.
  destruct (json_loads _); reflexivity.
Qed.

(** When the primary answers, the Gateway returns what the primary helper
    made of the reply; when the secondary answers, what the secondary
    helper made of it. *)
Lemma evaluate_value_primary json_loads cfg w q a ts v :
  has_openai cfg = true ->
  evaluate_primary json_loads w q a ts = Returned v ->
  evaluate_value json_loads cfg w q a ts = v.
Proof.
  intros Ho Hv. unfold evaluate_value, chain_value. rewrite Ho, Hv. reflexivity.
Qed.

Lemma evaluate_value_secondary json_loads cfg w q a ts v :
  has_anthropic cfg = true ->
  (has_openai cfg = false \/ exists e, evaluate_primary json_loads w q a ts = Raised e) ->
  evaluate_secondary json_loads w q a ts = Returned v ->
  evaluate_value json_loads cfg w q a ts = v.
Proof.
  intros Ha Hp Hv. unfold evaluate_value, chain_value, second_value.
  rewrite Ha, Hv. cbn [negb].
  destruct Hp as [Ho | [e He]].
  - rewrite Ho. reflexivity.
  - rewrite He. destruct (has_openai cfg); reflexivity.
Qed.

(** C4, as the code has it. A reply of the secondary provider that wraps
    the text of a JSON object in [```json] fences, the object's text
    holding no [```] of its own, is parsed to exactly the object the inner
    text denotes, whether the primary is not configured or has raised.
    A reply of the primary provider is handed to [json.loads] as it
    stands, with no fence removed.  When [json.loads] returns, the Gateway
    returns that value; when it raises [JSONDecodeError], the primary
    helper's fallback object; when it raises anything else, the primary
    helper raises that exception and the Gateway goes on as after any
    failure of the primary. *)
Theorem fenced_reply_parsed_by_secondary :
  forall (json_loads : string -> loaded) (cfg : config) (w : world)
         (q a : string) (items : list string),
    (forall create body v p,
        has_anthropic cfg = true ->
        (has_openai cfg = false \/
         exists e, evaluate_primary json_loads w q a (VList items) = Raised e) ->
        anthropic_client w = Some create ->
        create (anthropic_helper.evaluation_request (Py.join ", " items) q a)
          = Returned (fenced (object_text body)) ->
        Py.contains fence (object_text body) = false ->
        json_loads (object_text body) = Loaded v ->
        fst (ai_bridge.evaluate_technical_response json_loads cfg w q a (VList items) p)
          = Returned v) /\
    (forall create text p,
        has_openai cfg = true ->
        openai_client w = Some create ->
        create (openai_helper.evaluation_request (Py.join ", " items) q a)
          = Returned text ->
        match json_loads text with
        | Loaded v =>
            fst (ai_bridge.evaluate_technical_response json_loads cfg w q a
                   (VList items) p) = Returned v
        | DecodeError =>
            fst (ai_bridge.evaluate_technical_response json_loads cfg w q a
                   (VList items) p) = Returned openai_helper.parse_fallback
        | LoadError e =>
            evaluate_primary json_loads w q a (VList items) = Raised e /\
            fst (ai_bridge.evaluate_technical_response json_loads cfg w q a
                   (VList items) p)
            = Returned (after_primary_failure cfg
                          (evaluate_secondary json_loads w q a (VList items)))
        end).
Proof.
  intros json_loads cfg w q a items. split.
  - intros create body v p Ha Hp Hc Hr Hno Hv.
    rewrite evaluate_technical_response_run. cbn [fst]. f_equal.
    apply evaluate_value_secondary; [assumption | assumption |].
    rewrite (evaluate_secondary_reply json_loads w q a items create _ Hc Hr).
    rewrite clean_response_fenced by assumption.
    unfold object_text at 1. rewrite strip_object_text.
    fold (object_text body). rewrite Hv. reflexivity.
  - intros create text p Ho Hc Hr.
    rewrite evaluate_technical_response_run. cbn [fst].
    pose proof (evaluate_primary_reply json_loads w q a items create text Hc Hr) as Hp.
    destruct (json_loads text) as [v| |e].
    + f_equal. apply evaluate_value_primary; assumption.
    + f_equal. apply evaluate_value_primary; assumption.
    + split; [exact Hp|]. f_equal.
      unfold evaluate_value, chain_value, second_value, after_primary_failure.
      rewrite Ho, Hp. destruct (has_anthropic cfg); reflexivity.
Qed.

(** The secondary provider alone, answering with the fenced sample object:
    the Gateway returns the object. *)
Lemma fenced_reply_parsed_by_secondary_witness :
  fst (ai_bridge.evaluate_technical_response Json.loads secondary_only
         (mk_world None (Some (replying (fenced (object_text sample_body)))))
         "What is a decorator?" "A function wrapper." (VList ["Python"])
         initial_process)
  = Returned sample_object.
Proof.
  apply (proj1 (fenced_reply_parsed_by_secondary Json.loads secondary_only
                  (mk_world None (Some (replying (fenced (object_text sample_body)))))
                  "What is a decorator?" "A function wrapper." ["Python"])
           (replying (fenced (object_text sample_body))) sample_body).
  - reflexivity.
  - left. reflexivity.
  - reflexivity.
  - reflexivity.
  - vm_compute. reflexivity.
  - vm_compute. reflexivity.
Defined.

(** C4 fails for the primary provider: its fenced reply is not parsed to
    the inner object; the helper's fallback object comes back instead. *)
Lemma fenced_reply_from_primary_not_parsed :
  fst (ai_bridge.evaluate_technical_response Json.loads primary_only
         (mk_world (Some (replying (fenced (object_text sample_body)))) None)
         "What is a decorator?" "A function wrapper." (VList ["Python"])
         initial_process)
  = Returned openai_helper.parse_fallback
  /\ Json.loads (object_text sample_body) = Loaded sample_object
  /\ openai_helper.parse_fallback <> sample_object.
Proof.
  split; [vm_compute; reflexivity|].
  split; [vm_compute; reflexivity|].
  discriminate.
Qed.

(** A fence inside a field does not survive the secondary helper's
    cleaning: this is why the statement above asks for a payload without
    [```]. *)
Example fence_inside_field_is_removed :
  Json.loads (object_text (quoted "response" ++ ": " ++ quoted "Use ```x``` here."))
  = Loaded (JObj [("response", JStr "Use ```x``` here.")])
  /\ Json.loads (anthropic_helper.clean_response
                   (fenced (object_text
                      (quoted "response" ++ ": " ++ quoted "Use ```x``` here."))))
     = Loaded (JObj [("response", JStr "Use x here.")]).
Proof. split; vm_compute; reflexivity. Qed.

(** C5, as the code has it. The failure cases of
    [evaluate_technical_response] end in three different fixed objects.
    When at least one provider is configured and every configured provider
    raises, the object is the one the specification names.  When neither
    provider is configured, the object differs in its [response] text.
    When [json.loads] raises [JSONDecodeError] on the text of the provider
    that answers (for the secondary: on the text without its fences), the
    object is that helper's own fallback.  When [json.loads] raises any
    other exception, the helper raises it, which is a failure of that
    provider like any other. *)
Theorem evaluation_failure_objects :
  forall (json_loads : string -> loaded) (cfg : config) (w : world)
         (q a : string) (items : list string) (p : process),
    let result :=
      fst (ai_bridge.evaluate_technical_response json_loads cfg w q a (VList items) p) in
    ((has_openai cfg = true \/ has_anthropic cfg = true) ->
     (has_openai cfg = true ->
      exists e, evaluate_primary json_loads w q a (VList items) = Raised e) ->
     (has_anthropic cfg = true ->
      exists e, evaluate_secondary json_loads w q a (VList items) = Raised e) ->
     result = Returned spec_evaluation_fallback) /\
    (has_openai cfg = false -> has_anthropic cfg = false ->
     result = Returned ai_bridge.evaluation_unavailable_response) /\
    (forall create text,
        has_openai cfg = true ->
        openai_client w = Some create ->
        create (openai_helper.evaluation_request (Py.join ", " items) q a)
          = Returned text ->
        json_loads text = DecodeError ->
        result = Returned openai_helper.parse_fallback) /\
    (forall create text,
        has_anthropic cfg = true ->
        (has_openai cfg = false \/
         exists e, evaluate_primary json_loads w q a (VList items) = Raised e) ->
        anthropic_client w = Some create ->
        create (anthropic_helper.evaluation_request (Py.join ", " items) q a)
          = Returned text ->
        json_loads (anthropic_helper.clean_response text) = DecodeError ->
        result = Returned anthropic_helper.parse_fallback) /\
    (forall create text e,
        openai_client w = Some create ->
        create (openai_helper.evaluation_request (Py.join ", " items) q a)
          = Returned text ->
        json_loads text = LoadError e ->
        evaluate_primary json_loads w q a (VList items) = Raised e) /\
    (forall create text e,
        anthropic_client w = Some create ->
        create (anthropic_helper.evaluation_request (Py.join ", " items) q a)
          = Returned text ->
        json_loads (anthropic_helper.clean_response text) = LoadError e ->
        evaluate_secondary json_loads w q a (VList items) = Raised e).
Proof.
  intros json_loads cfg w q a items p result. subst result.
  rewrite evaluate_technical_response_run. cbn [fst].
  split; [|split; [|split; [|split; [|split]]]].
  - intros Hsome Ho Ha. f_equal.
    unfold evaluate_value, chain_value, second_value.
    destruct (has_openai cfg), (has_anthropic cfg); cbn [negb].
    + destruct (Ho eq_refl) as [e1 ->]. destruct (Ha eq_refl) as [e2 ->]. reflexivity.
    + destruct (Ho eq_refl) as [e1 ->]. reflexivity.
    + destruct (Ha eq_refl) as [e2 ->]. reflexivity.
    + destruct Hsome; discriminate.
  - intros Ho Ha. unfold evaluate_value, chain_value, second_value.
    rewrite Ho, Ha. reflexivity.
  - intros create text Ho Hc Hr Hnone. f_equal.
    apply evaluate_value_primary; [assumption|].
    rewrite (evaluate_primary_reply json_loads w q a items create text Hc Hr).
    rewrite Hnone. reflexivity.
  - intros create text Ha Hp Hc Hr Hnone. f_equal.
    apply evaluate_value_secondary; [assumption | assumption |].
    rewrite (evaluate_secondary_reply json_loads w q a items create text Hc Hr).
    rewrite Hnone. reflexivity.
  - intros create text e Hc Hr He.
    rewrite (evaluate_primary_reply json_loads w q a items create text Hc Hr).
    rewrite He. reflexivity.
  - intros create text e Hc Hr He.
    rewrite (evaluate_secondary_reply json_loads w q a items create text Hc Hr).
    rewrite He. reflexivity.
Qed.

(** A primary that raises and no secondary: the object of the
    specification. *)
Lemma evaluation_failure_objects_witness :
  fst (ai_bridge.evaluate_technical_response Json.loads primary_only
         (mk_world (Some (failing "rate limit")) None)
         "What is a decorator?" "A function wrapper." (VList ["Python"])
         initial_process)
  = Returned spec_evaluation_fallback.
Proof.
  apply (proj1 (evaluation_failure_objects Json.loads primary_only
                  (mk_world (Some (failing "rate limit")) None)
                  "What is a decorator?" "A function wrapper." ["Python"]
                  initial_process)).
  - left. reflexivity.
  - intros _. eexists. vm_compute. reflexivity.
  - intro H. discriminate H.
Defined.

(** C5 fails when neither provider is configured: the object returned is
    not the one the specification names. *)
Lemma evaluation_fallback_not_single :
  fst (ai_bridge.evaluate_technical_response Json.loads no_provider
         (mk_world None None)
         "What is a decorator?" "A function wrapper." (VList ["Python"])
         initial_process)
  = Returned ai_bridge.evaluation_unavailable_response
  /\ ai_bridge.evaluation_unavailable_response <> spec_evaluation_fallback.
Proof.
  split; [vm_compute; reflexivity | discriminate].
Qed.

(** An exception of [json.loads] other than [JSONDecodeError] is a failure
    of the provider: with the primary alone, the error object of
    [ai_bridge] comes back, not the helper's fallback. *)
Example load_error_is_a_provider_failure :
  forall e : exn,
    fst (ai_bridge.evaluate_technical_response (fun _ => LoadError e) primary_only
           (chatty "[[[[") "What is a decorator?" "A function wrapper."
           (VList ["Python"]) initial_process)
    = Returned ai_bridge.evaluation_error_response.
Proof. intro e. reflexivity. Qed.

(** ** Dictionary facts *)

Lemma dict_get_set_same {V} k (v : V) d : Dict.get k (Dict.set k v d) = Some v.
Proof.
  induction d as [|[k' v'] rest IH]; cbn [Dict.set Dict.get].
  - rewrite String.eqb_refl. reflexivity.
  - destruct (String.eqb_spec k' k) as [->|Hne]; cbn [Dict.get].
    + rewrite String.eqb_refl. reflexivity.
    + destruct (String.eqb_spec k' k); [contradiction | exact IH].
Qed.

Lemma dict_get_set_other {V} k k' (v : V) d :
  k <> k' -> Dict.get k (Dict.set k' v d) = Dict.get k d.
Proof.
  intro Hne. induction d as [|[k0 v0] rest IH]; cbn [Dict.set Dict.get].
  - destruct (String.eqb_spec k' k); [congruence | reflexivity].
  - destruct (String.eqb_spec k0 k') as [->|Hne0]; cbn [Dict.get].
    + destruct (String.eqb_spec k' k); [congruence | reflexivity].
    + destruct (String.eqb_spec k0 k); [reflexivity | exact IH].
Qed.

(** ** The session invariant is kept *)

Lemma invariant_initial : invariant (session initial_process).
Proof.
  constructor; cbn; try lia; try tauto; try discriminate.
Qed.

Ltac unfold_controller :=
  cbv [utils.handle_user_response utils.update_chat_history app.run
       bind ret raise lift try_except read write].

Ltac session_fields :=
  cbn [snd fst session log calls chat_history interview_stage candidate_info
       technical_questions current_question_index evaluation_in_progress
       set_chat_history set_interview_stage set_candidate_info
       set_technical_questions set_current_question_index] in *.

Ltac gateway_runs :=
  repeat (rewrite ?generate_chat_response_run, ?generate_technical_questions_run,
            ?evaluate_technical_response_run; session_fields).

Lemma app_nonempty {A} (l : list A) (x : A) : (l ++ [x])%list <> [].
Proof. destruct l; discriminate. Qed.

Lemma app_empty_iff {A} (l : list A) (x : A) (P : Prop) :
  ~ P -> ((l ++ [x])%list = [] <-> P).
Proof. intro H. split; [intro E; destruct (app_nonempty _ _ E) | tauto]. Qed.

Ltac solve_started :=
  let HH := fresh "HH" in
  split; intro HH;
  [ exfalso; first [ exact (app_nonempty _ _ HH) | discriminate HH ]
  | exfalso; first [ lia | discriminate HH | congruence ] ].

Ltac solve_invariant :=
  constructor; unfold question_bound in *; session_fields;
  rewrite ?dict_get_set_same;
  repeat (rewrite dict_get_set_other by discriminate);
  first [ solve_started
        | intros; lia
        | intros; congruence
        | intros; match goal with H : _ -> ?g |- ?g => apply H; lia end
        | intros; match goal with H : _ -> _ -> ?g |- ?g => apply H; (lia || congruence) end
        | intros; eauto; fail
        | idtac ].

Ltac case_raise := 
  match goal with
  | |- context [match ?o with Returned _ => _ | Raised _ => _ end] =>
      destruct o; session_fields; [|solve_invariant]
  end.

Lemma handle_user_response_invariant json_loads cfg w user_input p :
  invariant (session p) -> interview_stage (session p) <> 0%Z ->
  invariant (session (snd (utils.handle_user_response json_loads cfg w user_input p))).
Proof.
  intros [Hrange Hstart Hlow Hhigh Hlive Hnone Hstack Hunset] Hnz.
  unfold_controller. session_fields.
  destruct (Z.eqb_spec (interview_stage (session p)) 1) as [E1|N1]; session_fields.
  - gateway_runs. solve_invariant.
  - destruct (Z.eqb_spec (interview_stage (session p)) 5) as [E5|N5]; session_fields.
    + destruct (technical_questions (session p)) as [|q0 rest] eqn:Eq; session_fields.
      * case_raise. gateway_runs.
        match goal with
        | |- context [filter ?f ?l] => destruct (filter f l) as [|first more] eqn:Ef
        end; session_fields; solve_invariant.
        intros _ _. cbn [List.length]. lia.
      * assert (Hlt : (current_question_index (session p) < question_bound (session p))%Z)
          by (apply Hlive; [assumption | discriminate]).
        unfold question_bound in Hlt.
        repeat case_raise. gateway_runs. repeat case_raise.
        match goal with
        | |- context [if ?c then _ else _] => destruct c eqn:Ec
        end; session_fields; gateway_runs; solve_invariant.
    + gateway_runs. solve_invariant.
Qed.

Ltac unfold_app :=
  cbv [app.run utils.update_chat_history bind ret raise lift try_except read write].

Lemma run_invariant json_loads cfg w a p :
  invariant (session p) ->
  invariant (session (snd (app.run json_loads cfg w a p))).
Proof.
  intros Hinv.
  destruct (chat_history (session p)) as [|m0 h0] eqn:Eh.
  - assert (E0 : interview_stage (session p) = 0%Z) by (apply Hinv; assumption).
    destruct Hinv as [Hrange Hstart Hlow Hhigh Hlive Hnone Hstack Hunset].
    assert (El : (List.length (chat_history (session p)) =? 0)%nat = true)
      by (rewrite Eh; reflexivity).
    unfold_app. session_fields. rewrite El. session_fields.
    solve_invariant.
  - assert (Hnz : interview_stage (session p) <> 0%Z).
    { intro E. apply Hinv in E. congruence. }
    assert (El : (List.length (chat_history (session p)) =? 0)%nat = false)
      by (rewrite Eh; reflexivity).
    unfold_app. session_fields. rewrite El. session_fields.
    destruct (Z.eqb_spec (interview_stage (session p)) 2) as [E2|N2]; session_fields.
    { destruct Hinv as [Hrange Hstart Hlow Hhigh Hlive Hnone Hstack Hunset].
      destruct a; session_fields; try (constructor; assumption).
      gateway_runs. solve_invariant. }
    destruct (Z.eqb_spec (interview_stage (session p)) 3) as [E3|N3]; session_fields.
    { destruct Hinv as [Hrange Hstart Hlow Hhigh Hlive Hnone Hstack Hunset].
      destruct a; session_fields; try (constructor; assumption).
      gateway_runs. solve_invariant. }
    destruct (Z.eqb_spec (interview_stage (session p)) 4) as [E4|N4]; session_fields.
    { destruct Hinv as [Hrange Hstart Hlow Hhigh Hlive Hnone Hstack Hunset].
      destruct a as [| | |selected|]; session_fields; try (constructor; assumption).
      destruct selected as [|t0 more]; session_fields; [constructor; assumption|].
      gateway_runs. solve_invariant.
      - intros _ Hq. exfalso. apply Hq. apply Hnone. lia.
      - intros _. exists (t0 :: more). split; [reflexivity | discriminate]. }
    destruct a as [| | | |user_input]; session_fields; try assumption.
    destruct (String.eqb_spec user_input ""); session_fields; [assumption|].
    apply handle_user_response_invariant; assumption.
Qed.

(** ** Single turns of the technical assessment *)

Lemma evaluated_pairs_app l1 l2 :
  evaluated_pairs (l1 ++ l2) = (evaluated_pairs l1 ++ evaluated_pairs l2)%list.
Proof.
  induction l1 as [|c l1 IH]; [reflexivity|].
  destruct c; cbn [evaluated_pairs List.app]; rewrite IH; reflexivity.
Qed.

Lemma fallback_objects_well_formed :
  well_formed ai_bridge.evaluation_error_response /\
  well_formed ai_bridge.evaluation_unavailable_response /\
  well_formed openai_helper.parse_fallback /\
  well_formed anthropic_helper.parse_fallback.
Proof. repeat split; eexists; vm_compute; reflexivity. Qed.

(** An answer given while a question is open: it is evaluated against the
    question under the cursor, the reply is shown, the cursor moves on by
    one, and the interview concludes when the cursor has reached the end of
    the list or five. *)
Lemma evaluation_turn json_loads cfg w user_input p cq ts reply :
  interview_stage (session p) = 5%Z ->
  technical_questions (session p) <> [] ->
  list_getitem (technical_questions (session p)) (current_question_index (session p))
    = Returned cq ->
  dict_getitem (candidate_info (session p)) "tech_stack" = Returned ts ->
  utils.response_with_follow_up (evaluate_value json_loads cfg w cq user_input ts)
    = Returned reply ->
  exists p',
    utils.handle_user_response json_loads cfg w user_input p = (Returned tt, p') /\
    technical_questions (session p') = technical_questions (session p) /\
    candidate_info (session p') = candidate_info (session p) /\
    current_question_index (session p') = (current_question_index (session p) + 1)%Z /\
    interview_stage (session p') =
      (if ((current_question_index (session p) + 1
            >=? Z.of_nat (List.length (technical_questions (session p))))
           || (current_question_index (session p) + 1 >=? 5))%Z
       then 6%Z else 5%Z) /\
    evaluated_pairs (calls p') = (evaluated_pairs (calls p) ++ [(cq, user_input)])%list /\
    exists closing,
      chat_history (session p') =
      (chat_history (session p)
       ++ mk_message "user" user_input :: mk_message "assistant" reply :: closing)%list.
Proof.
  intros E5 Hq Hcq Hts Hreply.
  unfold_controller. session_fields. rewrite E5. cbn [Z.eqb Pos.eqb]. session_fields.
  destruct (technical_questions (session p)) as [|q0 rest] eqn:Eq; [congruence|].
  session_fields. rewrite Hcq. session_fields. rewrite Hts. session_fields.
  gateway_runs. rewrite Hreply. session_fields. rewrite Eq.
  match goal with
  | |- context [if ?c then _ else _] => destruct c eqn:Ec
  end; session_fields; gateway_runs; eexists; (split; [reflexivity|]); session_fields;
    rewrite ?evaluated_pairs_app; cbn [evaluated_pairs]; rewrite ?app_nil_r;
    repeat split; try reflexivity; try assumption;
    rewrite <- ?app_assoc; cbn [List.app]; eexists; reflexivity.
Qed.

(** An answer given at stage 5 before any question exists: the questions
    are generated, split into non-blank lines, and the first is shown. *)
Lemma generation_turn json_loads cfg w user_input p ts :
  interview_stage (session p) = 5%Z ->
  technical_questions (session p) = [] ->
  dict_getitem (candidate_info (session p)) "tech_stack" = Returned ts ->
  let generated :=
    filter (fun q => negb (Py.strip q =? "")%string)
           (Py.split Py.newline (questions_value cfg w ts)) in
  exists p',
    utils.handle_user_response json_loads cfg w user_input p = (Returned tt, p') /\
    technical_questions (session p') = generated /\
    candidate_info (session p') = candidate_info (session p) /\
    current_question_index (session p') = 0%Z /\
    interview_stage (session p') = 5%Z /\
    calls p' = (calls p ++ [CallQuestions ts])%list /\
    chat_history (session p') =
      (chat_history (session p)
       ++ [mk_message "user" user_input;
           mk_message "assistant"
             match generated with
             | first_question :: _ => first_question
             | [] => "Let's discuss your technical experience. What projects have you worked on recently?"
             end])%list.
Proof.
  intros E5 Hq Hts generated.
  unfold_controller. session_fields. rewrite E5. cbn [Z.eqb Pos.eqb]. session_fields.
  rewrite Hq. session_fields. rewrite Hts. session_fields. gateway_runs.
  fold generated.
  destruct generated as [|first more]; session_fields;
    eexists; (split; [reflexivity|]); session_fields;
    repeat split; try reflexivity; try assumption;
    rewrite <- ?app_assoc; reflexivity.
Qed.

(** Input at any stage other than 1 and 5: a chat reply, nothing else. *)
Lemma plain_turn json_loads cfg w user_input p :
  interview_stage (session p) <> 1%Z -> interview_stage (session p) <> 5%Z ->
  exists p',
    utils.handle_user_response json_loads cfg w user_input p = (Returned tt, p') /\
    technical_questions (session p') = technical_questions (session p) /\
    candidate_info (session p') = candidate_info (session p) /\
    current_question_index (session p') = current_question_index (session p) /\
    interview_stage (session p') = interview_stage (session p) /\
    evaluated_pairs (calls p') = evaluated_pairs (calls p).
Proof.
  intros N1 N5.
  unfold_controller. session_fields.
  destruct (Z.eqb_spec (interview_stage (session p)) 1); [contradiction|]. session_fields.
  destruct (Z.eqb_spec (interview_stage (session p)) 5); [contradiction|]. session_fields.
  gateway_runs. eexists. split; [reflexivity|]. session_fields.
  rewrite evaluated_pairs_app. cbn [evaluated_pairs]. rewrite app_nil_r.
  repeat split; reflexivity.
Qed.

(** ** The assessment loop *)

Lemma list_getitem_nat {A} (l : list A) (k : nat) (d : A) :
  (k < List.length l)%nat -> list_getitem l (Z.of_nat k) = Returned (nth k l d).
Proof.
  intro Hk. unfold list_getitem.
  destruct (Z.ltb_spec (Z.of_nat k) 0); [lia|].
  destruct (Z.ltb_spec (Z.of_nat k) 0); [lia|]. cbn [orb].
  destruct (Z.leb_spec (Z.of_nat (List.length l)) (Z.of_nat k)); [lia|].
  rewrite Nat2Z.id.
  destruct (nth_error l k) eqn:E.
  - rewrite (nth_error_nth _ _ d E). reflexivity.
  - apply nth_error_None in E. lia.
Qed.

Lemma skipn_nth {A} (l : list A) (k : nat) (d : A) :
  (k < List.length l)%nat -> skipn k l = nth k l d :: skipn (S k) l.
Proof.
  revert k. induction l as [|x l IH]; intros k Hk; cbn [List.length] in Hk; [lia|].
  destruct k as [|k]; [reflexivity|].
  cbn [skipn nth]. apply IH. lia.
Qed.

Lemma dict_getitem_get {V} (d : dict V) k v :
  Dict.get k d = Some v -> dict_getitem d k = Returned v.
Proof. intro H. unfold dict_getitem. rewrite H. reflexivity. Qed.

Section Loop.
Variable json_loads : string -> loaded.
Variable cfg : config.
Variable qs : list string.
Variable ts : value.

Let m : nat := Nat.min (List.length qs) 5.

(** After the conclusion no input is evaluated and nothing moves. *)
Lemma concluded_run turns :
  forall p,
    interview_stage (session p) = 6%Z ->
    let result := handle_all json_loads cfg turns p in
    Forall (fun o => o = Returned tt) (fst result) /\
    evaluated_pairs (calls (snd result)) = evaluated_pairs (calls p) /\
    current_question_index (session (snd result)) = current_question_index (session p) /\
    interview_stage (session (snd result)) = 6%Z /\
    technical_questions (session (snd result)) = technical_questions (session p).
Proof.
  induction turns as [|[w a] rest IH]; intros p E6; cbn [handle_all].
  - cbn. repeat split; auto.
  - destruct (plain_turn json_loads cfg w a p) as (p1 & Hrun & Hq & Hi & Hc & Hs & Hp);
      [lia | lia |].
    rewrite Hrun.
    specialize (IH p1 ltac:(congruence)). cbn zeta in IH.
    destruct (handle_all json_loads cfg rest p1) as [os p2].
    cbn [fst snd] in *. destruct IH as (F & P & C & Hst & Q).
    repeat split; [constructor; auto | congruence ..].
Qed.

Lemma loop_from turns :
  forall (k : nat) p,
    interview_stage (session p) = 5%Z ->
    technical_questions (session p) = qs ->
    current_question_index (session p) = Z.of_nat k ->
    (k < m)%nat ->
    Dict.get "tech_stack" (candidate_info (session p)) = Some ts ->
    (forall q w a, In (q, (w, a)) (combine (firstn (m - k) (skipn k qs)) turns) ->
                   well_formed (evaluate_value json_loads cfg w q a ts)) ->
    let result := handle_all json_loads cfg turns p in
    Forall (fun o => o = Returned tt) (fst result) /\
    evaluated_pairs (calls (snd result)) =
      (evaluated_pairs (calls p)
       ++ combine (firstn (m - k) (skipn k qs)) (map snd turns))%list /\
    current_question_index (session (snd result)) =
      Z.of_nat (Nat.min (k + List.length turns) m) /\
    interview_stage (session (snd result)) =
      (if (k + List.length turns <? m)%nat then 5%Z else 6%Z) /\
    technical_questions (session (snd result)) = qs.
Proof.
  induction turns as [|[w a] rest IH]; intros k p E5 Hq Hk Hlt Hts Hwf; cbn [handle_all].
  - cbn [fst snd List.length map]. rewrite Nat.add_0_r.
    destruct (Nat.ltb_spec k m); [|lia].
    rewrite Nat.min_l by lia.
    destruct (firstn (m - k) (skipn k qs)); cbn [combine]; rewrite app_nil_r;
      repeat split; auto.
  - assert (Hlen : (k < List.length qs)%nat) by (unfold m in Hlt; lia).
    rewrite (skipn_nth qs k "" Hlen) in Hwf.
    replace (m - k)%nat with (S (m - S k)) in Hwf by lia. cbn [firstn combine] in Hwf.
    destruct (Hwf (nth k qs "") w a (or_introl eq_refl)) as [reply Hreply].
    destruct (evaluation_turn json_loads cfg w a p (nth k qs "") ts reply)
      as (p1 & Hrun & Hq1 & Hi1 & Hc1 & Hs1 & Hp1 & _); auto.
    { rewrite Hq. intro E. rewrite E in Hlen. cbn in Hlen. lia. }
    { rewrite Hq, Hk. apply list_getitem_nat. assumption. }
    { apply dict_getitem_get. assumption. }
    rewrite Hrun. rewrite Hq, Hk in Hs1. rewrite Hk in Hc1.
    cbn [List.length map].
    rewrite (skipn_nth qs k "" Hlen).
    replace (m - k)%nat with (S (m - S k)) by lia. cbn [firstn combine].
    destruct (Nat.ltb_spec (S k) m) as [Hmore | Hdone].
    + assert (Hs5 : interview_stage (session p1) = 5%Z).
      { rewrite Hs1. unfold m in Hmore.
        destruct (Z.geb_spec (Z.of_nat k + 1) (Z.of_nat (List.length qs))); [lia|].
        destruct (Z.geb_spec (Z.of_nat k + 1) 5); [lia|]. reflexivity. }
      specialize (IH (S k) p1 Hs5 ltac:(congruence) ltac:(rewrite Hc1; lia) Hmore
                    ltac:(congruence)
                    ltac:(intros q' w' a' Hin; apply Hwf; right; exact Hin)).
      cbn zeta in IH.
      destruct (handle_all json_loads cfg rest p1) as [os p2].
      cbn [fst snd] in *. destruct IH as (F & P & C & Hst & Q).
      replace (k + S (List.length rest))%nat with (S k + List.length rest)%nat by lia.
      repeat split; [constructor; auto | | assumption ..].
      rewrite P, Hp1, <- app_assoc. reflexivity.
    + assert (Hs6 : interview_stage (session p1) = 6%Z).
      { rewrite Hs1. unfold m in Hdone, Hlt.
        destruct (Z.geb_spec (Z.of_nat k + 1) (Z.of_nat (List.length qs)));
          [reflexivity|].
        destruct (Z.geb_spec (Z.of_nat k + 1) 5); [reflexivity | lia]. }
      pose proof (concluded_run rest p1 Hs6) as Hc. cbn zeta in Hc.
      destruct (handle_all json_loads cfg rest p1) as [os p2].
      cbn [fst snd] in *. destruct Hc as (F & P & C & Hst & Q).
      replace (m - S k)%nat with 0%nat by lia. cbn [firstn combine].
      destruct (Nat.ltb_spec (k + S (List.length rest)) m); [lia|].
      rewrite Nat.min_r by lia.
      repeat split; [constructor; auto | | | assumption | congruence].
      * rewrite P, Hp1. reflexivity.
      * rewrite C, Hc1. lia.
Qed.
End Loop.

(** ** The loop as a whole *)

(** X20. Let the session be at stage 5 with a non-empty question list of
    length L and the cursor at 0, and let every evaluation that is made
    (of answer k against question k, for k below min(L, 5) and below the
    number of answers) carry a [str] under [response] and under
    [follow_up].  Then for every sequence of answers: no turn raises (in
    particular no index error); the evaluation calls made are, in order,
    question k against answer k for k = 0 .. min(L, 5) - 1, each once, and
    there are no others; after n answers the cursor is min(n, min(L, 5));
    and the stage is 5 while n < min(L, 5) and 6 from then on.  The
    statement holds for every sequence, hence after every prefix of one:
    the stage changes once, in the turn of the min(L, 5)-th evaluation. *)
Theorem assessment_loop_consecutive_and_bounded :
  forall (json_loads : string -> loaded) (cfg : config) (p : process)
         (ts : value) (turns : list (world * string)),
    interview_stage (session p) = 5%Z ->
    technical_questions (session p) <> [] ->
    current_question_index (session p) = 0%Z ->
    Dict.get "tech_stack" (candidate_info (session p)) = Some ts ->
    (forall q w a,
        In (q, (w, a))
           (combine (firstn (Nat.min (List.length (technical_questions (session p))) 5)
                       (technical_questions (session p))) turns) ->
        well_formed (evaluate_value json_loads cfg w q a ts)) ->
    let qs := technical_questions (session p) in
    let bound := Nat.min (List.length qs) 5 in
    let n := List.length turns in
    let result := handle_all json_loads cfg turns p in
    Forall (fun o => o = Returned tt) (fst result) /\
    evaluated_pairs (calls (snd result)) =
      (evaluated_pairs (calls p) ++ combine (firstn bound qs) (map snd turns))%list /\
    current_question_index (session (snd result)) = Z.of_nat (Nat.min n bound) /\
    interview_stage (session (snd result)) = (if (n <? bound)%nat then 5%Z else 6%Z) /\
    technical_questions (session (snd result)) = qs.
Proof.
  intros json_loads cfg p ts turns E5 Hq Hc Hts Hwf qs bound n result.
  assert (Hpos : (0 < bound)%nat).
  { subst bound qs. destruct (technical_questions (session p)); [congruence|].
    cbn [List.length]. lia. }
  assert (Hwf0 : forall q w a,
             In (q, (w, a)) (combine (firstn (bound - 0) (skipn 0 qs)) turns) ->
             well_formed (evaluate_value json_loads cfg w q a ts)).
  { rewrite Nat.sub_0_r. cbn [skipn]. exact Hwf. }
  pose proof (loop_from json_loads cfg qs ts turns 0 p E5 eq_refl Hc Hpos Hts Hwf0) as H.
  cbn zeta in H. rewrite Nat.sub_0_r in H. cbn [skipn Nat.add] in H. exact H.
Qed.

(** Two questions and three answers, each evaluation a well-formed
    object: two evaluations, then the conclusion. *)
Lemma assessment_loop_witness :
  evaluated_pairs
    (calls (snd (handle_all Json.loads primary_only
                   [(evaluating, "first"); (evaluating, "second"); (evaluating, "third")]
                   asked_two_questions)))
  = (evaluated_pairs (calls asked_two_questions)
     ++ [("1. What is a goroutine?", "first"); ("2. What is the GIL?", "second")])%list
  /\ interview_stage
       (session (snd (handle_all Json.loads primary_only
                        [(evaluating, "first"); (evaluating, "second"); (evaluating, "third")]
                        asked_two_questions))) = 6%Z.
Proof.
  destruct (assessment_loop_consecutive_and_bounded Json.loads primary_only
              asked_two_questions (VList ["Python"; "Go"])
              [(evaluating, "first"); (evaluating, "second"); (evaluating, "third")])
    as (_ & Hpairs & _ & Hstage & _).
  - vm_compute. reflexivity.
  - vm_compute. discriminate.
  - vm_compute. reflexivity.
  - vm_compute. reflexivity.
  - intros q w a Hin. vm_compute in Hin.
    destruct Hin as [E | [E | []]]; inversion E; subst;
      eexists; vm_compute; reflexivity.
  - split; [exact Hpairs | exact Hstage].
Defined.

(** C2, at the failing input.  The primary provider answers both
    evaluation requests with the JSON text of an empty object, which the
    helper returns as it is; reading [response] from it raises [KeyError]
    after the evaluation call and before the cursor moves.  Both answers
    are evaluated against question 0, question 1 is never used, and after
    two evaluated answers the stage is still 5. *)
Lemma assessment_loop_repeats_question :
  let result :=
    handle_all Json.loads primary_only
      [(chatty (object_text ""), "first"); (chatty (object_text ""), "second")]
      asked_two_questions in
  technical_questions (session asked_two_questions)
    = ["1. What is a goroutine?"; "2. What is the GIL?"]
  /\ interview_stage (session asked_two_questions) = 5%Z
  /\ current_question_index (session asked_two_questions) = 0%Z
  /\ fst result = [Raised (mk_exn KeyError "'response'");
                   Raised (mk_exn KeyError "'response'")]
  /\ evaluated_pairs (calls (snd result))
     = [("1. What is a goroutine?", "first"); ("1. What is a goroutine?", "second")]
  /\ current_question_index (session (snd result)) = 0%Z
  /\ interview_stage (session (snd result)) = 5%Z.
Proof. vm_compute. repeat split. Qed.

(** ** Steps of a session *)

Ltac solve_step :=
  unfold cursor_step, stage_step, question_bound in *; session_fields;
  rewrite ?evaluated_pairs_app; cbn [evaluated_pairs]; rewrite ?app_nil_r;
  rewrite ?length_app; cbn [List.length];
  repeat split; intros; try lia.

Ltac case_raise_step :=
  match goal with
  | |- context [match ?o with Returned _ => _ | Raised _ => _ end] =>
      destruct o; session_fields; [|solve_step]
  end.

Lemma handle_user_response_step json_loads cfg w user_input p :
  invariant (session p) ->
  cursor_step p (utils.handle_user_response json_loads cfg w user_input p) /\
  stage_step p (utils.handle_user_response json_loads cfg w user_input p).
Proof.
  intros [Hrange Hstart Hlow Hhigh Hlive Hnone Hstack Hunset].
  unfold_controller. session_fields.
  destruct (Z.eqb_spec (interview_stage (session p)) 1) as [E1|N1]; session_fields.
  - gateway_runs. solve_step.
  - destruct (Z.eqb_spec (interview_stage (session p)) 5) as [E5|N5]; session_fields.
    + destruct (technical_questions (session p)) as [|q0 rest] eqn:Eq; session_fields.
      * unfold question_bound in Hhigh. rewrite Eq in Hhigh. cbn in Hhigh.
        case_raise_step. gateway_runs.
        match goal with
        | |- context [filter ?f ?l] => destruct (filter f l) as [|first more] eqn:Ef
        end; session_fields; solve_step.
      * repeat case_raise_step. gateway_runs. repeat case_raise_step.
        match goal with
        | |- context [if ?c then _ else _] => destruct c eqn:Ec
        end; session_fields; gateway_runs; solve_step.
    + gateway_runs. solve_step.
Qed.

Lemma run_step json_loads cfg w a p :
  invariant (session p) ->
  cursor_step p (app.run json_loads cfg w a p) /\
  stage_step p (app.run json_loads cfg w a p).
Proof.
  intros Hinv.
  destruct (chat_history (session p)) as [|m0 h0] eqn:Eh.
  - assert (E0 : interview_stage (session p) = 0%Z) by (apply Hinv; assumption).
    assert (El : (List.length (chat_history (session p)) =? 0)%nat = true)
      by (rewrite Eh; reflexivity).
    unfold_app. session_fields. rewrite El. session_fields. solve_step.
  - assert (El : (List.length (chat_history (session p)) =? 0)%nat = false)
      by (rewrite Eh; reflexivity).
    unfold_app. session_fields. rewrite El. session_fields.
    destruct (Z.eqb_spec (interview_stage (session p)) 2) as [E2|N2]; session_fields.
    { destruct a; session_fields; gateway_runs; solve_step. }
    destruct (Z.eqb_spec (interview_stage (session p)) 3) as [E3|N3]; session_fields.
    { destruct a; session_fields; gateway_runs; solve_step. }
    destruct (Z.eqb_spec (interview_stage (session p)) 4) as [E4|N4]; session_fields.
    { destruct a as [| | |selected|]; session_fields; try solve [solve_step].
      destruct selected; session_fields; gateway_runs; solve_step. }
    destruct a as [| | | |user_input]; session_fields; try solve [solve_step].
    destruct (String.eqb_spec user_input ""); session_fields; [solve_step|].
    apply handle_user_response_step; assumption.
Qed.

Lemma run_all_invariant json_loads cfg inputs :
  forall p, invariant (session p) ->
            invariant (session (snd (run_all json_loads cfg inputs p))).
Proof.
  induction inputs as [|[w a] rest IH]; intros p Hinv; cbn [run_all]; [exact Hinv|].
  pose proof (run_invariant json_loads cfg w a p Hinv) as H1.
  destruct (app.run json_loads cfg w a p) as [o p1]. cbn [snd] in H1.
  specialize (IH p1 H1).
  destruct (run_all json_loads cfg rest p1) as [os p2]. exact IH.
Qed.

Lemma run_all_stage json_loads cfg inputs :
  forall p, invariant (session p) ->
    (interview_stage (session p)
     <= interview_stage (session (snd (run_all json_loads cfg inputs p))))%Z /\
    (interview_stage (session p) = 6%Z ->
     interview_stage (session (snd (run_all json_loads cfg inputs p))) = 6%Z).
Proof.
  induction inputs as [|[w a] rest IH]; intros p Hinv; cbn [run_all].
  - cbn [snd]. split; [lia | auto].
  - pose proof (run_invariant json_loads cfg w a p Hinv) as H1.
    destruct (run_step json_loads cfg w a p Hinv) as [_ [Hle H6]].
    destruct (app.run json_loads cfg w a p) as [o p1]. cbn [snd] in *.
    specialize (IH p1 H1). destruct IH as [IHle IH6].
    destruct (run_all json_loads cfg rest p1) as [os p2]. cbn [snd] in *.
    split; [lia | auto].
Qed.

Lemma run_all_app json_loads cfg inputs more p :
  snd (run_all json_loads cfg (inputs ++ more) p) =
  snd (run_all json_loads cfg more (snd (run_all json_loads cfg inputs p))).
Proof.
  revert p. induction inputs as [|[w a] rest IH]; intro p; cbn [run_all List.app].
  - reflexivity.
  - destruct (app.run json_loads cfg w a p) as [o p1].
    specialize (IH p1).
    destruct (run_all json_loads cfg (rest ++ more) p1) as [os p2].
    destruct (run_all json_loads cfg rest p1) as [os' p2']. cbn [snd] in *.
    exact IH.
Qed.

(** ** Invariants of every session *)

(** X21. In every state a session reaches from the initial one, the
    cursor lies between 0 and the smaller of the number of questions
    and 5.  The cursor starts at 0; a run that returns moves it by the
    number of answers evaluated in the run, which is none or one, and a
    run that raises leaves it where it is. *)
Theorem cursor_bounded_by_questions_and_five :
  forall (json_loads : string -> loaded) (cfg : config)
         (inputs : list (world * app.action)),
    let p := snd (run_all json_loads cfg inputs initial_process) in
    current_question_index (session initial_process) = 0%Z /\
    (0 <= current_question_index (session p)
       <= Z.min (Z.of_nat (List.length (technical_questions (session p)))) 5)%Z /\
    forall w a, cursor_step p (app.run json_loads cfg w a p).
Proof.
  intros json_loads cfg inputs p.
  assert (Hinv : invariant (session p))
    by (apply run_all_invariant, invariant_initial).
  split; [reflexivity|]. split.
  - split; [apply Hinv | apply (inv_cursor_high _ Hinv)].
  - intros w a. apply run_step. exact Hinv.
Qed.

(** C3, at the failing input.  The session with the two sample questions
    goes on with two answers whose evaluation the primary provider answers
    with the JSON text of an empty object.  Both runs raise [KeyError]
    after the evaluation: two answers have been evaluated and the cursor
    is still 0, within its bound. *)
Lemma cursor_stays_after_evaluated_answers :
  let p :=
    snd (run_all Json.loads primary_only
           (up_to_first_question
            ++ [(chatty (object_text ""), app.Send "first");
                (chatty (object_text ""), app.Send "second")])
           initial_process) in
  evaluated_pairs (calls p)
    = [("1. What is a goroutine?", "first"); ("1. What is a goroutine?", "second")]
  /\ current_question_index (session p) = 0%Z
  /\ technical_questions (session p)
     = ["1. What is a goroutine?"; "2. What is the GIL?"]
  /\ interview_stage (session p) = 5%Z.
Proof. vm_compute. repeat split. Qed.

(** C7. Along every session the stage never decreases: the stage after
    more runs is at least the stage before them, a stage of 6 stays 6, and
    this holds for every single run as well. *)
Theorem stage_never_regresses :
  forall (json_loads : string -> loaded) (cfg : config)
         (inputs more : list (world * app.action)),
    let p := snd (run_all json_loads cfg inputs initial_process) in
    let p' := snd (run_all json_loads cfg (inputs ++ more) initial_process) in
    (interview_stage (session p) <= interview_stage (session p'))%Z /\
    (interview_stage (session p) = 6%Z -> interview_stage (session p') = 6%Z) /\
    forall w a, stage_step p (app.run json_loads cfg w a p).
Proof.
  intros json_loads cfg inputs more p p'.
  assert (Hinv : invariant (session p))
    by (apply run_all_invariant, invariant_initial).
  subst p'. rewrite run_all_app. fold p.
  destruct (run_all_stage json_loads cfg more p Hinv) as [Hle H6].
  split; [exact Hle|]. split; [exact H6|].
  intros w a. apply run_step. exact Hinv.
Qed.

(** The stage before and after the two answers of the sample session. *)
Lemma stage_never_regresses_witness :
  (interview_stage (session asked_two_questions)
   <= interview_stage
        (session (snd (run_all Json.loads primary_only
                         (up_to_first_question
                          ++ [(evaluating, app.Send "first");
                              (evaluating, app.Send "second")])
                         initial_process))))%Z.
Proof.
  exact (proj1 (stage_never_regresses Json.loads primary_only up_to_first_question
                  [(evaluating, app.Send "first"); (evaluating, app.Send "second")])).
Defined.

(** C8. In a session at stage 4, submitting the form with no technology
    selected changes nothing: the stage stays 4 and [tech_stack] stays
    unset.  In every state a session reaches, stage 5 comes with a
    non-empty list under [tech_stack]. *)
Theorem empty_selection_does_not_advance :
  forall (json_loads : string -> loaded) (cfg : config)
         (inputs : list (world * app.action)),
    let p := snd (run_all json_loads cfg inputs initial_process) in
    (interview_stage (session p) = 4%Z ->
     Dict.get "tech_stack" (candidate_info (session p)) = None /\
     forall w, app.run json_loads cfg w (app.SubmitTechStack []) p = (Returned tt, p)) /\
    (interview_stage (session p) = 5%Z ->
     exists items,
       Dict.get "tech_stack" (candidate_info (session p)) = Some (VList items)
       /\ items <> []).
Proof.
  intros json_loads cfg inputs p.
  assert (Hinv : invariant (session p))
    by (apply run_all_invariant, invariant_initial).
  split.
  - intro E4. split; [apply (inv_tech_stack_unset _ Hinv); lia|].
    intro w.
    assert (El : (List.length (chat_history (session p)) =? 0)%nat = false).
    { destruct (chat_history (session p)) eqn:Eh; [|reflexivity].
      apply (inv_started _ Hinv) in Eh. lia. }
    unfold_app. session_fields. rewrite El. session_fields. rewrite E4. reflexivity.
  - intro E5. apply (inv_tech_stack _ Hinv). lia.
Qed.

(** A session at stage 4 in which the form is submitted empty. *)
Lemma empty_selection_witness :
  app.run Json.loads primary_only (chatty "Let us start.") (app.SubmitTechStack [])
    (snd (run_all Json.loads primary_only (firstn 4 up_to_first_question) initial_process))
  = (Returned tt,
     snd (run_all Json.loads primary_only (firstn 4 up_to_first_question) initial_process)).
Proof.
  apply (proj1 (empty_selection_does_not_advance Json.loads primary_only
                  (firstn 4 up_to_first_question))).
  vm_compute. reflexivity.
Defined.

(** ** The system prompt *)

Lemma append_empty_r (s : string) : s ++ "" = s.
Proof. induction s as [|c r IH]; [reflexivity|]. cbn [append]. rewrite IH. reflexivity. Qed.

Lemma append_associative (a b c : string) : (a ++ b) ++ c = a ++ b ++ c.
Proof. induction a as [|x r IH]; [reflexivity|]. cbn [append]. rewrite IH. reflexivity. Qed.

Lemma join_empty_cons (x : string) (l : list string) :
  Py.join "" (x :: l) = x ++ Py.join "" l.
Proof.
  destruct l as [|y l]; cbn [Py.join].
  - symmetry. apply append_empty_r.
  - reflexivity.
Qed.

Lemma fold_left_lines (render : string * value -> string) (info : dict value) (init : string) :
  fold_left (fun acc kv => acc ++ render kv) info init
  = init ++ Py.join "" (map render info).
Proof.
  revert init. induction info as [|kv rest IH]; intro init; cbn [fold_left map].
  - symmetry. apply append_empty_r.
  - rewrite IH, join_empty_cons, append_associative. reflexivity.
Qed.

(** C9. The system prompt is the fixed preamble, then one line per key of
    [candidate_info] in the mapping's order, then the instruction block
    the table holds for the stage; the table has a block for each of the
    stages 1 to 6 and for no other, and for any other stage the prompt
    ends after the candidate lines.  A [tech_stack] list is rendered
    comma-joined; every other entry as its key and [str] of its value (so
    is a [tech_stack] entry that is not a list).  The two helper modules
    build the same prompt. *)
Theorem system_prompt_structure :
  forall (interview_stage : Z) (candidate_info : dict value),
    let lines := Py.join "" (map openai_helper.render_line candidate_info) in
    map fst openai_helper.stage_prompts = [1; 2; 3; 4; 5; 6]%Z /\
    ((1 <= interview_stage <= 6)%Z ->
     exists block,
       In (interview_stage, block) openai_helper.stage_prompts /\
       openai_helper.get_system_prompt interview_stage candidate_info
       = openai_helper.base_prompt ++ lines ++ block) /\
    (~ (1 <= interview_stage <= 6)%Z ->
     openai_helper.get_system_prompt interview_stage candidate_info
     = openai_helper.base_prompt ++ lines) /\
    (forall items,
        openai_helper.render_line ("tech_stack", VList items)
        = "- tech_stack: " ++ Py.join ", " items ++ Py.nl) /\
    (forall key v,
        key <> "tech_stack" \/ (forall items, v <> VList items) ->
        openai_helper.render_line (key, v)
        = "- " ++ key ++ ": " ++ str_value v ++ Py.nl) /\
    anthropic_helper.get_system_prompt interview_stage candidate_info
    = openai_helper.get_system_prompt interview_stage candidate_info.
Proof.
  intros stage info lines. subst lines.
  split; [reflexivity|].
  assert (Hsame : anthropic_helper.get_system_prompt stage info
                  = openai_helper.get_system_prompt stage info) by reflexivity.
  rewrite Hsame. clear Hsame.
  unfold openai_helper.get_system_prompt. rewrite fold_left_lines.
  split; [|split; [|split; [|split; [|reflexivity]]]].
  - intros Hr.
    assert (Hs : (stage = 1 \/ stage = 2 \/ stage = 3 \/ stage = 4 \/ stage = 5
                  \/ stage = 6)%Z) by lia.
    destruct Hs as [-> | [-> | [-> | [-> | [-> | ->]]]]];
      cbn [find openai_helper.stage_prompts fst Z.eqb Pos.eqb];
      eexists; (split; [|rewrite append_associative; reflexivity]);
      unfold openai_helper.stage_prompts; cbn [In]; auto 10.
  - intros Hr.
    assert (Hf : find (fun kp : Z * string => (fst kp =? stage)%Z)
                   openai_helper.stage_prompts = None).
    { unfold openai_helper.stage_prompts. cbn [find fst].
      repeat match goal with
             | |- context [(?k =? stage)%Z] => destruct (Z.eqb_spec k stage); [lia|]
             end.
      reflexivity. }
    rewrite Hf. reflexivity.
  - reflexivity.
  - intros key v [Hk | Hv]; unfold openai_helper.render_line.
    + destruct (String.eqb_spec key "tech_stack"); [contradiction|].
      destruct v; reflexivity.
    + destruct (key =? "tech_stack")%string; destruct v; try reflexivity.
      exfalso. exact (Hv items eq_refl).
Qed.

(** The prompt at stage 4 for a candidate with a name and a tech stack. *)
Lemma system_prompt_witness :
  exists block,
    In (4%Z, block) openai_helper.stage_prompts /\
    openai_helper.get_system_prompt 4
      [("name", VStr "Jane Doe"); ("experience", VInt 3);
       ("tech_stack", VList ["Python"; "Go"])]
    = openai_helper.base_prompt
      ++ Py.join "" (map openai_helper.render_line
           [("name", VStr "Jane Doe"); ("experience", VInt 3);
            ("tech_stack", VList ["Python"; "Go"])])
      ++ block.
Proof.
  apply (proj1 (proj2 (system_prompt_structure 4
           [("name", VStr "Jane Doe"); ("experience", VInt 3);
            ("tech_stack", VList ["Python"; "Go"])]))).
  lia.
Defined.

(** The candidate lines of that prompt, written out. *)
Example system_prompt_lines :
  Py.join "" (map openai_helper.render_line
    [("name", VStr "Jane Doe"); ("experience", VInt 3);
     ("tech_stack", VList ["Python"; "Go"])])
  = "- name: Jane Doe" ++ Py.nl ++ "- experience: 3" ++ Py.nl
    ++ "- tech_stack: Python, Go" ++ Py.nl.
Proof. vm_compute. reflexivity. Qed.

(** ** Questions from a fallback string *)

Lemma split_without_newline s :
  Py.contains Py.nl s = false -> Py.split Py.newline s = [s].
Proof.
  induction s as [|c r IH]; intro H; [reflexivity|].
  cbn [Py.contains] in H. apply orb_false_iff in H. destruct H as [Hp Hr].
  cbn [Py.split].
  destruct (Ascii.eqb_spec c Py.newline) as [->|Hne].
  - unfold Py.nl in Hp. cbn [prefix] in Hp.
    destruct (ascii_dec Py.newline Py.newline); [|congruence].
    destruct r; discriminate Hp.
  - rewrite (IH Hr). reflexivity.
Qed.

Lemma strip_keeps_visible_head c r :
  Py.isspace c = false -> (Py.strip (String c r) =? "")%string = false.
Proof.
  intro Hc. unfold Py.strip. cbn [Py.lstrip]. rewrite Hc. cbn [Py.rstrip].
  destruct (Py.rstrip r); [rewrite Hc|]; reflexivity.
Qed.

Lemma questions_fallback_not_blank text :
  questions_fallback text -> (Py.strip text =? "")%string = false.
Proof.
  intros [-> | [e ->]].
  - apply strip_keeps_visible_head. reflexivity.
  - unfold ai_bridge.questions_error_reply. cbn [append].
    apply strip_keeps_visible_head. reflexivity.
Qed.

Lemma single_line_fallback_question text :
  questions_fallback text -> Py.contains Py.nl text = false ->
  filter (fun q => negb (Py.strip q =? "")%string) (Py.split Py.newline text) = [text].
Proof.
  intros Hf Hone. rewrite (split_without_newline text Hone). cbn [filter].
  rewrite (questions_fallback_not_blank text Hf). reflexivity.
Qed.

(** C10, as the code has it. At stage 5 with no questions yet, let the
    Gateway answer the generation request with a fallback string.  If the
    string holds no line break, the input's turn stores the one-element
    list holding the string and shows it as the first question; if
    moreover the evaluation of the next answer carries a [str] under
    [response] and [follow_up], that answer is evaluated against the
    string as the question, the cursor becomes 1 and the stage 6.  When no
    provider is configured, both conditions hold whatever the providers
    would do. *)
Theorem fallback_text_becomes_the_only_question :
  forall (json_loads : string -> loaded) (cfg : config) (w1 w2 : world)
         (p : process) (ts : value) (user_input answer : string),
    interview_stage (session p) = 5%Z ->
    technical_questions (session p) = [] ->
    Dict.get "tech_stack" (candidate_info (session p)) = Some ts ->
    let apology := questions_value cfg w1 ts in
    let first_turn := utils.handle_user_response json_loads cfg w1 user_input p in
    let second_turn :=
      utils.handle_user_response json_loads cfg w2 answer (snd first_turn) in
    (questions_fallback apology ->
     Py.contains Py.nl apology = false ->
     fst first_turn = Returned tt /\
     technical_questions (session (snd first_turn)) = [apology] /\
     chat_history (session (snd first_turn))
       = (chat_history (session p)
          ++ [mk_message "user" user_input; mk_message "assistant" apology])%list /\
     interview_stage (session (snd first_turn)) = 5%Z /\
     evaluated_pairs (calls (snd first_turn)) = evaluated_pairs (calls p) /\
     (well_formed (evaluate_value json_loads cfg w2 apology answer ts) ->
      fst second_turn = Returned tt /\
      evaluated_pairs (calls (snd second_turn))
        = (evaluated_pairs (calls p) ++ [(apology, answer)])%list /\
      current_question_index (session (snd second_turn)) = 1%Z /\
      interview_stage (session (snd second_turn)) = 6%Z)) /\
    (has_openai cfg = false -> has_anthropic cfg = false ->
     apology = ai_bridge.questions_unavailable_reply /\
     questions_fallback apology /\
     Py.contains Py.nl apology = false /\
     well_formed (evaluate_value json_loads cfg w2 apology answer ts)).
Proof.
  intros json_loads cfg w1 w2 p ts user_input answer E5 Hq Hts apology first_turn second_turn.
  split.
  - intros Hf Hone.
    destruct (generation_turn json_loads cfg w1 user_input p ts E5 Hq
                (dict_getitem_get _ _ _ Hts))
      as (p1 & Hrun & Hq1 & Hi1 & Hc1 & Hs1 & Hcalls1 & Hh1).
    fold apology in Hq1, Hh1.
    rewrite (single_line_fallback_question apology Hf Hone) in Hq1, Hh1.
    assert (Hpairs1 : evaluated_pairs (calls p1) = evaluated_pairs (calls p)).
    { rewrite Hcalls1, evaluated_pairs_app. cbn [evaluated_pairs]. apply app_nil_r. }
    subst second_turn first_turn. rewrite Hrun. cbn [fst snd].
    split; [reflexivity|]. split; [exact Hq1|]. split; [exact Hh1|].
    split; [exact Hs1|]. split; [exact Hpairs1|].
    intros [reply Hreply].
    destruct (evaluation_turn json_loads cfg w2 answer p1 apology ts reply)
      as (p2 & Hrun2 & _ & _ & Hc2 & Hs2 & Hp2 & _).
    + exact Hs1.
    + rewrite Hq1. discriminate.
    + rewrite Hq1, Hc1. reflexivity.
    + rewrite Hi1. apply dict_getitem_get. exact Hts.
    + exact Hreply.
    + rewrite Hrun2. cbn [fst snd].
      split; [reflexivity|]. split; [rewrite Hp2, Hpairs1; reflexivity|].
      split; [rewrite Hc2, Hc1; reflexivity|].
      rewrite Hs2, Hq1, Hc1. reflexivity.
  - intros Ho Ha.
    assert (Hap : apology = ai_bridge.questions_unavailable_reply).
    { subst apology. unfold questions_value, chain_value, second_value.
      rewrite Ho, Ha. reflexivity. }
    split; [exact Hap|]. split; [left; exact Hap|]. split.
    + rewrite Hap. vm_compute. reflexivity.
    + unfold evaluate_value, chain_value, second_value. rewrite Ho, Ha.
      apply fallback_objects_well_formed.
Qed.

(** No provider configured: the apology is the only question, and the
    answer to it concludes the interview. *)
Lemma fallback_question_witness :
  technical_questions
    (session (snd (utils.handle_user_response Json.loads no_provider silent "ready"
                     (before_questions no_provider silent))))
  = [ai_bridge.questions_unavailable_reply]
  /\ interview_stage
       (session (snd (utils.handle_user_response Json.loads no_provider silent
                        "It depends."
                        (snd (utils.handle_user_response Json.loads no_provider silent
                                "ready" (before_questions no_provider silent))))))
     = 6%Z.
Proof.
  destruct (fallback_text_becomes_the_only_question Json.loads no_provider silent silent
              (before_questions no_provider silent) (VList ["Python"; "Go"])
              "ready" "It depends.")
    as [Hturns _].
  - vm_compute. reflexivity.
  - vm_compute. reflexivity.
  - vm_compute. reflexivity.
  - destruct Hturns as (_ & Hq & _ & _ & _ & Hsecond).
    + left. vm_compute. reflexivity.
    + vm_compute. reflexivity.
    + destruct Hsecond as (_ & _ & _ & Hs6).
      * eexists. vm_compute. reflexivity.
      * split; [exact Hq | exact Hs6].
Defined.

(** C10 fails when the error text inside the fallback string holds a line
    break.  The only configured provider raises with a two-line message:
    the question list gets two elements, neither of them the whole
    apology, and after one evaluated answer the stage is still 5. *)
Lemma fallback_text_with_line_break_gives_two_questions :
  let first_turn :=
    utils.handle_user_response Json.loads primary_only broken "ready"
      (before_questions primary_only broken) in
  let second_turn :=
    utils.handle_user_response Json.loads primary_only broken "It depends."
      (snd first_turn) in
  questions_value primary_only broken (VList ["Python"; "Go"])
    = ai_bridge.questions_error_reply
        (mk_exn Exception ("connection lost" ++ Py.nl ++ "retry later"))
  /\ technical_questions (session (snd first_turn))
     = ["I apologize, but I'm having trouble generating technical questions. Please provide more details about your experience with these technologies instead. Error: connection lost";
        "retry later"]
  /\ fst second_turn = Returned tt
  /\ evaluated_pairs (calls (snd second_turn))
     = [("I apologize, but I'm having trouble generating technical questions. Please provide more details about your experience with these technologies instead. Error: connection lost",
         "It depends.")]
  /\ current_question_index (session (snd second_turn)) = 1%Z
  /\ interview_stage (session (snd second_turn)) = 5%Z.
Proof. vm_compute. repeat split. Qed.

(** * Further properties of the code *)

(** ** The message log *)

Ltac close_history :=
  session_fields; eexists;
  (split; [rewrite <- ?app_assoc; cbn [List.app]; reflexivity|]);
  cbn [fst]; first [reflexivity | split; [discriminate | repeat constructor]].

Ltac case_raise_history :=
  match goal with
  | |- context [match ?o with Returned _ => _ | Raised _ => _ end] =>
      destruct o; session_fields; [|close_history]
  end.

Lemma handle_user_response_history json_loads cfg w user_input p :
  exists rest,
    chat_history (session (snd (utils.handle_user_response json_loads cfg w user_input p)))
    = (chat_history (session p) ++ mk_message "user" user_input :: rest)%list /\
    match fst (utils.handle_user_response json_loads cfg w user_input p) with
    | Returned _ => rest <> [] /\ Forall (fun m => role m = "assistant") rest
    | Raised _ => rest = []
    end.
Proof.
  unfold_controller. session_fields.
  destruct (Z.eqb_spec (interview_stage (session p)) 1) as [E1|N1]; session_fields.
  - gateway_runs. close_history.
  - destruct (Z.eqb_spec (interview_stage (session p)) 5) as [E5|N5]; session_fields.
    + destruct (technical_questions (session p)) as [|q0 rest0] eqn:Eq; session_fields.
      * case_raise_history. gateway_runs.
        match goal with
        | |- context [filter ?f ?l] => destruct (filter f l) as [|first more] eqn:Ef
        end; close_history.
      * repeat case_raise_history. gateway_runs. repeat case_raise_history.
        match goal with
        | |- context [if ?c then _ else _] => destruct c eqn:Ec
        end; session_fields; gateway_runs; close_history.
    + gateway_runs. close_history.
Qed.

Lemma run_history json_loads cfg w a p :
  exists added,
    chat_history (session (snd (app.run json_loads cfg w a p)))
    = (chat_history (session p) ++ added)%list.
Proof.
  unfold_app. session_fields.
  destruct (List.length (chat_history (session p)) =? 0)%nat; session_fields.
  { eexists. reflexivity. }
  destruct (Z.eqb_spec (interview_stage (session p)) 2); session_fields.
  { destruct a; session_fields; gateway_runs;
      eexists; rewrite <- ?app_assoc; try reflexivity; symmetry; apply app_nil_r. }
  destruct (Z.eqb_spec (interview_stage (session p)) 3); session_fields.
  { destruct a; session_fields; gateway_runs;
      eexists; rewrite <- ?app_assoc; try reflexivity; symmetry; apply app_nil_r. }
  destruct (Z.eqb_spec (interview_stage (session p)) 4); session_fields.
  { destruct a as [| | |selected|]; session_fields;
      try (exists []; symmetry; apply app_nil_r).
    destruct selected; session_fields; gateway_runs;
      eexists; rewrite <- ?app_assoc; try reflexivity; symmetry; apply app_nil_r. }
  destruct a as [| | | |user_input]; session_fields;
    try (exists []; symmetry; apply app_nil_r).
  destruct (String.eqb_spec user_input ""); session_fields;
    [exists []; symmetry; apply app_nil_r|].
  destruct (handle_user_response_history json_loads cfg w user_input p) as (rest & H & _).
  eexists. exact H.
Qed.

(** X1. The message log is append-only: a run of the script leaves the
    messages it found in place and adds to their end.  A call of
    [handle_user_response] first appends the user's input; if it returns,
    at least one message follows the input and all that follow are the
    assistant's; if it raises, the input is the only message added. *)
Theorem chat_history_append_only :
  forall (json_loads : string -> loaded) (cfg : config) (w : world) (p : process),
    (forall a, exists added,
        chat_history (session (snd (app.run json_loads cfg w a p)))
        = (chat_history (session p) ++ added)%list) /\
    (forall user_input, exists rest,
        chat_history
          (session (snd (utils.handle_user_response json_loads cfg w user_input p)))
        = (chat_history (session p) ++ mk_message "user" user_input :: rest)%list /\
        match fst (utils.handle_user_response json_loads cfg w user_input p) with
        | Returned _ => rest <> [] /\ Forall (fun m => role m = "assistant") rest
        | Raised _ => rest = []
        end).
Proof.
  intros json_loads cfg w p. split.
  - intro a. apply run_history.
  - intro user_input. apply handle_user_response_history.
Qed.

(** ** What can raise *)

Lemma list_getitem_in_range {A} (l : list A) (i : Z) :
  (0 <= i < Z.of_nat (List.length l))%Z -> exists x, list_getitem l i = Returned x.
Proof.
  intro Hi. destruct l as [|d l']; [cbn in Hi; lia|].
  exists (nth (Z.to_nat i) (d :: l') d).
  rewrite <- (Z2Nat.id i) at 1 by lia.
  apply list_getitem_nat. lia.
Qed.

Lemma handle_user_response_raises json_loads cfg w user_input p :
  invariant (session p) ->
  fst (utils.handle_user_response json_loads cfg w user_input p) = Returned tt \/
  exists e current_question tech_stack,
    interview_stage (session p) = 5%Z /\
    list_getitem (technical_questions (session p)) (current_question_index (session p))
      = Returned current_question /\
    Dict.get "tech_stack" (candidate_info (session p)) = Some tech_stack /\
    utils.response_with_follow_up
      (evaluate_value json_loads cfg w current_question user_input tech_stack)
      = Raised e /\
    fst (utils.handle_user_response json_loads cfg w user_input p) = Raised e.
Proof.
  intros [Hrange Hstart Hlow Hhigh Hlive Hnone Hstack Hunset].
  unfold_controller. session_fields.
  destruct (Z.eqb_spec (interview_stage (session p)) 1) as [E1|N1]; session_fields.
  { gateway_runs. left. reflexivity. }
  destruct (Z.eqb_spec (interview_stage (session p)) 5) as [E5|N5]; session_fields.
  2: { gateway_runs. left. reflexivity. }
  destruct (Hstack ltac:(lia)) as (items & Hitems & _).
  pose proof (dict_getitem_get _ _ _ Hitems) as Hget.
  destruct (technical_questions (session p)) as [|q0 rest0] eqn:Eq; session_fields.
  { rewrite Hget. session_fields. gateway_runs.
    match goal with
    | |- context [filter ?f ?l] => destruct (filter f l)
    end; session_fields; left; reflexivity. }
  assert (Hlt : (current_question_index (session p) < question_bound (session p))%Z)
    by (apply Hlive; [assumption | discriminate]).
  unfold question_bound in Hlt. rewrite Eq in Hlt.
  destruct (list_getitem_in_range (q0 :: rest0) (current_question_index (session p)))
    as [cq Hcq]; [lia|].
  rewrite Hcq. session_fields. rewrite Hget. session_fields. gateway_runs.
  destruct (utils.response_with_follow_up _) as [reply|e] eqn:Er; session_fields.
  - match goal with
    | |- context [if ?c then _ else _] => destruct c
    end; session_fields; gateway_runs; left; reflexivity.
  - right. exists e, cq, (VList items). repeat split; auto.
Qed.

(** X2. In every state a session reaches, a run of the script raises in
    one case only: the input is an answer at stage 5, the question under
    the cursor and the tech stack are there, and the reply cannot be put
    together from the evaluation the Gateway returned.  In particular the
    question list is never indexed out of range and [tech_stack] is never
    missing when it is read. *)
Theorem only_an_unusable_evaluation_raises :
  forall (json_loads : string -> loaded) (cfg : config)
         (inputs : list (world * app.action)) (w : world) (a : app.action),
    let p := snd (run_all json_loads cfg inputs initial_process) in
    fst (app.run json_loads cfg w a p) = Returned tt \/
    exists user_input e current_question tech_stack,
      a = app.Send user_input /\
      interview_stage (session p) = 5%Z /\
      list_getitem (technical_questions (session p)) (current_question_index (session p))
        = Returned current_question /\
      Dict.get "tech_stack" (candidate_info (session p)) = Some tech_stack /\
      utils.response_with_follow_up
        (evaluate_value json_loads cfg w current_question user_input tech_stack)
        = Raised e /\
      fst (app.run json_loads cfg w a p) = Raised e.
Proof.
  intros json_loads cfg inputs w a p.
  assert (Hinv : invariant (session p))
    by (apply run_all_invariant, invariant_initial).
  unfold_app. session_fields.
  destruct (List.length (chat_history (session p)) =? 0)%nat; session_fields;
    [left; reflexivity|].
  destruct (Z.eqb_spec (interview_stage (session p)) 2); session_fields.
  { destruct a; session_fields; gateway_runs; left; reflexivity. }
  destruct (Z.eqb_spec (interview_stage (session p)) 3); session_fields.
  { destruct a; session_fields; gateway_runs; left; reflexivity. }
  destruct (Z.eqb_spec (interview_stage (session p)) 4); session_fields.
  { destruct a as [| | |selected|]; session_fields; try (left; reflexivity).
    destruct selected; session_fields; gateway_runs; left; reflexivity. }
  destruct a as [| | | |user_input]; session_fields; try (left; reflexivity).
  destruct (String.eqb_spec user_input ""); session_fields; [left; reflexivity|].
  destruct (handle_user_response_raises json_loads cfg w user_input p Hinv)
    as [Hok | (e & cq & ts & H5 & Hcq & Hts & Hr & Hraise)].
  - left. exact Hok.
  - right. exists user_input, e, cq, ts. repeat split; assumption.
Qed.

(** ** How the stage advances *)

Lemma handle_user_response_at_stage_1 json_loads cfg w user_input p :
  interview_stage (session p) = 1%Z ->
  interview_stage (session (snd (utils.handle_user_response json_loads cfg w user_input p)))
  = 2%Z.
Proof.
  intro E1. unfold_controller. session_fields. rewrite E1. cbn [Z.eqb Pos.eqb].
  session_fields. gateway_runs. reflexivity.
Qed.

Ltac close_stage E :=
  session_fields; gateway_runs; rewrite ?E;
  cbn [Z.eqb Pos.eqb andb Z.add Pos.add Pos.succ]; session_fields;
  first [reflexivity | exact E].

Lemma run_stage_table json_loads cfg w a p :
  invariant (session p) ->
  (interview_stage (session p) <= 4)%Z ->
  interview_stage (session (snd (app.run json_loads cfg w a p)))
  = (if own_input (interview_stage (session p)) a
     then interview_stage (session p) + 1 else interview_stage (session p))%Z.
Proof.
  intros Hinv H4.
  destruct (chat_history (session p)) as [|m0 h0] eqn:Eh.
  - assert (E0 : interview_stage (session p) = 0%Z) by (apply Hinv; assumption).
    assert (El : (List.length (chat_history (session p)) =? 0)%nat = true)
      by (rewrite Eh; reflexivity).
    unfold_app. session_fields. rewrite El. session_fields.
    rewrite E0. reflexivity.
  - assert (Hnz : interview_stage (session p) <> 0%Z).
    { intro E. apply Hinv in E. congruence. }
    assert (El : (List.length (chat_history (session p)) =? 0)%nat = false)
      by (rewrite Eh; reflexivity).
    pose proof (inv_stage_range _ Hinv) as Hrange.
    unfold_app. session_fields. rewrite El. session_fields.
    unfold own_input.
    destruct (Z.eqb_spec (interview_stage (session p)) 0) as [|_]; [contradiction|].
    cbn [orb].
    destruct (Z.eqb_spec (interview_stage (session p)) 2) as [E2|N2]; session_fields.
    { destruct a; close_stage E2. }
    destruct (Z.eqb_spec (interview_stage (session p)) 3) as [E3|N3]; session_fields.
    { destruct a; close_stage E3. }
    destruct (Z.eqb_spec (interview_stage (session p)) 4) as [E4|N4]; session_fields.
    { destruct a as [| | |selected|]; try close_stage E4.
      destruct selected; close_stage E4. }
    assert (E1 : interview_stage (session p) = 1%Z) by lia.
    destruct a as [| | | |user_input]; session_fields; try close_stage E1.
    destruct (String.eqb_spec user_input ""); session_fields.
    + close_stage E1.
    + rewrite handle_user_response_at_stage_1 by assumption.
      rewrite E1. reflexivity.
Qed.

(** X3. Up to stage 4 the providers have no say in the progress of the
    interview: in every state a session reaches with a stage of at most 4,
    a run moves the stage up by exactly one when the action is the input
    the stage waits for, and leaves it where it is otherwise, whatever
    the providers return or raise.  At every stage a run moves the stage
    up by at most one. *)
Theorem stage_advances_on_own_input :
  forall (json_loads : string -> loaded) (cfg : config)
         (inputs : list (world * app.action)) (w : world) (a : app.action),
    let p := snd (run_all json_loads cfg inputs initial_process) in
    let p' := snd (app.run json_loads cfg w a p) in
    ((interview_stage (session p) <= 4)%Z ->
     interview_stage (session p')
     = (if own_input (interview_stage (session p)) a
        then interview_stage (session p) + 1 else interview_stage (session p))%Z) /\
    (interview_stage (session p') <= interview_stage (session p) + 1)%Z.
Proof.
  intros json_loads cfg inputs w a p p'.
  assert (Hinv : invariant (session p))
    by (apply run_all_invariant, invariant_initial).
  assert (Htable := run_stage_table json_loads cfg w a p Hinv).
  split; [exact Htable|].
  destruct (Z.le_gt_cases (interview_stage (session p)) 4) as [H4|H5].
  - subst p'. rewrite (Htable H4).
    destruct (own_input _ _); lia.
  - pose proof (inv_stage_range _ (run_invariant json_loads cfg w a p Hinv)) as Hr'.
    pose proof (inv_stage_range _ Hinv) as Hr.
    destruct (run_step json_loads cfg w a p Hinv) as [_ [Hle H6]].
    fold p' in Hr', Hle, H6. lia.
Qed.

(** A submitted contact form at stage 2 moves the sample session to
    stage 3 although the only provider raises. *)
Lemma stage_advances_witness :
  interview_stage
    (session (snd (app.run Json.loads primary_only broken
                     (app.SubmitContact "a@b.com" "555-0100")
                     (snd (run_all Json.loads primary_only
                             (firstn 2 (up_to_tech_stack broken)) initial_process)))))
  = 3%Z.
Proof.
  rewrite (proj1 (stage_advances_on_own_input Json.loads primary_only
                    (firstn 2 (up_to_tech_stack broken)) broken
                    (app.SubmitContact "a@b.com" "555-0100"))).
  - vm_compute. reflexivity.
  - vm_compute. discriminate.
Defined.

(** ** The first message *)

Lemma run_all_cons json_loads cfg x inputs p :
  snd (run_all json_loads cfg (x :: inputs) p)
  = snd (run_all json_loads cfg inputs (snd (app.run json_loads cfg (fst x) (snd x) p))).
Proof.
  destruct x as [w a]. cbn [run_all fst snd].
  destruct (app.run json_loads cfg w a p) as [o p1]. cbn [snd].
  destruct (run_all json_loads cfg inputs p1) as [os p2]. reflexivity.
Qed.

Lemma run_all_history json_loads cfg inputs :
  forall p, exists added,
    chat_history (session (snd (run_all json_loads cfg inputs p)))
    = (chat_history (session p) ++ added)%list.
Proof.
  induction inputs as [|x rest IH]; intro p.
  - exists []. cbn [run_all snd]. symmetry. apply app_nil_r.
  - rewrite run_all_cons.
    destruct (IH (snd (app.run json_loads cfg (fst x) (snd x) p))) as [more Hmore].
    destruct (run_history json_loads cfg (fst x) (snd x) p) as [added Hadded].
    exists (added ++ more)%list. rewrite Hmore, Hadded, app_assoc. reflexivity.
Qed.

(** X4. Once the script has run at all, the message log starts with the
    assistant's fixed welcome message and the stage is at least 1,
    whatever the first action was and whatever followed. *)
Theorem welcome_message_comes_first :
  forall (json_loads : string -> loaded) (cfg : config)
         (first_run : world * app.action) (inputs : list (world * app.action)),
    (exists rest,
        chat_history (session_after json_loads cfg (first_run :: inputs))
        = mk_message "assistant" app.initial_message :: rest) /\
    (1 <= interview_stage (session_after json_loads cfg (first_run :: inputs)))%Z.
Proof.
  intros json_loads cfg first_run inputs. unfold session_after.
  assert (Hinv : invariant
            (session (snd (run_all json_loads cfg (first_run :: inputs) initial_process))))
    by (apply run_all_invariant, invariant_initial).
  rewrite run_all_cons in *.
  destruct (run_all_history json_loads cfg inputs
              (snd (app.run json_loads cfg (fst first_run) (snd first_run) initial_process)))
    as [added Hadded].
  assert (Hfirst : chat_history
            (session (snd (app.run json_loads cfg (fst first_run) (snd first_run)
                             initial_process)))
          = [mk_message "assistant" app.initial_message]) by reflexivity.
  rewrite Hfirst in Hadded. cbn [List.app] in Hadded.
  split.
  - exists added. exact Hadded.
  - pose proof (inv_stage_range _ Hinv) as Hr.
    destruct (Z.eq_dec
                (interview_stage
                   (session (snd (run_all json_loads cfg inputs
                      (snd (app.run json_loads cfg (fst first_run) (snd first_run)
                              initial_process)))))) 0) as [E0|N0]; [|lia].
    apply (inv_started _ Hinv) in E0. rewrite Hadded in E0. discriminate.
Qed.

(** ** The progress display *)

(** X5. The sidebar's progress boxes in every session: the checked boxes
    are the first [n] of the five, with [n] between 1 and 5, and a box
    that is checked stays checked in every later run. *)
Theorem sidebar_progress_only_grows :
  forall (json_loads : string -> loaded) (cfg : config)
         (inputs more : list (world * app.action)),
    let s := session_after json_loads cfg inputs in
    let s' := session_after json_loads cfg (inputs ++ more) in
    (exists n, (1 <= n <= 5)%nat /\
       map snd (app.sidebar_progress s) = (repeat true n ++ repeat false (5 - n))%list) /\
    (forall label, In (label, true) (app.sidebar_progress s) ->
                   In (label, true) (app.sidebar_progress s')).
Proof.
  intros json_loads cfg inputs more s s'.
  assert (Hinv : invariant (session (snd (run_all json_loads cfg inputs initial_process))))
    by (apply run_all_invariant, invariant_initial).
  assert (Hle : (interview_stage s <= interview_stage s')%Z).
  { subst s s'. unfold session_after. rewrite run_all_app.
    apply run_all_stage. exact Hinv. }
  pose proof (inv_stage_range _ Hinv) as Hr. fold (session_after json_loads cfg inputs) in Hr.
  fold s in Hr. clearbody s s'. clear Hinv.
  split.
  - unfold app.sidebar_progress. cbn [map snd].
    assert (Hs : (interview_stage s = 0 \/ interview_stage s = 1 \/ interview_stage s = 2
                  \/ interview_stage s = 3 \/ interview_stage s = 4
                  \/ interview_stage s = 5 \/ interview_stage s = 6)%Z) by lia.
    destruct Hs as [E|[E|[E|[E|[E|[E|E]]]]]]; rewrite E; cbn [Z.gtb Z.compare Pos.compare Pos.compare_cont].
    1,2: exists 1%nat; split; [lia | reflexivity].
    + exists 2%nat; split; [lia | reflexivity].
    + exists 3%nat; split; [lia | reflexivity].
    + exists 4%nat; split; [lia | reflexivity].
    + exists 5%nat; split; [lia | reflexivity].
    + exists 5%nat; split; [lia | reflexivity].
  - assert (Hmono : forall k, (interview_stage s >? k)%Z = true ->
                              (interview_stage s' >? k)%Z = true).
    { intros k Hk. apply Z.gtb_lt. apply Z.gtb_lt in Hk. lia. }
    intros label Hin. unfold app.sidebar_progress in *. cbn [In] in *.
    destruct Hin as [H|[H|[H|[H|[H|[]]]]]];
      [injection H as <-; auto | injection H as <- Hk; rewrite (Hmono _ Hk); auto 10 ..].
Qed.

(** ** Generated text without a question *)

Lemma no_question_filter text :
  no_question text = true ->
  filter (fun q => negb (Py.strip q =? "")%string) (Py.split Py.newline text) = [].
Proof.
  unfold no_question. induction (Py.split Py.newline text) as [|q l IH]; [reflexivity|].
  cbn [forallb filter]. intro H. apply andb_true_iff in H. destruct H as [Hq Hl].
  rewrite Hq. cbn [negb]. apply IH. exact Hl.
Qed.

(** X6. At stage 5 with no questions stored, as long as the text the
    Gateway returns for the generation request holds only blank lines,
    every input is answered with the fixed prompt about recent projects
    and leads to one more generation request: no input is evaluated, no
    question is stored, and the stage stays 5. *)
Theorem blank_generation_is_repeated :
  forall (json_loads : string -> loaded) (cfg : config)
         (turns : list (world * string)) (p : process) (ts : value),
    interview_stage (session p) = 5%Z ->
    technical_questions (session p) = [] ->
    Dict.get "tech_stack" (candidate_info (session p)) = Some ts ->
    (forall turn, In turn turns -> no_question (questions_value cfg (fst turn) ts) = true) ->
    let result := handle_all json_loads cfg turns p in
    Forall (fun o => o = Returned tt) (fst result) /\
    interview_stage (session (snd result)) = 5%Z /\
    technical_questions (session (snd result)) = [] /\
    chat_history (session (snd result))
      = (chat_history (session p) ++ flat_map prompted_turn turns)%list /\
    calls (snd result) = (calls p ++ map (fun _ => CallQuestions ts) turns)%list.
Proof.
  intros json_loads cfg turns.
  induction turns as [|[w user_input] rest IH]; intros p ts E5 Hq Hts Hblank;
    cbn [handle_all].
  - cbn [fst snd flat_map map]. rewrite !app_nil_r. auto.
  - destruct (generation_turn json_loads cfg w user_input p ts E5 Hq
                (dict_getitem_get _ _ _ Hts))
      as (p1 & Hrun & Hq1 & Hi1 & _ & Hs1 & Hcalls1 & Hh1).
    pose proof (no_question_filter _ (Hblank (w, user_input) (or_introl eq_refl)))
      as Hnone.
    cbn [fst] in Hnone. cbv zeta in Hq1, Hh1. rewrite Hnone in Hq1, Hh1.
    rewrite Hrun.
    assert (Hts1 : Dict.get "tech_stack" (candidate_info (session p1)) = Some ts)
      by (rewrite Hi1; exact Hts).
    specialize (IH p1 ts Hs1 Hq1 Hts1 (fun turn Hin => Hblank turn (or_intror Hin))).
    destruct (handle_all json_loads cfg rest p1) as [os p2].
    cbn [fst snd] in *. destruct IH as (Hos & Hs2 & Hq2 & Hh2 & Hcalls2).
    split; [constructor; [reflexivity | exact Hos]|].
    split; [exact Hs2|]. split; [exact Hq2|]. split.
    + rewrite Hh2, Hh1. cbn [flat_map prompted_turn snd].
      rewrite <- app_assoc. reflexivity.
    + rewrite Hcalls2, Hcalls1. cbn [map]. rewrite <- app_assoc. reflexivity.
Qed.

(** Providers returning the empty text: after two inputs the sample
    session has still no question and has asked for questions twice. *)
Lemma blank_generation_witness :
  technical_questions
    (session (snd (handle_all Json.loads primary_only [(mute, "ready"); (mute, "Go on")]
                     (before_questions primary_only mute)))) = []
  /\ calls (snd (handle_all Json.loads primary_only [(mute, "ready"); (mute, "Go on")]
                   (before_questions primary_only mute)))
     = (calls (before_questions primary_only mute)
        ++ [CallQuestions (VList ["Python"; "Go"]);
            CallQuestions (VList ["Python"; "Go"])])%list.
Proof.
  destruct (blank_generation_is_repeated Json.loads primary_only
              [(mute, "ready"); (mute, "Go on")]
              (before_questions primary_only mute) (VList ["Python"; "Go"]))
    as (_ & _ & Hq & _ & Hcalls).
  - vm_compute. reflexivity.
  - vm_compute. reflexivity.
  - vm_compute. reflexivity.
  - intros turn Hin. vm_compute in Hin.
    destruct Hin as [<- | [<- | []]]; vm_compute; reflexivity.
  - split; [exact Hq | exact Hcalls].
Defined.

(** ** The stored questions *)

Lemma split_pieces_one_line sep s :
  Forall (fun q => Py.contains_char sep q = false) (Py.split sep s).
Proof.
  induction s as [|c r IH]; cbn [Py.split].
  - constructor; [reflexivity | constructor].
  - destruct (Ascii.eqb_spec c sep) as [->|Hne].
    + constructor; [reflexivity | exact IH].
    + destruct (Py.split sep r) as [|h t].
      * constructor; [|constructor]. cbn [Py.contains_char].
        rewrite (proj2 (Ascii.eqb_neq sep c)) by congruence. reflexivity.
      * inversion IH as [|? ? Hh Ht]; subst. constructor; [|exact Ht].
        cbn [Py.contains_char].
        rewrite (proj2 (Ascii.eqb_neq sep c)) by congruence. exact Hh.
Qed.

Lemma generated_questions_are_lines text :
  Forall question_line
    (filter (fun q => negb (Py.strip q =? "")%string) (Py.split Py.newline text)).
Proof.
  pose proof (split_pieces_one_line Py.newline text) as H.
  induction H as [|q l Hq Hl IH]; cbn [filter]; [constructor|].
  destruct (Py.strip q =? "")%string eqn:E; cbn [negb]; [exact IH|].
  constructor; [split; assumption | exact IH].
Qed.

Ltac unchanged E :=
  left; rewrite ?E; first [reflexivity | exact E | symmetry; exact E].

Lemma run_questions json_loads cfg w a p :
  technical_questions (session (snd (app.run json_loads cfg w a p)))
    = technical_questions (session p) \/
  (technical_questions (session p) = [] /\
   exists ts,
     technical_questions (session (snd (app.run json_loads cfg w a p)))
     = filter (fun q => negb (Py.strip q =? "")%string)
              (Py.split Py.newline (questions_value cfg w ts))).
Proof.
  unfold_app. session_fields.
  destruct (List.length (chat_history (session p)) =? 0)%nat; session_fields;
    [left; reflexivity|].
  destruct (interview_stage (session p) =? 2)%Z; session_fields.
  { destruct a; session_fields; gateway_runs; left; reflexivity. }
  destruct (interview_stage (session p) =? 3)%Z; session_fields.
  { destruct a; session_fields; gateway_runs; left; reflexivity. }
  destruct (interview_stage (session p) =? 4)%Z; session_fields.
  { destruct a as [| | |selected|]; session_fields; try (left; reflexivity).
    destruct selected; session_fields; gateway_runs; left; reflexivity. }
  destruct a as [| | | |user_input]; session_fields; try (left; reflexivity).
  destruct (user_input =? "")%string; session_fields; [left; reflexivity|].
  unfold_controller. session_fields.
  destruct (interview_stage (session p) =? 1)%Z; session_fields.
  { gateway_runs. left. reflexivity. }
  destruct (interview_stage (session p) =? 5)%Z; session_fields.
  2: { gateway_runs. left. reflexivity. }
  destruct (technical_questions (session p)) as [|q0 qs] eqn:Eq; session_fields.
  - destruct (dict_getitem (candidate_info (session p)) "tech_stack") as [ts|e];
      session_fields; [|unchanged Eq].
    gateway_runs. right. split; [reflexivity|]. exists ts.
    destruct (filter _ _); reflexivity.
  - destruct (list_getitem (q0 :: qs) (current_question_index (session p))) as [cq|e];
      session_fields; [|unchanged Eq].
    destruct (dict_getitem (candidate_info (session p)) "tech_stack") as [ts|e];
      session_fields; [|unchanged Eq].
    gateway_runs.
    destruct (utils.response_with_follow_up _) as [reply|e];
      session_fields; [|unchanged Eq].
    rewrite Eq.
    destruct (_ || _)%bool; session_fields; gateway_runs; unchanged Eq.
Qed.

Lemma run_all_questions json_loads cfg inputs :
  forall p,
    Forall question_line (technical_questions (session p)) ->
    Forall question_line
      (technical_questions (session (snd (run_all json_loads cfg inputs p)))) /\
    (technical_questions (session p) <> [] ->
     technical_questions (session (snd (run_all json_loads cfg inputs p)))
     = technical_questions (session p)).
Proof.
  induction inputs as [|x rest IH]; intros p Hp.
  - cbn [run_all snd]. split; [exact Hp | reflexivity].
  - rewrite run_all_cons.
    destruct (run_questions json_loads cfg (fst x) (snd x) p) as [Hsame | [Hnone [ts Hgen]]].
    + rewrite <- Hsame in Hp. destruct (IH _ Hp) as [Hlines Hkeep].
      split; [exact Hlines|]. intro Hne. rewrite <- Hsame in Hne.
      rewrite (Hkeep Hne). exact Hsame.
    + assert (Hp1 : Forall question_line
                (technical_questions
                   (session (snd (app.run json_loads cfg (fst x) (snd x) p)))))
        by (rewrite Hgen; apply generated_questions_are_lines).
      destruct (IH _ Hp1) as [Hlines _].
      split; [exact Hlines|]. intro Hne. contradiction.
Qed.

(** X7. The question list of every session holds only non-blank single
    lines, and once it holds a question it is never changed again. *)
Theorem questions_are_lines_and_fixed :
  forall (json_loads : string -> loaded) (cfg : config)
         (inputs more : list (world * app.action)),
    let s := session_after json_loads cfg inputs in
    let s' := session_after json_loads cfg (inputs ++ more) in
    Forall question_line (technical_questions s) /\
    (technical_questions s <> [] -> technical_questions s' = technical_questions s).
Proof.
  intros json_loads cfg inputs more s s'.
  assert (Hs : Forall question_line (technical_questions s)).
  { apply (run_all_questions json_loads cfg inputs initial_process). constructor. }
  split; [exact Hs|].
  subst s s'. unfold session_after in *. rewrite run_all_app.
  apply run_all_questions. exact Hs.
Qed.

(** ** What the candidate has told *)

Ltac record_leaf :=
  session_fields; gateway_runs;
  first
    [ left; split;
      [reflexivity
      | first [ left; reflexivity
              | right; left; split; [assumption | reflexivity]
              | right; right; split; [assumption | reflexivity] ] ]
    | right; left; split; [assumption|]; split; [reflexivity|]; eexists; reflexivity
    | right; right; left; split; [assumption|]; split; [reflexivity|];
      do 2 eexists; reflexivity
    | right; right; right; left; split; [assumption|]; split; [reflexivity|];
      do 2 eexists; reflexivity
    | right; right; right; right; split; [assumption|]; split; [reflexivity|];
      do 2 eexists; reflexivity ].

Lemma handle_user_response_records json_loads cfg w user_input p :
  let s := session p in
  let s' := session (snd (utils.handle_user_response json_loads cfg w user_input p)) in
  (candidate_info s' = candidate_info s /\
   (interview_stage s' = interview_stage s \/
    (interview_stage s = 5%Z /\ interview_stage s' = 6%Z))) \/
  (interview_stage s = 1%Z /\ interview_stage s' = 2%Z /\
   candidate_info s' = Dict.set "name" (VStr user_input) (candidate_info s)).
Proof.
  cbv zeta. unfold_controller. session_fields.
  destruct (Z.eqb_spec (interview_stage (session p)) 1) as [E1|N1]; session_fields.
  { gateway_runs. right. auto. }
  destruct (Z.eqb_spec (interview_stage (session p)) 5) as [E5|N5]; session_fields.
  2: { gateway_runs. left. auto. }
  destruct (technical_questions (session p)) as [|q0 qs] eqn:Eq; session_fields.
  - destruct (dict_getitem (candidate_info (session p)) "tech_stack") as [ts|e];
      session_fields; [|left; auto].
    gateway_runs. destruct (filter _ _); session_fields; left; auto.
  - destruct (list_getitem (q0 :: qs) (current_question_index (session p))) as [cq|e];
      session_fields; [|left; auto].
    destruct (dict_getitem (candidate_info (session p)) "tech_stack") as [ts|e];
      session_fields; [|left; auto].
    gateway_runs.
    destruct (utils.response_with_follow_up _) as [reply|e];
      session_fields; [|left; auto].
    rewrite ?Eq.
    destruct (_ || _)%bool; session_fields; gateway_runs; left; auto.
Qed.

Lemma run_records json_loads cfg w a p :
  let s := session p in
  let s' := session (snd (app.run json_loads cfg w a p)) in
  (candidate_info s' = candidate_info s /\
   (interview_stage s' = interview_stage s \/
    (chat_history s = [] /\ interview_stage s' = 1%Z) \/
    (interview_stage s = 5%Z /\ interview_stage s' = 6%Z))) \/
  (interview_stage s = 1%Z /\ interview_stage s' = 2%Z /\
   exists user_input,
     candidate_info s' = Dict.set "name" (VStr user_input) (candidate_info s)) \/
  (interview_stage s = 2%Z /\ interview_stage s' = 3%Z /\
   exists contact_email contact_phone,
     candidate_info s'
     = Dict.set "contact"
         (VStr ("Email: " ++ contact_email ++ ", Phone: " ++ contact_phone))
         (candidate_info s)) \/
  (interview_stage s = 3%Z /\ interview_stage s' = 4%Z /\
   exists years_experience desired_position,
     candidate_info s'
     = Dict.set "position" (VStr desired_position)
         (Dict.set "experience" (VInt years_experience) (candidate_info s))) \/
  (interview_stage s = 4%Z /\ interview_stage s' = 5%Z /\
   exists tech techs,
     candidate_info s'
     = Dict.set "tech_stack" (VList (tech :: techs)) (candidate_info s)).
Proof.
  cbv zeta.
  destruct (chat_history (session p)) as [|m0 h0] eqn:Eh.
  - assert (El : (List.length (chat_history (session p)) =? 0)%nat = true)
      by (rewrite Eh; reflexivity).
    unfold_app. session_fields. rewrite El. session_fields.
    left. split; [reflexivity|]. right. left. split; reflexivity.
  - assert (El : (List.length (chat_history (session p)) =? 0)%nat = false)
      by (rewrite Eh; reflexivity).
    unfold_app. session_fields. rewrite El. session_fields.
    destruct (Z.eqb_spec (interview_stage (session p)) 2) as [E2|N2]; session_fields.
    { destruct a; record_leaf. }
    destruct (Z.eqb_spec (interview_stage (session p)) 3) as [E3|N3]; session_fields.
    { destruct a; record_leaf. }
    destruct (Z.eqb_spec (interview_stage (session p)) 4) as [E4|N4]; session_fields.
    { destruct a as [| | |selected|]; try record_leaf.
      destruct selected; record_leaf. }
    destruct a as [| | | |user_input]; try record_leaf.
    destruct (user_input =? "")%string; [record_leaf|].
    destruct (handle_user_response_records json_loads cfg w user_input p)
      as [[Hi [Hs | [E5 E6]]] | (E1 & E2 & Hi)].
    + left. split; [exact Hi|]. left. exact Hs.
    + left. split; [exact Hi|]. right. right. split; assumption.
    + right. left. split; [exact E1|]. split; [exact E2|]. eexists. exact Hi.
Qed.

Lemma run_profile json_loads cfg w a p :
  invariant (session p) -> profile (session p) ->
  profile (session (snd (app.run json_loads cfg w a p))) /\
  exists added,
    candidate_info (session (snd (app.run json_loads cfg w a p)))
    = (candidate_info (session p) ++ added)%list.
Proof.
  intros Hinv (name & contact & years & position & tech & techs & Hp).
  unfold profile.
  destruct (run_records json_loads cfg w a p)
    as [[Hi Hs] | [(E & E' & u & Hi) | [(E & E' & e & ph & Hi)
        | [(E & E' & y & pos & Hi) | (E & E' & t & ts & Hi)]]]];
    rewrite Hi; try (rewrite E in Hp; rewrite Hp, E'; cbn).
  - split; [|exists []; symmetry; apply app_nil_r].
    exists name, contact, years, position, tech, techs. rewrite Hp.
    destruct Hs as [-> | [[Eh ->] | [E5 ->]]]; [reflexivity | |].
    + apply (inv_started _ Hinv) in Eh. rewrite Eh. reflexivity.
    + rewrite E5. reflexivity.
  - split; [exists u, contact, years, position, tech, techs; reflexivity|].
    eexists; reflexivity.
  - split; [exists name, ("Email: " ++ e ++ ", Phone: " ++ ph), years, position, tech, techs;
            reflexivity|].
    eexists; reflexivity.
  - split; [exists name, contact, y, pos, tech, techs; reflexivity|].
    eexists; reflexivity.
  - split; [exists name, contact, years, position, t, ts; reflexivity|].
    eexists; reflexivity.
Qed.

Lemma run_all_profile json_loads cfg inputs :
  forall p,
    invariant (session p) -> profile (session p) ->
    profile (session (snd (run_all json_loads cfg inputs p))) /\
    exists added,
      candidate_info (session (snd (run_all json_loads cfg inputs p)))
      = (candidate_info (session p) ++ added)%list.
Proof.
  induction inputs as [|x rest IH]; intros p Hinv Hp.
  - cbn [run_all snd]. split; [exact Hp|]. exists []. symmetry. apply app_nil_r.
  - rewrite run_all_cons.
    destruct (run_profile json_loads cfg (fst x) (snd x) p Hinv Hp) as [Hp1 [added1 Ha1]].
    destruct (IH _ (run_invariant json_loads cfg (fst x) (snd x) p Hinv) Hp1)
      as [Hp2 [added2 Ha2]].
    split; [exact Hp2|]. exists (added1 ++ added2)%list.
    rewrite Ha2, Ha1, app_assoc. reflexivity.
Qed.

Lemma profile_initial : profile (session initial_process).
Proof. exists "", "", 0%Z, "", "", []. reflexivity. Qed.

Lemma dict_get_app {V} k (v : V) d more :
  Dict.get k d = Some v -> Dict.get k (d ++ more)%list = Some v.
Proof.
  induction d as [|[k' v'] rest IH]; cbn [Dict.get List.app]; [discriminate|].
  destruct (k' =? k)%string; [auto | exact IH].
Qed.

(** X8. In every session [candidate_info] holds exactly the fields of the
    completed stages, in the order they were asked for: nothing up to
    stage 1, [name] at stage 2, then [contact], then [experience] and
    [position], and from stage 5 on [tech_stack] with a non-empty list;
    the values have the types the forms deliver. *)
Theorem candidate_info_follows_the_stage :
  forall (json_loads : string -> loaded) (cfg : config)
         (inputs : list (world * app.action)),
    profile (session_after json_loads cfg inputs).
Proof.
  intros json_loads cfg inputs. unfold session_after.
  apply run_all_profile; [apply invariant_initial | apply profile_initial].
Qed.

(** X9. What a session has recorded about the candidate is kept: a field
    of [candidate_info] has the same value in every later run, and the
    fields recorded later come after it. *)
Theorem candidate_info_is_kept :
  forall (json_loads : string -> loaded) (cfg : config)
         (inputs more : list (world * app.action)),
    let s := session_after json_loads cfg inputs in
    let s' := session_after json_loads cfg (inputs ++ more) in
    (exists added, candidate_info s' = (candidate_info s ++ added)%list) /\
    (forall field v, Dict.get field (candidate_info s) = Some v ->
                     Dict.get field (candidate_info s') = Some v).
Proof.
  intros json_loads cfg inputs more s s'.
  assert (Hadded : exists added, candidate_info s' = (candidate_info s ++ added)%list).
  { subst s s'. unfold session_after. rewrite run_all_app.
    apply run_all_profile.
    - apply run_all_invariant, invariant_initial.
    - apply run_all_profile; [apply invariant_initial | apply profile_initial]. }
  split; [exact Hadded|].
  destruct Hadded as [added ->]. intros field v. apply dict_get_app.
Qed.

(** ** What the providers are sent *)

Ltac speakers :=
  repeat first
    [ apply Forall_nil
    | apply Forall_cons; [first [left; reflexivity | right; reflexivity]|] ].

Ltac added_messages :=
  session_fields; gateway_runs; eexists;
  (split; [rewrite <- ?app_assoc; cbn [List.app];
           first [reflexivity | symmetry; apply app_nil_r]
          | speakers]).

Lemma run_speakers json_loads cfg w a p :
  exists added,
    chat_history (session (snd (app.run json_loads cfg w a p)))
    = (chat_history (session p) ++ added)%list /\
    Forall speaker added.
Proof.
  unfold_app. session_fields.
  destruct (List.length (chat_history (session p)) =? 0)%nat; session_fields.
  { added_messages. }
  destruct (Z.eqb_spec (interview_stage (session p)) 2); session_fields.
  { destruct a; added_messages. }
  destruct (Z.eqb_spec (interview_stage (session p)) 3); session_fields.
  { destruct a; added_messages. }
  destruct (Z.eqb_spec (interview_stage (session p)) 4); session_fields.
  { destruct a as [| | |selected|]; try added_messages.
    destruct selected; added_messages. }
  destruct a as [| | | |user_input]; try added_messages.
  destruct (String.eqb_spec user_input ""); [added_messages|].
  destruct (handle_user_response_history json_loads cfg w user_input p) as (rest & H & Hrest).
  eexists. split; [exact H|].
  constructor; [left; reflexivity|].
  destruct (fst (utils.handle_user_response json_loads cfg w user_input p)).
  - destruct Hrest as [_ Hrest]. eapply Forall_impl; [|exact Hrest].
    intros m Hm. right. exact Hm.
  - subst rest. constructor.
Qed.

Lemma run_all_speakers json_loads cfg inputs :
  forall p, Forall speaker (chat_history (session p)) ->
            Forall speaker (chat_history (session (snd (run_all json_loads cfg inputs p)))).
Proof.
  induction inputs as [|x rest IH]; intros p Hp; [exact Hp|].
  rewrite run_all_cons. apply IH.
  destruct (run_speakers json_loads cfg (fst x) (snd x) p) as (added & -> & Hadded).
  apply Forall_app. split; assumption.
Qed.

Lemma neutral_role_speaker h :
  Forall speaker h -> map neutral_role h = h.
Proof.
  induction 1 as [|[r c] l [Hr|Hr] _ IH]; [reflexivity| |];
    cbn [role] in Hr; subst r; cbn [map]; rewrite IH; reflexivity.
Qed.

(** X10. Every message of every session's log is the user's or the
    assistant's, so that a chat request forwards the log as it is: the
    secondary helper sends the log as the messages and the system prompt
    apart, the primary helper sends the same system prompt as a first
    message followed by the log. *)
Theorem chat_request_forwards_the_log :
  forall (json_loads : string -> loaded) (cfg : config)
         (inputs : list (world * app.action)) (interview_stage : Z)
         (candidate_info : dict value),
    let history := chat_history (session_after json_loads cfg inputs) in
    let prompt := anthropic_helper.get_system_prompt interview_stage candidate_info in
    Forall speaker history /\
    messages (anthropic_helper.chat_request history interview_stage candidate_info)
      = history /\
    system (anthropic_helper.chat_request history interview_stage candidate_info)
      = Some prompt /\
    messages (openai_helper.chat_request history interview_stage candidate_info)
      = mk_message "system" prompt :: history.
Proof.
  intros json_loads cfg inputs st info history prompt.
  assert (Hs : Forall speaker history).
  { apply (run_all_speakers json_loads cfg inputs initial_process). constructor. }
  split; [exact Hs|].
  unfold anthropic_helper.chat_request, openai_helper.chat_request.
  cbn [messages system]. rewrite (neutral_role_speaker history Hs).
  repeat split; reflexivity.
Qed.

(** ** Replies without a fence *)

Lemma prefix_fence_json s : prefix fence_json s = true -> prefix fence s = true.
Proof.
  unfold fence_json, fence.
  destruct s as [|c1 [|c2 [|c3 s']]]; cbn [prefix]; intro H; case_ascii_dec; auto.
  destruct s'; reflexivity.
Qed.

Lemma replace_from_absent pat new s :
  (forall t, prefix pat t = true -> prefix fence t = true) ->
  Py.contains fence s = false ->
  Py.replace_from pat new 0 s = s.
Proof.
  intros Hpat. induction s as [|c r IH]; intro Hno; [reflexivity|].
  cbn [Py.contains] in Hno. apply orb_false_iff in Hno. destruct Hno as [Hp Hr].
  cbn [Py.replace_from].
  destruct (prefix pat (String c r)) eqn:E.
  - apply Hpat in E. congruence.
  - rewrite (IH Hr). reflexivity.
Qed.

Lemma clean_response_unfenced text :
  Py.contains fence text = false ->
  anthropic_helper.clean_response text = Py.strip text.
Proof.
  intro Hno. unfold anthropic_helper.clean_response, Py.replace.
  change ("```json" =? "")%string with false. change ("```" =? "")%string with false.
  cbv iota.
  change "```json" with fence_json. change "```" with fence.
  rewrite (replace_from_absent fence_json "" text prefix_fence_json Hno).
  rewrite (replace_from_absent fence "" text (fun t H => H) Hno).
  reflexivity.
Qed.

(** X11. A reply that holds no run of three backquotes is only trimmed by
    the secondary helper: the text handed to [json.loads] is the reply
    without its leading and trailing white space.  The helper returns the
    value when [json.loads] returns one, its fallback object when
    [json.loads] raises [JSONDecodeError], and raises what [json.loads]
    raises otherwise. *)
Theorem unfenced_reply_is_only_trimmed :
  forall (json_loads : string -> loaded) (w : world) (create : client)
         (question answer text : string) (items : list string),
    anthropic_client w = Some create ->
    create (anthropic_helper.evaluation_request (Py.join ", " items) question answer)
      = Returned text ->
    Py.contains fence text = false ->
    anthropic_helper.clean_response text = Py.strip text /\
    outcome_of (anthropic_helper.evaluate_technical_response json_loads w
                  question answer (VList items))
    = match json_loads (Py.strip text) with
      | Loaded result => Returned result
      | DecodeError => Returned anthropic_helper.parse_fallback
      | LoadError e => Raised e
      end.
Proof.
  intros json_loads w create question answer text items Hc Hr Hno.
  pose proof (clean_response_unfenced text Hno) as Hclean.
  split; [exact Hclean|].
  rewrite <- Hclean.
  exact (evaluate_secondary_reply json_loads w question answer items create text Hc Hr).
Qed.

(** The sample object's text between blank lines, from the secondary
    provider: the evaluation is the sample object. *)
Lemma unfenced_reply_witness :
  outcome_of (anthropic_helper.evaluate_technical_response Json.loads
                (mk_world None (Some (replying (Py.nl ++ object_text sample_body ++ Py.nl))))
                "What is a goroutine?" "A lightweight thread." (VList ["Go"]))
  = Returned sample_object.
Proof.
  destruct (unfenced_reply_is_only_trimmed Json.loads
              (mk_world None (Some (replying (Py.nl ++ object_text sample_body ++ Py.nl))))
              (replying (Py.nl ++ object_text sample_body ++ Py.nl))
              "What is a goroutine?" "A lightweight thread."
              (Py.nl ++ object_text sample_body ++ Py.nl) ["Go"])
    as [_ H].
  - reflexivity.
  - reflexivity.
  - vm_compute. reflexivity.
  - rewrite H. vm_compute. reflexivity.
Defined.

(** ** The reply to an answer *)

(** X12. The reply to an answer can be put together exactly when the
    evaluation is an object holding a [str] under [response] and a [str]
    under [follow_up]; the reply is then the two joined by one space, and
    nothing else of the object is read.  Otherwise the exception raised
    is a [KeyError] or a [TypeError]. *)
Theorem reply_needs_response_and_follow_up :
  forall (evaluation : json),
    (forall reply,
        utils.response_with_follow_up evaluation = Returned reply <->
        exists fields response follow_up,
          evaluation = JObj fields /\
          Dict.get "response" fields = Some (JStr response) /\
          Dict.get "follow_up" fields = Some (JStr follow_up) /\
          reply = response ++ " " ++ follow_up) /\
    (forall e,
        utils.response_with_follow_up evaluation = Raised e ->
        exn_class e = KeyError \/ exn_class e = TypeError).
Proof.
  intro evaluation. split.
  - intro reply. split.
    + unfold utils.response_with_follow_up, json_getitem, dict_getitem.
      destruct evaluation as [| | | | | |fields]; try discriminate.
      destruct (Dict.get "response" fields) as [r|] eqn:Er; [|discriminate].
      destruct r as [| | | |response| |]; try discriminate.
      cbn [add_json_str].
      destruct (Dict.get "follow_up" fields) as [f|] eqn:Ef; [|discriminate].
      destruct f as [| | | |follow_up| |]; try discriminate.
      cbn [add_str_json]. intro H. injection H as <-.
      exists fields, response, follow_up. rewrite <- append_associative. auto.
    + intros (fields & response & follow_up & -> & Hr & Hf & ->).
      unfold utils.response_with_follow_up, json_getitem, dict_getitem.
      rewrite Hr. cbn [add_json_str]. rewrite Hf. cbn [add_str_json].
      rewrite append_associative. reflexivity.
  - intro e. unfold utils.response_with_follow_up, json_getitem, dict_getitem.
    destruct evaluation as [| | | | | |fields];
      try (intro H; injection H as <-; right; reflexivity).
    destruct (Dict.get "response" fields) as [r|];
      [|intro H; injection H as <-; left; reflexivity].
    destruct r as [| | | |response| |];
      try (intro H; injection H as <-; right; reflexivity).
    cbn [add_json_str].
    destruct (Dict.get "follow_up" fields) as [f|];
      [|intro H; injection H as <-; left; reflexivity].
    destruct f as [| | | |follow_up| |]; cbn [add_str_json];
      try (intro H; injection H as <-; right; reflexivity).
    discriminate.
Qed.

(** ** What the Gateway logs *)

Lemma chain_log_quiet {A} cfg first second none (o1 o2 : outcome A) :
  chain_log cfg first second none o1 o2 <> [] /\
  quiet (chain_log cfg first second none o1 o2) = first_returns cfg o1 o2.
Proof.
  unfold chain_log, second_log, first_returns, quiet, returned.
  destruct (has_openai cfg), (has_anthropic cfg), o1, o2; cbn;
    split; first [discriminate | reflexivity].
Qed.

(** X13. A failure is never silent.  Each Gateway operation adds at least
    one record to the log of [ai_bridge], and the records it adds hold no
    [ERROR] record exactly when the provider consulted first (the primary
    when it is configured, else the secondary) is configured and
    returns. *)
Theorem gateway_logs_every_failure :
  forall (json_loads : string -> loaded) (cfg : config) (w : world) (p : process),
    (forall h st info, exists l,
        log (snd (ai_bridge.generate_chat_response cfg w h st info p)) = (log p ++ l)%list /\
        l <> [] /\
        quiet l = first_returns cfg (chat_primary w h st info) (chat_secondary w h st info)) /\
    (forall ts, exists l,
        log (snd (ai_bridge.generate_technical_questions cfg w ts p)) = (log p ++ l)%list /\
        l <> [] /\
        quiet l = first_returns cfg (questions_primary w ts) (questions_secondary w ts)) /\
    (forall q a ts, exists l,
        log (snd (ai_bridge.evaluate_technical_response json_loads cfg w q a ts p))
        = (log p ++ l)%list /\
        l <> [] /\
        quiet l = first_returns cfg (evaluate_primary json_loads w q a ts)
                    (evaluate_secondary json_loads w q a ts)).
Proof.
  intros json_loads cfg w p. split; [|split].
  - intros h st info. rewrite generate_chat_response_run. cbn [snd log].
    eexists. split; [reflexivity|]. apply chain_log_quiet.
  - intros ts. rewrite generate_technical_questions_run. cbn [snd log].
    eexists. split; [reflexivity|]. apply chain_log_quiet.
  - intros q a ts. rewrite evaluate_technical_response_run. cbn [snd log].
    eexists. split; [reflexivity|]. apply chain_log_quiet.
Qed.

(** ** Runs without a deliverable action *)

Ltac first_message :=
  session_fields; gateway_runs; do 2 eexists;
  rewrite <- ?app_assoc; cbn [List.app]; reflexivity.

(** X14. Once the welcome message is logged, a run whose action the
    current stage does not accept (no action, a form of another stage, an
    empty selection, an empty input, typed input while a form is shown)
    returns and changes nothing: neither the session, nor the log, nor the
    Gateway is touched.  A run whose action is accepted logs the user's
    message first. *)
Theorem undeliverable_action_changes_nothing :
  forall (json_loads : string -> loaded) (cfg : config) (w : world)
         (a : app.action) (p : process),
    chat_history (session p) <> [] ->
    (deliverable (interview_stage (session p)) a = false ->
     app.run json_loads cfg w a p = (Returned tt, p)) /\
    (deliverable (interview_stage (session p)) a = true ->
     exists text rest,
       chat_history (session (snd (app.run json_loads cfg w a p)))
       = (chat_history (session p) ++ mk_message "user" text :: rest)%list).
Proof.
  intros json_loads cfg w a p Hh.
  assert (El : (List.length (chat_history (session p)) =? 0)%nat = false).
  { destruct (chat_history (session p)); [contradiction | reflexivity]. }
  unfold deliverable. unfold_app. session_fields. rewrite El. session_fields.
  destruct (Z.eqb_spec (interview_stage (session p)) 2) as [E2|N2]; session_fields.
  { rewrite ?E2. cbn [Z.eqb Pos.eqb andb orb negb].
    destruct a; rewrite ?andb_false_r; split; intro H;
      first [discriminate H | reflexivity | first_message]. }
  destruct (Z.eqb_spec (interview_stage (session p)) 3) as [E3|N3]; session_fields.
  { rewrite ?E3. cbn [Z.eqb Pos.eqb andb orb negb].
    destruct a; rewrite ?andb_false_r; split; intro H;
      first [discriminate H | reflexivity | first_message]. }
  destruct (Z.eqb_spec (interview_stage (session p)) 4) as [E4|N4]; session_fields.
  { rewrite ?E4. cbn [Z.eqb Pos.eqb andb orb negb].
    destruct a as [| | |selected|]; rewrite ?andb_false_r;
      [| | |destruct selected|]; split; intro H;
      first [discriminate H | reflexivity | first_message]. }
  cbn [orb negb]. destruct a as [| | | |user_input];
    try (split; intro H; first [discriminate H | reflexivity]).
  rewrite andb_true_r.
  destruct (user_input =? "")%string; cbn [negb]; session_fields;
    split; intro H; first [discriminate H | reflexivity | idtac].
  destruct (handle_user_response_history json_loads cfg w user_input p) as (rest & Hr & _).
    exists user_input, rest. exact Hr.
Qed.

(** In the sample session at stage 2, typed input is not accepted, and the
    run leaves the process as it is. *)
Lemma undeliverable_action_witness :
  app.run Json.loads primary_only broken (app.Send "hello")
    (snd (run_all Json.loads primary_only (firstn 2 (up_to_tech_stack broken))
            initial_process))
  = (Returned tt,
     snd (run_all Json.loads primary_only (firstn 2 (up_to_tech_stack broken))
            initial_process)).
Proof.
  apply (undeliverable_action_changes_nothing Json.loads primary_only broken
           (app.Send "hello")).
  - vm_compute. discriminate.
  - vm_compute. reflexivity.
Defined.

(** ** What the Gateway is asked *)

Lemma list_getitem_In {A} (l : list A) i x : list_getitem l i = Returned x -> In x l.
Proof.
  unfold list_getitem.
  destruct (_ || _)%bool; [discriminate|].
  destruct (nth_error l _) eqn:E; [|discriminate].
  intro H. injection H as <-. eapply nth_error_In. exact E.
Qed.

Ltac prefix_of :=
  first [ exists []; symmetry; apply app_nil_r
        | eexists; rewrite <- ?app_assoc; cbn [List.app]; reflexivity ].

Ltac new_calls :=
  session_fields; gateway_runs; eexists;
  (split; [rewrite <- ?app_assoc; cbn [List.app];
           first [reflexivity | symmetry; apply app_nil_r]|]);
  repeat first
    [ apply Forall_nil
    | apply Forall_cons; [cbn [asked_about]; session_fields; split; prefix_of|] ].

Lemma handle_user_response_calls json_loads cfg w user_input p :
  exists new,
    calls (snd (utils.handle_user_response json_loads cfg w user_input p))
    = (calls p ++ new)%list /\
    Forall (asked_about
              (session (snd (utils.handle_user_response json_loads cfg w user_input p))))
           new.
Proof.
  unfold_controller. session_fields.
  destruct (Z.eqb_spec (interview_stage (session p)) 1) as [E1|N1]; session_fields.
  { new_calls. }
  destruct (Z.eqb_spec (interview_stage (session p)) 5) as [E5|N5]; session_fields.
  2: { new_calls. }
  unfold dict_getitem.
  destruct (technical_questions (session p)) as [|q0 qs] eqn:Eq; session_fields.
  - destruct (Dict.get "tech_stack" (candidate_info (session p))) as [ts|] eqn:Et;
      session_fields; [|new_calls].
    gateway_runs. destruct (filter _ _); session_fields;
      (eexists; split; [reflexivity|]); constructor; [exact Et | constructor | exact Et
                                                      | constructor].
  - destruct (list_getitem (q0 :: qs) (current_question_index (session p))) as [cq|e] eqn:Ecq;
      session_fields; [|new_calls].
    apply list_getitem_In in Ecq.
    destruct (Dict.get "tech_stack" (candidate_info (session p))) as [ts|] eqn:Et;
      session_fields; [|new_calls].
    gateway_runs.
    assert (Hin : forall later,
               In (mk_message "user" user_input)
                  ((chat_history (session p) ++ [mk_message "user" user_input]) ++ later)).
    { intro later. apply in_or_app. left. apply in_or_app. right. left. reflexivity. }
    destruct (utils.response_with_follow_up _) as [reply|e]; session_fields.
    + rewrite ?Eq.
      destruct (_ || _)%bool; session_fields; gateway_runs;
        (eexists; split; [rewrite <- ?app_assoc; cbn [List.app]; reflexivity|]).
      * constructor; [|constructor; [|constructor]].
        -- cbn [asked_about]. session_fields. rewrite ?Eq.
           split; [exact Ecq|]. split; [|exact Et].
           rewrite <- app_assoc. apply Hin.
        -- cbn [asked_about]. session_fields. split; prefix_of.
      * constructor; [|constructor].
        cbn [asked_about]. session_fields. rewrite ?Eq.
        split; [exact Ecq|]. split; [apply Hin | exact Et].
    + eexists; split; [reflexivity|]. constructor; [|constructor].
      cbn [asked_about]. session_fields. rewrite ?Eq.
      split; [exact Ecq|]. split; [|exact Et].
      rewrite <- (app_nil_r (_ ++ _)). apply Hin.
Qed.

Lemma run_calls json_loads cfg w a p :
  exists new,
    calls (snd (app.run json_loads cfg w a p)) = (calls p ++ new)%list /\
    Forall (asked_about (session (snd (app.run json_loads cfg w a p)))) new.
Proof.
  unfold_app. session_fields.
  destruct (List.length (chat_history (session p)) =? 0)%nat; session_fields.
  { new_calls. }
  destruct (Z.eqb_spec (interview_stage (session p)) 2); session_fields.
  { destruct a; new_calls. }
  destruct (Z.eqb_spec (interview_stage (session p)) 3); session_fields.
  { destruct a; new_calls. }
  destruct (Z.eqb_spec (interview_stage (session p)) 4); session_fields.
  { destruct a as [| | |selected|]; try new_calls.
    destruct selected; new_calls. }
  destruct a as [| | | |user_input]; try new_calls.
  destruct (String.eqb_spec user_input ""); [new_calls|].
  apply handle_user_response_calls.
Qed.

Lemma asked_about_later s s' c :
  (exists added, chat_history s' = (chat_history s ++ added)%list) ->
  (exists added, candidate_info s' = (candidate_info s ++ added)%list) ->
  (technical_questions s <> [] -> technical_questions s' = technical_questions s) ->
  asked_about s c -> asked_about s' c.
Proof.
  intros [hmore Hh] [imore Hi] Hq.
  destruct c as [h st info|ts|q a ts]; cbn [asked_about].
  - intros [[l1 H1] [l2 H2]]. split.
    + exists (l1 ++ hmore)%list. rewrite Hh, H1, app_assoc. reflexivity.
    + exists (l2 ++ imore)%list. rewrite Hi, H2, app_assoc. reflexivity.
  - intro H. rewrite Hi. apply dict_get_app. exact H.
  - intros (Hin & Ha & Ht). split; [|split].
    + rewrite Hq; [exact Hin|]. intro E. rewrite E in Hin. contradiction.
    + rewrite Hh. apply in_or_app. left. exact Ha.
    + rewrite Hi. apply dict_get_app. exact Ht.
Qed.

Lemma run_all_calls json_loads cfg inputs :
  forall p,
    invariant (session p) -> profile (session p) ->
    Forall question_line (technical_questions (session p)) ->
    Forall (asked_about (session p)) (calls p) ->
    Forall (asked_about (session (snd (run_all json_loads cfg inputs p))))
           (calls (snd (run_all json_loads cfg inputs p))).
Proof.
  induction inputs as [|x rest IH]; intros p Hinv Hprof Hlines Hcalls; [exact Hcalls|].
  rewrite run_all_cons.
  destruct (run_calls json_loads cfg (fst x) (snd x) p) as (new & Hnew & Hasked).
  destruct (run_profile json_loads cfg (fst x) (snd x) p Hinv Hprof) as [Hprof1 Hinfo].
  destruct (run_all_questions json_loads cfg [x] p Hlines) as [Hlines1 Hkeep].
  rewrite run_all_cons in Hlines1, Hkeep. cbn [run_all snd] in Hlines1, Hkeep.
  apply IH.
  - apply run_invariant. exact Hinv.
  - exact Hprof1.
  - exact Hlines1.
  - rewrite Hnew. apply Forall_app. split; [|exact Hasked].
    eapply Forall_impl; [|exact Hcalls].
    intro c. apply asked_about_later; [apply run_history | exact Hinfo | exact Hkeep].
Qed.

(** X15. Whatever the Gateway was asked during a session belongs to that
    session as it stands: every chat request carried a beginning of the
    message log and of the candidate's fields, every generation request
    the tech stack the candidate selected, and every evaluation request a
    question of the stored list, an input the user sent, and that tech
    stack. *)
Theorem gateway_is_asked_about_the_session :
  forall (json_loads : string -> loaded) (cfg : config)
         (inputs : list (world * app.action)),
    let p := snd (run_all json_loads cfg inputs initial_process) in
    Forall (asked_about (session p)) (calls p).
Proof.
  intros json_loads cfg inputs p. subst p.
  apply run_all_calls.
  - apply invariant_initial.
  - apply profile_initial.
  - constructor.
  - constructor.
Qed.

(** ** When the interview is concluded *)

Lemma handle_user_response_concludes json_loads cfg w user_input p :
  invariant (session p) ->
  interview_stage (session p) = 5%Z ->
  let s' := session (snd (utils.handle_user_response json_loads cfg w user_input p)) in
  interview_stage s' = 6%Z ->
  technical_questions s' <> [] /\ current_question_index s' = question_bound s'.
Proof.
  intros Hinv E5. cbv zeta.
  pose proof (inv_cursor_live _ Hinv E5) as Hlive.
  pose proof (inv_cursor_low _ Hinv) as Hlow.
  unfold question_bound in *.
  unfold_controller. session_fields.
  rewrite E5. cbn [Z.eqb Pos.eqb]. session_fields.
  destruct (technical_questions (session p)) as [|q0 qs] eqn:Eq; session_fields.
  - destruct (dict_getitem (candidate_info (session p)) "tech_stack") as [ts|e];
      session_fields; [|rewrite E5; discriminate].
    gateway_runs. destruct (filter _ _); session_fields; rewrite E5; discriminate.
  - specialize (Hlive ltac:(discriminate)).
    destruct (list_getitem (q0 :: qs) (current_question_index (session p))) as [cq|e];
      session_fields; [|rewrite E5; discriminate].
    destruct (dict_getitem (candidate_info (session p)) "tech_stack") as [ts|e];
      session_fields; [|rewrite E5; discriminate].
    gateway_runs.
    destruct (utils.response_with_follow_up _) as [reply|e];
      session_fields; [|rewrite E5; discriminate].
    rewrite ?Eq.
    destruct (_ || _)%bool eqn:Ec; session_fields; gateway_runs;
      [|rewrite E5; discriminate].
    intros _. rewrite ?Eq. split; [discriminate|].
    apply orb_true_iff in Ec. lia.
Qed.

Lemma run_concludes json_loads cfg w a p :
  invariant (session p) ->
  (interview_stage (session p) = 6%Z ->
   technical_questions (session p) <> [] /\
   current_question_index (session p) = question_bound (session p)) ->
  let s' := session (snd (app.run json_loads cfg w a p)) in
  interview_stage s' = 6%Z ->
  technical_questions s' <> [] /\ current_question_index s' = question_bound s'.
Proof.
  intros Hinv Hp. cbv zeta.
  destruct (Z.le_gt_cases (interview_stage (session p)) 4) as [H4|H5].
  { rewrite (run_stage_table json_loads cfg w a p Hinv H4).
    destruct (own_input _ _); intro; lia. }
  pose proof (inv_stage_range _ Hinv) as Hr.
  assert (El : (List.length (chat_history (session p)) =? 0)%nat = false).
  { destruct (chat_history (session p)) eqn:Eh; [|reflexivity].
    apply (inv_started _ Hinv) in Eh. lia. }
  unfold_app. session_fields. rewrite El. session_fields.
  destruct (Z.eqb_spec (interview_stage (session p)) 2); [lia|]. session_fields.
  destruct (Z.eqb_spec (interview_stage (session p)) 3); [lia|]. session_fields.
  destruct (Z.eqb_spec (interview_stage (session p)) 4); [lia|]. session_fields.
  destruct a as [| | | |user_input]; session_fields; try exact Hp.
  destruct (user_input =? "")%string; session_fields; [exact Hp|].
  destruct (Z.eq_dec (interview_stage (session p)) 5) as [E5|N5].
  - apply handle_user_response_concludes; assumption.
  - destruct (plain_turn json_loads cfg w user_input p) as (p1 & Hrun & Hq & _ & Hc & Hs & _);
      [lia | lia |].
    rewrite Hrun. cbn [snd]. unfold question_bound in *.
    rewrite Hq, Hc, Hs. exact Hp.
Qed.

Lemma run_all_concludes json_loads cfg inputs :
  forall p,
    invariant (session p) ->
    (interview_stage (session p) = 6%Z ->
     technical_questions (session p) <> [] /\
     current_question_index (session p) = question_bound (session p)) ->
    let s' := session (snd (run_all json_loads cfg inputs p)) in
    interview_stage s' = 6%Z ->
    technical_questions s' <> [] /\ current_question_index s' = question_bound s'.
Proof.
  induction inputs as [|x rest IH]; intros p Hinv Hp; [exact Hp|].
  cbv zeta. rewrite run_all_cons. apply IH.
  - apply run_invariant. exact Hinv.
  - apply run_concludes; assumption.
Qed.

(** X16. In every session the interview is concluded exactly when
    questions are stored and the cursor has reached the smaller of their
    number and five: stage 6 is never entered before the last question
    within the bound is answered, and never missed after it. *)
Theorem concluded_exactly_at_the_bound :
  forall (json_loads : string -> loaded) (cfg : config)
         (inputs : list (world * app.action)),
    let s := session_after json_loads cfg inputs in
    interview_stage s = 6%Z <->
    technical_questions s <> [] /\ current_question_index s = question_bound s.
Proof.
  intros json_loads cfg inputs s. subst s. unfold session_after.
  assert (Hinv : invariant (session (snd (run_all json_loads cfg inputs initial_process))))
    by (apply run_all_invariant, invariant_initial).
  split.
  - apply run_all_concludes; [apply invariant_initial|].
    cbn. discriminate.
  - intros [Hq Hc].
    pose proof (inv_stage_range _ Hinv) as Hr.
    pose proof (inv_no_questions_yet _ Hinv) as Hnone.
    pose proof (inv_cursor_live _ Hinv) as Hlive.
    destruct (Z.eq_dec
                (interview_stage
                   (session (snd (run_all json_loads cfg inputs initial_process)))) 5)
      as [E5|N5].
    + specialize (Hlive E5 Hq). lia.
    + destruct (Z.le_gt_cases
                  (interview_stage
                     (session (snd (run_all json_loads cfg inputs initial_process)))) 4)
        as [H4|H5]; [|lia].
      exfalso. apply Hq. apply Hnone. lia.
Qed.

(** ** One prompt for both providers *)

(** X17. The two helper modules build the same system prompt and the same
    question-generation prompt, and the prompt [ai_bridge] reports is that
    prompt whenever a provider is configured: which provider answers
    changes nothing in what the model is told, at any stage and for any
    candidate. *)
Theorem both_helpers_build_the_same_prompts :
  forall (cfg : config) (interview_stage : Z) (candidate_info : dict value)
         (tech_list : string),
    openai_helper.get_system_prompt interview_stage candidate_info
      = anthropic_helper.get_system_prompt interview_stage candidate_info /\
    openai_helper.questions_prompt tech_list = anthropic_helper.questions_prompt tech_list /\
    (has_openai cfg || has_anthropic cfg = true ->
     ai_bridge.get_system_prompt cfg interview_stage candidate_info
       = anthropic_helper.get_system_prompt interview_stage candidate_info).
Proof.
  intros cfg st info tl. split; [reflexivity|]. split; [reflexivity|].
  unfold ai_bridge.get_system_prompt.
  destruct (has_openai cfg), (has_anthropic cfg); intro H;
    first [reflexivity | discriminate H].
Qed.

(** ** What follows an answer *)

(** X18. At stage 5 with questions stored, the user's answer is followed
    in the message log by the reply put together from the evaluation of
    the answer against the question under the cursor, then by the
    concluding chat reply when the turn ends the interview, and by nothing
    else: the controller itself never shows a stored question other than
    the first.  When the turn raises, the answer is the last message. *)
Theorem answer_is_followed_by_the_evaluation_reply :
  forall (json_loads : string -> loaded) (cfg : config) (w : world)
         (user_input : string) (p : process),
    interview_stage (session p) = 5%Z ->
    technical_questions (session p) <> [] ->
    let result := utils.handle_user_response json_loads cfg w user_input p in
    let answered := (chat_history (session p) ++ [mk_message "user" user_input])%list in
    match fst result with
    | Raised _ => chat_history (session (snd result)) = answered
    | Returned _ =>
        exists current_question tech_stack reply,
          list_getitem (technical_questions (session p))
            (current_question_index (session p)) = Returned current_question /\
          Dict.get "tech_stack" (candidate_info (session p)) = Some tech_stack /\
          utils.response_with_follow_up
            (evaluate_value json_loads cfg w current_question user_input tech_stack)
          = Returned reply /\
          let replied := (answered ++ [mk_message "assistant" reply])%list in
          (interview_stage (session (snd result)) = 5%Z /\
           chat_history (session (snd result)) = replied) \/
          (interview_stage (session (snd result)) = 6%Z /\
           chat_history (session (snd result))
           = (replied
              ++ [mk_message "assistant"
                    (chat_value cfg w replied 6 (candidate_info (session p)))])%list)
    end.
Proof.
  intros json_loads cfg w user_input p E5 Hq. cbv zeta.
  unfold_controller. session_fields. rewrite E5. cbn [Z.eqb Pos.eqb]. session_fields.
  destruct (technical_questions (session p)) as [|q0 qs] eqn:Eq; [congruence|].
  session_fields.
  destruct (list_getitem (q0 :: qs) (current_question_index (session p))) as [cq|e] eqn:Ecq;
    session_fields; [|reflexivity].
  unfold dict_getitem.
  destruct (Dict.get "tech_stack" (candidate_info (session p))) as [ts|] eqn:Et;
    session_fields; [|reflexivity].
  gateway_runs.
  destruct (utils.response_with_follow_up _) as [reply|e] eqn:Er;
    session_fields; [|reflexivity].
  rewrite ?Eq.
  destruct (_ || _)%bool; session_fields; gateway_runs;
    exists cq, ts, reply; (split; [reflexivity|]); (split; [reflexivity|]);
    (split; [exact Er|]).
  - right. split; reflexivity.
  - left. split; [exact E5 | reflexivity].
Qed.

(** The first answer of the sample session with two questions: the reply
    of the sample evaluation follows it, the second question does not. *)
Lemma answer_is_followed_witness :
  chat_history
    (session (snd (utils.handle_user_response Json.loads primary_only evaluating
                     "A lightweight thread." asked_two_questions)))
  = (chat_history (session asked_two_questions)
     ++ [mk_message "user" "A lightweight thread.";
         mk_message "assistant" "Good answer. Why is that?"])%list.
Proof.
  pose proof (answer_is_followed_by_the_evaluation_reply Json.loads primary_only
                evaluating "A lightweight thread." asked_two_questions) as H.
  assert (E5 : interview_stage (session asked_two_questions) = 5%Z)
    by (vm_compute; reflexivity).
  assert (Hq : technical_questions (session asked_two_questions) <> [])
    by (vm_compute; discriminate).
  specialize (H E5 Hq). cbv zeta in H.
  assert (Ef : fst (utils.handle_user_response Json.loads primary_only evaluating
                      "A lightweight thread." asked_two_questions) = Returned tt)
    by (vm_compute; reflexivity).
  rewrite Ef in H.
  destruct H as (cq & ts & reply & Hcq & Hts & Hr & [[_ Hh] | [H6 _]]).
  - rewrite Hh. vm_compute in Hcq. injection Hcq as <-.
    vm_compute in Hts. injection Hts as <-.
    vm_compute in Hr. injection Hr as <-. reflexivity.
  - vm_compute in H6. discriminate H6.
Defined.

(** ** What the forms record *)

(** X19. An accepted input is recorded as entered: the name typed at
    stage 1, the contact line made of the e-mail address and the phone
    number at stage 2, the years of experience and the position at
    stage 3, and the selected technologies at stage 4 are what
    [candidate_info] holds under the field's key after the run. *)
Theorem accepted_input_is_recorded :
  forall (json_loads : string -> loaded) (cfg : config) (w : world)
         (a : app.action) (p : process),
    chat_history (session p) <> [] ->
    (1 <= interview_stage (session p) <= 4)%Z ->
    deliverable (interview_stage (session p)) a = true ->
    let info := candidate_info (session (snd (app.run json_loads cfg w a p))) in
    match a with
    | app.NoAction => False
    | app.Send user_input => Dict.get "name" info = Some (VStr user_input)
    | app.SubmitContact contact_email contact_phone =>
        Dict.get "contact" info
        = Some (VStr ("Email: " ++ contact_email ++ ", Phone: " ++ contact_phone))
    | app.SubmitExperience years_experience desired_position =>
        Dict.get "experience" info = Some (VInt years_experience) /\
        Dict.get "position" info = Some (VStr desired_position)
    | app.SubmitTechStack selected_techs =>
        Dict.get "tech_stack" info = Some (VList selected_techs)
    end.
Proof.
  intros json_loads cfg w a p Hh Hr.
  assert (El : (List.length (chat_history (session p)) =? 0)%nat = false).
  { destruct (chat_history (session p)); [contradiction | reflexivity]. }
  unfold deliverable. cbv zeta. unfold_app. session_fields. rewrite El. session_fields.
  destruct (Z.eqb_spec (interview_stage (session p)) 2) as [E2|N2]; session_fields.
  { destruct a; rewrite ?E2; cbn [Z.eqb Pos.eqb andb orb negb];
      rewrite ?andb_false_r; try discriminate.
    intros _. session_fields. gateway_runs. apply dict_get_set_same. }
  destruct (Z.eqb_spec (interview_stage (session p)) 3) as [E3|N3]; session_fields.
  { destruct a; rewrite ?E3; cbn [Z.eqb Pos.eqb andb orb negb];
      rewrite ?andb_false_r; try discriminate.
    intros _. session_fields. gateway_runs. split.
    - rewrite dict_get_set_other by discriminate. apply dict_get_set_same.
    - apply dict_get_set_same. }
  destruct (Z.eqb_spec (interview_stage (session p)) 4) as [E4|N4]; session_fields.
  { destruct a as [| | |selected|]; rewrite ?E4; cbn [Z.eqb Pos.eqb andb orb negb];
      rewrite ?andb_false_r; try discriminate.
    destruct selected; [discriminate|].
    intros _. session_fields. gateway_runs. apply dict_get_set_same. }
  assert (E1 : interview_stage (session p) = 1%Z) by lia.
  destruct a as [| | | |user_input]; rewrite ?E1; cbn [Z.eqb Pos.eqb andb orb negb];
    rewrite ?andb_false_r; try discriminate.
  rewrite andb_true_r.
  destruct (user_input =? "")%string; cbn [negb]; [discriminate|].
  intros _. session_fields.
  destruct (handle_user_response_records json_loads cfg w user_input p)
    as [[_ [Hs | [E5 _]]] | (_ & _ & Hi)].
  - rewrite (handle_user_response_at_stage_1 json_loads cfg w user_input p E1) in Hs. lia.
  - lia.
  - rewrite Hi. apply dict_get_set_same.
Qed.

(** The tech stack submitted in the sample session is the one recorded. *)
Lemma accepted_input_witness :
  Dict.get "tech_stack"
    (candidate_info
       (session (snd (app.run Json.loads primary_only broken
                        (app.SubmitTechStack ["Python"; "Go"])
                        (snd (run_all Json.loads primary_only
                                (firstn 4 (up_to_tech_stack broken)) initial_process))))))
  = Some (VList ["Python"; "Go"]).
Proof.
  apply (accepted_input_is_recorded Json.loads primary_only broken
           (app.SubmitTechStack ["Python"; "Go"])).
  - vm_compute. discriminate.
  - vm_compute. split; discriminate.
  - vm_compute. reflexivity.
Defined.
